(** * HeartGuard: the record store, the aggregator, the threshold evaluator
      and the CSV formatter

    A shallow embedding of
      - [src/services/storageService.js], class [StorageService]: the
        record store and [getStatistics];
      - [src/services/healthService.js], class [HealthService]:
        [checkHeartRateThreshold] and [checkBloodOxygen];
      - [src/screens/settings/index.js], the settings screen:
        [convertToCSV];
    and the properties of the specification that can be settled on it.

    Modelling conventions.
      - A JavaScript number is a [JS.number]: an exact rational, one of the
        two infinities, or [NaN].  Binary rounding of IEEE doubles and the
        sign of zero are not modelled; every other case of the operators the
        code uses ([+], [-], [/], [<], [>], [Math.round], [Math.max],
        [Math.min]) is written out, in particular [0 / 0 = NaN] and the
        comparisons with [NaN], which are all false.
      - An object of the store is a record whose fields are optional: a
        field that is [None] is absent ([undefined]).
      - [AsyncStorage] is a finite map from key strings to stored items; the
        world threads it together with the number of clock readings and of
        storage calls made so far.  What the clock shows at each reading and
        which storage calls reject are given by two oracles, so every
        theorem holds for every clock and every pattern of storage faults.
      - [async] methods run to completion one at a time (the specification
        has the caller serialise them), so [await] is sequencing.
      - [try { .. } catch (error) { console.error(..); return d; }] is the
        combinator [try_catch]; the logged diagnostic is not modelled. *)

From Stdlib Require Import QArith Qround ZArith Lia Lqa Ascii String Floats
  Sorted.
From stdpp Require Import base option list strings pretty gmap.

Open Scope string_scope.
Open Scope Z_scope.

(** The line feed of ['\n']. *)
Definition LF : string := String (Ascii.ascii_of_nat 10) EmptyString.

(** ** JavaScript numbers *)

Module JS.

Inductive number : Type :=
| Fin (q : Q)
| PosInf
| NegInf
| NaN.

Definition ofZ (z : Z) : number := Fin (inject_Z z).
Definition ofNat (n : nat) : number := ofZ (Z.of_nat n).

(** [ToNumber(undefined)] is [NaN]. *)
Definition toNumber (v : option Q) : number :=
  match v with
  | Some q => Fin q
  | None => NaN
  end.

Definition Qgtb (a b : Q) : bool :=
  match (a ?= b)%Q with Gt => true | _ => false end.
Definition Qltb (a b : Q) : bool :=
  match (a ?= b)%Q with Lt => true | _ => false end.
Definition Qis0 (a : Q) : bool :=
  match (a ?= 0)%Q with Eq => true | _ => false end.

(** [x + y] *)
Definition add (x y : number) : number :=
  match x, y with
  | NaN, _ | _, NaN => NaN
  | PosInf, NegInf | NegInf, PosInf => NaN
  | PosInf, _ | _, PosInf => PosInf
  | NegInf, _ | _, NegInf => NegInf
  | Fin a, Fin b => Fin (a + b)
  end.

Definition neg (x : number) : number :=
  match x with
  | Fin a => Fin (- a)
  | PosInf => NegInf
  | NegInf => PosInf
  | NaN => NaN
  end.

(** [x - y] *)
Definition sub (x y : number) : number := add x (neg y).

(** [x * y] *)
Definition mul (x y : number) : number :=
  match x, y with
  | NaN, _ | _, NaN => NaN
  | Fin a, Fin b => Fin (a * b)
  | Fin a, PosInf | PosInf, Fin a =>
      if Qis0 a then NaN else if Qgtb a 0 then PosInf else NegInf
  | Fin a, NegInf | NegInf, Fin a =>
      if Qis0 a then NaN else if Qgtb a 0 then NegInf else PosInf
  | PosInf, PosInf | NegInf, NegInf => PosInf
  | PosInf, NegInf | NegInf, PosInf => NegInf
  end.

(** [x / y]; a zero divisor is the positive zero (the divisors of the code
    are array lengths). *)
Definition div (x y : number) : number :=
  match x, y with
  | NaN, _ | _, NaN => NaN
  | Fin a, Fin b =>
      if Qis0 b
      then (if Qis0 a then NaN else if Qgtb a 0 then PosInf else NegInf)
      else Fin (a / b)
  | Fin _, PosInf | Fin _, NegInf => Fin 0
  | PosInf, Fin b => if Qltb b 0 then NegInf else PosInf
  | NegInf, Fin b => if Qltb b 0 then PosInf else NegInf
  | PosInf, PosInf | PosInf, NegInf | NegInf, PosInf | NegInf, NegInf => NaN
  end.

(** [x > y] *)
Definition gtb (x y : number) : bool :=
  match x, y with
  | NaN, _ | _, NaN => false
  | Fin a, Fin b => Qgtb a b
  | PosInf, PosInf => false
  | PosInf, _ => true
  | NegInf, _ => false
  | Fin _, NegInf => true
  | Fin _, PosInf => false
  end.

(** [x < y] *)
Definition ltb (x y : number) : bool := gtb y x.

(** [Math.round(x)]: the nearest integer, a half goes up. *)
Definition round (x : number) : number :=
  match x with
  | Fin a => ofZ (Qfloor (a + (1 # 2))%Q)
  | _ => x
  end.

(** [Math.max(...xs)] and [Math.min(...xs)]: [NaN] as soon as one argument
    is, [-Infinity] and [Infinity] for no argument. *)
Definition max2 (x y : number) : number :=
  match x, y with
  | NaN, _ | _, NaN => NaN
  | _, _ => if gtb y x then y else x
  end.

Definition min2 (x y : number) : number :=
  match x, y with
  | NaN, _ | _, NaN => NaN
  | _, _ => if ltb y x then y else x
  end.

Definition mathMax (xs : list number) : number := fold_left max2 xs NegInf.
Definition mathMin (xs : list number) : number := fold_left min2 xs PosInf.

(** [xs.reduce((a, b) => a + b, 0)] *)
Definition sum (xs : list number) : number := fold_left add xs (Fin 0).

(** The order of the extended rationals; [NaN] is related to nothing. *)
Definition le (x y : number) : Prop :=
  match x, y with
  | NaN, _ | _, NaN => False
  | Fin a, Fin b => (a <= b)%Q
  | NegInf, _ | _, PosInf => True
  | _, _ => False
  end.


End JS.

(** ** The data model *)

(** A stored object: a heart-rate record [{value, timestamp, date}] or a
    health record [{heartRate, bloodOxygen, steps, calories, distance,
    timestamp, date}].  Objects are open in JavaScript, so one record type
    with optional fields covers both, and also what a caller may pass to
    [saveHealthRecord]. *)
Record Sample : Type := mkSample {
  value : option Q;
  heartRate : option Q;
  bloodOxygen : option Q;
  steps : option Q;
  calories : option Q;
  distance : option Q;
  timestamp : option Z;
  date : option string
}.

(** The object [getStatistics] returns; [firstAvg] and [secondAvg] are
    absent from the zero state. *)
Record Statistics : Type := mkStatistics {
  average : JS.number;
  max : JS.number;
  min : JS.number;
  count : nat;
  trend : string;
  firstAvg : option JS.number;
  secondAvg : option JS.number
}.

Definition zeroStatistics : Statistics :=
  {| average := JS.ofZ 0; max := JS.ofZ 0; min := JS.ofZ 0; count := 0%nat;
     trend := "stable"; firstAvg := None; secondAvg := None |}.

(** ** The aggregator: the body of [getStatistics] once the data is read
    (storageService.js, lines 242-279) *)

Definition valuesOf (data : list Sample) : list JS.number :=
  map (fun r => JS.toNumber (value r)) data.

Definition halfAverage (half : list JS.number) : JS.number :=
  JS.div (JS.sum half) (JS.ofNat (length half)).

(** [let trend = 'stable'; if (..) trend = 'rising'; if (..) trend =
    'falling';]: two assignments in a row, the second one wins. *)
Definition trendOf (firstAvg secondAvg : JS.number) : string :=
  let trend := "stable" in
  let trend :=
    if JS.gtb secondAvg (JS.add firstAvg (JS.ofZ 5)) then "rising"
    else trend in
  let trend :=
    if JS.ltb secondAvg (JS.sub firstAvg (JS.ofZ 5)) then "falling"
    else trend in
  trend.

Definition computeStatistics (data : list Sample) : Statistics :=
  if (length data =? 0)%nat then zeroStatistics
  else
    let values := valuesOf data in
    let sum := JS.sum values in
    let average := JS.round (JS.div sum (JS.ofNat (length values))) in
    let max := JS.mathMax values in
    let min := JS.mathMin values in
    let mid := (length values / 2)%nat in
    let firstHalf := take mid values in
    let secondHalf := drop mid values in
    let firstAvg := halfAverage firstHalf in
    let secondAvg := halfAverage secondHalf in
    {| average := average; max := max; min := min;
       count := length data;
       trend := trendOf firstAvg secondAvg;
       firstAvg := Some (JS.round firstAvg);
       secondAvg := Some (JS.round secondAvg) |}.

(** ** The JavaScript runtime: what [Date] and template strings print

    The calendar, the time zone and the locale tables belong to the engine,
    not to the repository; the code only calls them. *)
Class Runtime : Type := {
  (** [new Date(t).toISOString()] *)
  toISOString : Z -> string;
  (** [new Date(t).toLocaleDateString('en-US')] *)
  toLocaleDateString : Z -> string;
  (** [new Date(t).toLocaleTimeString('en-US')] *)
  toLocaleTimeString : Z -> string;
  (** [d.setHours(0, 0, 0, 0); d.getTime()] for [d = new Date(t)] *)
  startOfLocalDay : Z -> Z;
  (** [`${x}`] for a finite number [x] *)
  numberToString : Q -> string
}.

(** [`${x}`] for a number and for a field that may be absent. *)
Definition template `{Runtime} (x : JS.number) : string :=
  match x with
  | JS.Fin q => numberToString q
  | JS.PosInf => "Infinity"
  | JS.NegInf => "-Infinity"
  | JS.NaN => "NaN"
  end.

Definition templateField `{Runtime} (v : option Q) : string :=
  match v with
  | Some q => numberToString q
  | None => "undefined"
  end.

(** ** The world: [AsyncStorage], the clock and the storage faults *)

Module Thresholds.
(** What is stored under the thresholds key: [{min, max}] from the
    settings screen, [{min, max, minBloodOxygen}] by default. *)
Record t : Type := mk {
  min : option Q;
  max : option Q;
  minBloodOxygen : option Q
}.
End Thresholds.

Module UserSettings.
Record t : Type := mk {
  notifications : option bool;
  autoSave : option bool;
  theme : option string
}.
End UserSettings.

(** The values that are serialised to the store. *)
Inductive jsvalue : Type :=
| VArray (l : list Sample)
| VThresholds (t : Thresholds.t)
| VSettings (s : UserSettings.t).

(** A stored string: the JSON text of a value, or a text that does not
    parse. *)
Inductive jsonText : Type :=
| Json (v : jsvalue)
| Garbage.

Inductive Error : Type := StorageError | SyntaxError | TypeError.

Record World : Type := mkWorld {
  disk : gmap string jsonText;
  (** what the clock shows at its n-th reading *)
  clock : nat -> Z;
  clockReads : nat;
  (** whether the n-th call of [AsyncStorage] rejects *)
  rejects : nat -> bool;
  storageCalls : nat
}.

Inductive outcome (A : Type) : Type :=
| Return (a : A)
| Throw (e : Error).
Arguments Return {A} a.
Arguments Throw {A} e.

Definition Async (A : Type) : Type := World -> outcome A * World.

#[global] Instance Async_ret : MRet Async :=
  fun A a w => (Return a, w).

#[global] Instance Async_bind : MBind Async :=
  fun A B f m w =>
    match m w with
    | (Return a, w') => f a w'
    | (Throw e, w') => (Throw e, w')
    end.

Definition throw {A : Type} (e : Error) : Async A :=
  fun w => (Throw e, w).

(** [try { body } catch (error) { handler }] *)
Definition try_catch {A : Type} (body : Async A) (handler : Error -> Async A)
  : Async A :=
  fun w =>
    match body w with
    | (Return a, w') => (Return a, w')
    | (Throw e, w') => handler e w'
    end.

Definition tick (w : World) : World :=
  mkWorld (disk w) (clock w) (S (clockReads w)) (rejects w) (storageCalls w).

Definition called (w : World) : World :=
  mkWorld (disk w) (clock w) (clockReads w) (rejects w) (S (storageCalls w)).

Definition withDisk (d : gmap string jsonText) (w : World) : World :=
  mkWorld d (clock w) (clockReads w) (rejects w) (storageCalls w).

(** [Date.now()], and [new Date()] as the epoch milliseconds it holds. *)
Definition Date_now : Async Z :=
  fun w => (Return (clock w (clockReads w)), tick w).

Definition new_Date : Async Z := Date_now.

Module AsyncStorage.

Definition getItem (key : string) : Async (option jsonText) :=
  fun w =>
    if rejects w (storageCalls w) then (Throw StorageError, called w)
    else (Return (disk w !! key), called w).

Definition setItem (key : string) (text : jsonText) : Async unit :=
  fun w =>
    if rejects w (storageCalls w) then (Throw StorageError, called w)
    else (Return tt, called (withDisk (<[key := text]> (disk w)) w)).

(** A rejected [multiRemove] removes nothing. *)
Definition multiRemove (keys : list string) : Async unit :=
  fun w =>
    if rejects w (storageCalls w) then (Throw StorageError, called w)
    else (Return tt, called (withDisk (foldr delete (disk w) keys) w)).

End AsyncStorage.

Definition JSON_parse (text : jsonText) : Async jsvalue :=
  match text with
  | Json v => mret v
  | Garbage => throw SyntaxError
  end.

Definition JSON_stringify (v : jsvalue) : jsonText := Json v.

(** [history.push(record)] and [history.filter(p)]: a [TypeError] when
    [history] is not an array. *)
Definition push (history : jsvalue) (record : Sample) : Async jsvalue :=
  match history with
  | VArray l => mret (VArray (l ++ [record])%list)
  | _ => throw TypeError
  end.

Definition filter_ (history : jsvalue) (p : Sample -> bool)
  : Async (list Sample) :=
  match history with
  | VArray l => mret (List.filter p l)
  | _ => throw TypeError
  end.

(** [r.timestamp > x], [r.timestamp >= x], [r.timestamp <= x]: false when
    the field is absent. *)
Definition timestamp_gt (r : Sample) (x : Z) : bool :=
  match timestamp r with Some t => t >? x | None => false end.
Definition timestamp_ge (r : Sample) (x : Z) : bool :=
  match timestamp r with Some t => t >=? x | None => false end.
Definition timestamp_le (r : Sample) (x : Z) : bool :=
  match timestamp r with Some t => t <=? x | None => false end.

(** ** [src/services/storageService.js] *)

Module StorageService.

Module STORAGE_KEYS.
Definition HEART_RATE_HISTORY : string := "@HeartGuard:heartRateHistory".
Definition HEALTH_RECORDS : string := "@HeartGuard:healthRecords".
Definition THRESHOLDS : string := "@HeartGuard:thresholds".
Definition USER_SETTINGS : string := "@HeartGuard:userSettings".
End STORAGE_KEYS.

Definition msPerDay : Z := 24 * 60 * 60 * 1000.

Section WithRuntime.
Context `{Runtime}.

Definition getHeartRateHistory : Async jsvalue :=
  try_catch
    (data ← AsyncStorage.getItem STORAGE_KEYS.HEART_RATE_HISTORY;
     match data with
     | Some text => JSON_parse text
     | None => mret (VArray [])
     end)
    (fun error => mret (VArray [])).

Definition saveHeartRateRecord (heartRate : Q) : Async bool :=
  try_catch
    (now ← Date_now;
     today ← new_Date;
     let record :=
       {| value := Some heartRate;
          heartRate := None; bloodOxygen := None; steps := None;
          calories := None; distance := None;
          timestamp := Some now;
          date := Some (toISOString today) |} in
     history ← getHeartRateHistory;
     history ← push history record;
     now ← Date_now;
     let thirtyDaysAgo := now - 30 * msPerDay in
     filtered ← filter_ history (fun r => timestamp_gt r thirtyDaysAgo);
     AsyncStorage.setItem STORAGE_KEYS.HEART_RATE_HISTORY
       (JSON_stringify (VArray filtered));;
     mret true)
    (fun error => mret false).

Definition getHealthRecords : Async jsvalue :=
  try_catch
    (data ← AsyncStorage.getItem STORAGE_KEYS.HEALTH_RECORDS;
     match data with
     | Some text => JSON_parse text
     | None => mret (VArray [])
     end)
    (fun error => mret (VArray [])).

(** [{...record, timestamp: Date.now(), date: new Date().toISOString()}]:
    the two fields written after the spread replace those of [record]. *)
Definition saveHealthRecord (record : Sample) : Async bool :=
  try_catch
    (now ← Date_now;
     today ← new_Date;
     let fullRecord :=
       {| value := value record;
          heartRate := heartRate record;
          bloodOxygen := bloodOxygen record;
          steps := steps record;
          calories := calories record;
          distance := distance record;
          timestamp := Some now;
          date := Some (toISOString today) |} in
     history ← getHealthRecords;
     history ← push history fullRecord;
     now ← Date_now;
     let thirtyDaysAgo := now - 30 * msPerDay in
     filtered ← filter_ history (fun r => timestamp_gt r thirtyDaysAgo);
     AsyncStorage.setItem STORAGE_KEYS.HEALTH_RECORDS
       (JSON_stringify (VArray filtered));;
     mret true)
    (fun error => mret false).

(** [days = 7] when the argument is left out. *)
Definition getRecentData (days : option Z) : Async (list Sample) :=
  let days := default 7 days in
  try_catch
    (history ← getHeartRateHistory;
     now ← Date_now;
     let startDate := now - days * msPerDay in
     filter_ history (fun r => timestamp_gt r startDate))
    (fun error => mret []).

Definition getTodayData : Async (list Sample) :=
  try_catch
    (history ← getHeartRateHistory;
     today ← new_Date;
     let startOfDay := startOfLocalDay today in
     filter_ history (fun r => timestamp_ge r startOfDay))
    (fun error => mret []).

Definition getDataInRange (startDate endDate : Z) : Async (list Sample) :=
  try_catch
    (history ← getHeartRateHistory;
     filter_ history
       (fun r => timestamp_ge r startDate && timestamp_le r endDate))
    (fun error => mret []).

Definition saveThresholds (thresholds : Thresholds.t) : Async bool :=
  try_catch
    (AsyncStorage.setItem STORAGE_KEYS.THRESHOLDS
       (JSON_stringify (VThresholds thresholds));;
     mret true)
    (fun error => mret false).

Definition defaultThresholds : Thresholds.t :=
  {| Thresholds.min := Some (60 # 1)%Q;
     Thresholds.max := Some (100 # 1)%Q;
     Thresholds.minBloodOxygen := Some (95 # 1)%Q |}.

Definition getThresholds : Async jsvalue :=
  try_catch
    (data ← AsyncStorage.getItem STORAGE_KEYS.THRESHOLDS;
     match data with
     | Some text => JSON_parse text
     | None => mret (VThresholds defaultThresholds)
     end)
    (fun error => mret (VThresholds defaultThresholds)).

Definition saveUserSettings (settings : UserSettings.t) : Async bool :=
  try_catch
    (AsyncStorage.setItem STORAGE_KEYS.USER_SETTINGS
       (JSON_stringify (VSettings settings));;
     mret true)
    (fun error => mret false).

Definition defaultUserSettings : UserSettings.t :=
  {| UserSettings.notifications := Some true;
     UserSettings.autoSave := Some true;
     UserSettings.theme := Some "light"%string |}.

Definition getUserSettings : Async jsvalue :=
  try_catch
    (data ← AsyncStorage.getItem STORAGE_KEYS.USER_SETTINGS;
     match data with
     | Some text => JSON_parse text
     | None => mret (VSettings defaultUserSettings)
     end)
    (fun error => mret (VSettings defaultUserSettings)).

Definition clearAllData : Async bool :=
  try_catch
    (AsyncStorage.multiRemove
       [STORAGE_KEYS.HEART_RATE_HISTORY; STORAGE_KEYS.HEALTH_RECORDS];;
     mret true)
    (fun error => mret false).

Definition getStatistics (days : option Z) : Async Statistics :=
  let days := default 7 days in
  try_catch
    (data ← getRecentData (Some days);
     mret (computeStatistics data))
    (fun error => mret zeroStatistics).

End WithRuntime.

End StorageService.

(** ** [src/services/healthService.js]: the threshold evaluator *)

Module HealthService.

(** [this.thresholds] *)
Record thresholds : Type := mkThresholds {
  minHeartRate : JS.number;
  maxHeartRate : JS.number;
  minBloodOxygen : JS.number
}.

(** The thresholds the constructor sets. *)
Definition initialThresholds : thresholds :=
  {| minHeartRate := JS.ofZ 60;
     maxHeartRate := JS.ofZ 100;
     minBloodOxygen := JS.ofZ 95 |}.

Record Verdict : Type := mkVerdict {
  status : string;
  message : string;
  severity : string
}.

Section WithRuntime.
Context `{Runtime}.

(** [userAge = 30] when the argument is left out; [0.85] is the rational
    17/20. *)
Definition checkHeartRateThreshold (this : thresholds)
    (heartRate : JS.number) (userAge : option JS.number) : Verdict :=
  let userAge := default (JS.ofZ 30) userAge in
  if JS.ltb heartRate (minHeartRate this) then
    {| status := "low";
       message := "Heart rate is low (" ++ template heartRate ++ " BPM)"
                  ++ LF ++ "Rest and monitor carefully";
       severity := "warning" |}
  else if JS.gtb heartRate (maxHeartRate this) then
    let maxAllowed := JS.sub (JS.ofZ 220) userAge in
    if JS.gtb heartRate (JS.mul maxAllowed (JS.Fin (85 # 100))) then
      {| status := "high";
         message := "Heart rate is too high (" ++ template heartRate
                    ++ " BPM)" ++ LF ++ "Stop activity and rest immediately";
         severity := "danger" |}
    else
      {| status := "high";
         message := "Heart rate is elevated (" ++ template heartRate
                    ++ " BPM)" ++ LF ++ "Reduce activity intensity";
         severity := "warning" |}
  else
    {| status := "normal";
       message := "Heart rate is normal";
       severity := "normal" |}.

Definition checkBloodOxygen (this : thresholds) (bloodOxygen : JS.number)
  : Verdict :=
  if JS.ltb bloodOxygen (minBloodOxygen this) then
    if JS.ltb bloodOxygen (JS.ofZ 90) then
      {| status := "critical";
         message := "Blood oxygen level is critical ("
                    ++ template bloodOxygen ++ "%)" ++ LF
                    ++ "Seek immediate medical attention";
         severity := "danger" |}
    else
      {| status := "low";
         message := "Blood oxygen level is low (" ++ template bloodOxygen
                    ++ "%)" ++ LF ++ "Try deep breathing or outdoor activity";
         severity := "warning" |}
  else
    {| status := "normal";
       message := "Blood oxygen level is normal";
       severity := "normal" |}.

End WithRuntime.

End HealthService.

(** ** [src/screens/settings/index.js]: the CSV export of the settings
    screen

    [exportData] calls [convertToCSV] on the heart-rate history when it is
    not empty. *)

Module SettingsScreen.

Section WithRuntime.
Context `{Runtime}.

(** [new Date(r.timestamp)] is an invalid date when the field is absent. *)
Definition dateStrOf (r : Sample) : string :=
  match timestamp r with
  | Some t => toLocaleDateString t
  | None => "Invalid Date"
  end.

Definition timeStrOf (r : Sample) : string :=
  match timestamp r with
  | Some t => toLocaleTimeString t
  | None => "Invalid Date"
  end.

Definition convertToCSV (data : list Sample) : string :=
  let header := "Date,Time,Heart Rate (BPM)" ++ LF in
  let rows :=
    String.concat LF
      (map (fun r =>
              let dateStr := dateStrOf r in
              let timeStr := timeStrOf r in
              dateStr ++ "," ++ timeStr ++ "," ++ templateField (value r))
           data) in
  header ++ rows.

End WithRuntime.

End SettingsScreen.

(** * Definitions of the specification

    What the properties below are stated with: the aggregator over the
    exact rationals, the vocabulary of the store, a reader of CSV texts,
    and concrete inputs to run the definitions on. *)

(** ** The aggregator over the rationals *)






(** [Math.round] on the exact rationals. *)
Definition Qround (q : Q) : Z := Qfloor (q + (1 # 2))%Q.

(** The divisor of [firstAvg]: [firstHalf.length]. *)
Definition firstHalfDivisor (data : list Sample) : nat :=
  length (take (length (valuesOf data) / 2) (valuesOf data)).

(** ** The vocabulary of the store *)

(** What a read of [key] yields: the stored value, or [dflt] when the call
    rejects, the key is absent or the text does not parse. *)
Definition readOr (key : string) (dflt : jsvalue) (w : World) : jsvalue :=
  if rejects w (storageCalls w) then dflt
  else match disk w !! key with
       | Some (Json v) => v
       | Some Garbage | None => dflt
       end.

(** The record [saveHeartRateRecord] builds at the clock readings [now] and
    [today], and the one [saveHealthRecord] builds from [record]. *)
Definition heartRateRecord `{Runtime} (heartRate : Q) (now today : Z)
  : Sample :=
  {| value := Some heartRate;
     heartRate := None; bloodOxygen := None; steps := None;
     calories := None; distance := None;
     timestamp := Some now;
     date := Some (toISOString today) |}.

Definition fullRecord `{Runtime} (record : Sample) (now today : Z) : Sample :=
  {| value := value record;
     heartRate := heartRate record;
     bloodOxygen := bloodOxygen record;
     steps := steps record;
     calories := calories record;
     distance := distance record;
     timestamp := Some now;
     date := Some (toISOString today) |}.

(** The three clock readings of a save that starts in [w]: the time stamp
    of the new record, its date, and the time the retention window is
    counted from. *)
Definition stampTime (w : World) : Z := clock w (clockReads w).
Definition dateTime (w : World) : Z := clock w (S (clockReads w)).
Definition saveTime (w : World) : Z := clock w (S (S (clockReads w))).

(** Every sample of [l] is stamped strictly after [now] minus 30 days. *)
Definition retained (now : Z) (l : list Sample) : Prop :=
  forall r, In r l ->
    exists t, timestamp r = Some t /\ now - 30 * StorageService.msPerDay < t.

(** No sample of [l] is stamped 31 days before [now]. *)
Definition absent31 (now : Z) (l : list Sample) : Prop :=
  forall r, In r l ->
    timestamp r <> Some (now - 31 * StorageService.msPerDay).

(** Every query of the heart-rate stream, run in [w], returns an array
    that satisfies [P]. *)
Definition everyQuery `{Runtime} (w : World) (P : list Sample -> Prop)
  : Prop :=
  (exists l, fst (StorageService.getHeartRateHistory w) = Return (VArray l)
             /\ P l)
  /\ (forall days,
        exists l, fst (StorageService.getRecentData days w) = Return l /\ P l)
  /\ (exists l, fst (StorageService.getTodayData w) = Return l /\ P l)
  /\ (forall startDate endDate,
        exists l, fst (StorageService.getDataInRange startDate endDate w)
                  = Return l /\ P l).

(** The calls a caller can make on the store, and the world they leave. *)
Inductive Operation : Type :=
| CallSaveHeartRateRecord (heartRate : Q)
| CallSaveHealthRecord (record : Sample)
| CallGetHeartRateHistory
| CallGetHealthRecords
| CallGetRecentData (days : option Z)
| CallGetTodayData
| CallGetDataInRange (startDate endDate : Z)
| CallSaveThresholds (thresholds : Thresholds.t)
| CallGetThresholds
| CallSaveUserSettings (settings : UserSettings.t)
| CallGetUserSettings
| CallClearAllData
| CallGetStatistics (days : option Z).

Definition perform `{Runtime} (op : Operation) (w : World) : World :=
  match op with
  | CallSaveHeartRateRecord heartRate =>
      snd (StorageService.saveHeartRateRecord heartRate w)
  | CallSaveHealthRecord record =>
      snd (StorageService.saveHealthRecord record w)
  | CallGetHeartRateHistory => snd (StorageService.getHeartRateHistory w)
  | CallGetHealthRecords => snd (StorageService.getHealthRecords w)
  | CallGetRecentData days => snd (StorageService.getRecentData days w)
  | CallGetTodayData => snd (StorageService.getTodayData w)
  | CallGetDataInRange startDate endDate =>
      snd (StorageService.getDataInRange startDate endDate w)
  | CallSaveThresholds thresholds =>
      snd (StorageService.saveThresholds thresholds w)
  | CallGetThresholds => snd (StorageService.getThresholds w)
  | CallSaveUserSettings settings =>
      snd (StorageService.saveUserSettings settings w)
  | CallGetUserSettings => snd (StorageService.getUserSettings w)
  | CallClearAllData => snd (StorageService.clearAllData w)
  | CallGetStatistics days => snd (StorageService.getStatistics days w)
  end.

Definition performAll `{Runtime} (ops : list Operation) (w : World) : World :=
  fold_left (fun w op => perform op w) ops w.

(** From [w] on the clock never shows less than [now]. *)
Definition clockFrom (now : Z) (w : World) : Prop :=
  forall n, (clockReads w <= n)%nat -> now <= clock w n.

(** The heart-rate stream of [w] is absent, or an array that satisfies
    [retained now]. *)
Definition streamRetained (now : Z) (w : World) : Prop :=
  disk w !! StorageService.STORAGE_KEYS.HEART_RATE_HISTORY = None
  \/ exists l,
       disk w !! StorageService.STORAGE_KEYS.HEART_RATE_HISTORY
       = Some (Json (VArray l))
       /\ retained now l.

(** An operation that returns in every world: nothing it throws escapes. *)
Definition neverThrows {A : Type} (m : Async A) : Prop :=
  forall w, exists a, fst (m w) = Return a.

(** ** Reading a CSV text back

    The reader of the specification: the text is cut at the line feeds, the
    first line must be the header, every other line is cut at the commas
    and must have three fields. *)

Definition LFchar : ascii := Ascii.ascii_of_nat 10.
Definition comma : ascii := ","%char.

Fixpoint splitOn (sep : ascii) (s : string) : list string :=
  match s with
  | EmptyString => [EmptyString]
  | String c rest =>
      if Ascii.eqb c sep then EmptyString :: splitOn sep rest
      else match splitOn sep rest with
           | field :: fields => String c field :: fields
           | [] => [String c EmptyString]
           end
  end.

Definition csvLines (text : string) : list string := splitOn LFchar text.

Definition parseRow (line : string) : option (string * string * string) :=
  match splitOn comma line with
  | [dateStr; timeStr; valueStr] => Some (dateStr, timeStr, valueStr)
  | _ => None
  end.

Fixpoint parseRows (lines : list string)
  : option (list (string * string * string)) :=
  match lines with
  | [] => Some []
  | line :: lines =>
      match parseRow line, parseRows lines with
      | Some row, Some rows => Some (row :: rows)
      | _, _ => None
      end
  end.

Definition csvHeader : string := "Date,Time,Heart Rate (BPM)".

Definition parseCSV (text : string)
  : option (list (string * string * string)) :=
  match csvLines text with
  | header :: rows =>
      if String.eqb header csvHeader then parseRows rows else None
  | [] => None
  end.

(** The character [c] does not occur in [s]; a field is safe when it holds
    neither a comma nor a line feed. *)
Fixpoint freeOf (c : ascii) (s : string) : bool :=
  match s with
  | EmptyString => true
  | String a rest => negb (Ascii.eqb a c) && freeOf c rest
  end.

Definition csvSafe (s : string) : Prop :=
  freeOf comma s = true /\ freeOf LFchar s = true.

(** The three fields of the row of a sample, and the row. *)
Definition tripleOf `{Runtime} (r : Sample) : string * string * string :=
  (SettingsScreen.dateStrOf r, SettingsScreen.timeStrOf r,
   templateField (value r)).

Definition rowOf `{Runtime} (r : Sample) : string :=
  SettingsScreen.dateStrOf r ++ "," ++ SettingsScreen.timeStrOf r ++ ","
  ++ templateField (value r).

Definition safeFields `{Runtime} (r : Sample) : Prop :=
  csvSafe (SettingsScreen.dateStrOf r)
  /\ csvSafe (SettingsScreen.timeStrOf r)
  /\ csvSafe (templateField (value r)).

(** ** Inputs to run the definitions on *)

(** A runtime to evaluate the definitions on concrete inputs: the time zone
    is UTC, dates and times print as [en-US] prints them, integers print in
    decimal (other rationals as a fraction). *)
Module TestRuntime.

Definition pad2 (n : Z) : string :=
  if n <? 10 then "0" ++ pretty n else pretty n.

Definition pad3 (n : Z) : string :=
  if n <? 10 then "00" ++ pretty n
  else if n <? 100 then "0" ++ pretty n else pretty n.

(** Year, month and day of the day number [days] since 1970-01-01. *)
Definition civil (days : Z) : Z * Z * Z :=
  let z := days + 719468 in
  let era := z / 146097 in
  let doe := z - era * 146097 in
  let yoe := (doe - doe / 1460 + doe / 36524 - doe / 146096) / 365 in
  let doy := doe - (365 * yoe + yoe / 4 - yoe / 100) in
  let mp := (5 * doy + 2) / 153 in
  let d := doy - (153 * mp + 2) / 5 + 1 in
  let m := if mp <? 10 then mp + 3 else mp - 9 in
  let y := yoe + era * 400 + (if m <=? 2 then 1 else 0) in
  (y, m, d).

Definition msPerDay : Z := 86400000.

Definition isoString (t : Z) : string :=
  let '(y, m, d) := civil (t / msPerDay) in
  let ms := t mod msPerDay in
  pretty y ++ "-" ++ pad2 m ++ "-" ++ pad2 d ++ "T"
  ++ pad2 (ms / 3600000) ++ ":" ++ pad2 (ms / 60000 mod 60) ++ ":"
  ++ pad2 (ms / 1000 mod 60) ++ "." ++ pad3 (ms mod 1000) ++ "Z".

Definition localeDate (t : Z) : string :=
  let '(y, m, d) := civil (t / msPerDay) in
  pretty m ++ "/" ++ pretty d ++ "/" ++ pretty y.

Definition localeTime (t : Z) : string :=
  let ms := t mod msPerDay in
  let h := ms / 3600000 in
  let h12 := if h mod 12 =? 0 then 12 else h mod 12 in
  pretty h12 ++ ":" ++ pad2 (ms / 60000 mod 60) ++ ":"
  ++ pad2 (ms / 1000 mod 60) ++ (if h <? 12 then " AM" else " PM").

Definition showQ (q : Q) : string :=
  match Qred q with
  | Qmake n 1 => pretty n
  | Qmake n d => pretty n ++ "/" ++ pretty (Z.pos d)
  end.

#[export] Instance runtime : Runtime := {|
  toISOString := isoString;
  toLocaleDateString := localeDate;
  toLocaleTimeString := localeTime;
  startOfLocalDay := fun t => t - t mod msPerDay;
  numberToString := showQ
|}.

End TestRuntime.

(** Heart-rate records with the given integer values (time stamps left
    out: the aggregator does not read them). *)
Definition beats (vs : list Z) : list Sample :=
  map (fun v => mkSample (Some (inject_Z v)) None None None None None
                         None None) vs.


(** Thresholds whose blood-oxygen bound was lowered to 85. *)
Definition lowOxygenThresholds : HealthService.thresholds :=
  {| HealthService.minHeartRate := JS.ofZ 60;
     HealthService.maxHeartRate := JS.ofZ 100;
     HealthService.minBloodOxygen := JS.ofZ 85 |}.

(** A world to run the store in: the clock starts at [start] and advances
    one millisecond per reading, no storage call rejects. *)
Definition worldAt (start : Z) (d : gmap string jsonText) : World :=
  {| disk := d;
     clock := fun n => start + Z.of_nat n;
     clockReads := 0;
     rejects := fun _ => false;
     storageCalls := 0 |}.

(** 2025-11-02T03:00:00.000Z. *)
Definition someDay : Z := 1762052400000.

(** A world whose heart-rate stream holds one record, stamped 31 days
    before the time the next save counts its window from. *)
Definition staleWorld : World :=
  worldAt someDay
    {[ StorageService.STORAGE_KEYS.HEART_RATE_HISTORY :=
         Json (VArray
                 [heartRateRecord (H := TestRuntime.runtime) (80 # 1)
                    (someDay + 2 - 31 * StorageService.msPerDay)
                    (someDay + 2 - 31 * StorageService.msPerDay)]) ]}.

(** A health record a caller stamped itself, one second before [someDay]. *)
Definition stampedRecord : Sample :=
  {| value := None;
     heartRate := Some (72 # 1)%Q; bloodOxygen := Some (97 # 1)%Q;
     steps := Some (4200 # 1)%Q; calories := Some (189 # 1)%Q;
     distance := Some (32 # 10)%Q;
     timestamp := Some (someDay - 1000);
     date := Some "2025-11-02T02:59:59.000Z" |}.

(** A world with thresholds, settings and both streams stored. *)
Definition fullWorld : World :=
  worldAt someDay
    (<[ StorageService.STORAGE_KEYS.THRESHOLDS :=
          Json (VThresholds (Thresholds.mk (Some (55 # 1)%Q)
                               (Some (120 # 1)%Q) None)) ]>
     (<[ StorageService.STORAGE_KEYS.USER_SETTINGS :=
           Json (VSettings (UserSettings.mk (Some false) (Some true)
                              (Some "dark"))) ]>
      (<[ StorageService.STORAGE_KEYS.HEALTH_RECORDS :=
            Json (VArray [stampedRecord]) ]>
       (<[ StorageService.STORAGE_KEYS.HEART_RATE_HISTORY :=
             Json (VArray
                     [heartRateRecord (H := TestRuntime.runtime) (80 # 1)
                        (someDay - 5000) (someDay - 5000)]) ]> ∅)))).

(** The world [w] with a storage that rejects its [n]-th call from now. *)
Definition rejecting (n : nat) (w : World) : World :=
  {| disk := disk w;
     clock := clock w;
     clockReads := clockReads w;
     rejects := fun k => (k =? storageCalls w + n)%nat;
     storageCalls := storageCalls w |}.


(** The binary64 double nearest to 0.85, the literal of
    [checkHeartRateThreshold]. *)
Definition d085 : float := 0x1.b333333333333p-1%float.

(** A world with a stored heart-rate stream whose first storage call
    rejects and whose later ones succeed. *)
Definition unreadableWorld : World := rejecting 0 fullWorld.

(** * More of the source

    The rest of [HealthService], the day grouping and the export of
    [StorageService], and the handlers of the three screens of
    [src/screens/settings/index.js].

    Further conventions.
      - [Math.random] is an oracle: the application holds what it returns
        at each call and the number of calls made.  The theorems about it
        assume what the language guarantees, a number of [[0, 1)].
      - The fields of the [HealthService] instance and the state of a
        React component are records that the methods and handlers pass
        on; a state setter is an assignment.
      - A lookup in an object literal, [table[name] || fallback] or
        [grouped[key]], also finds the names every object inherits from
        [Object.prototype]; they are listed in [inheritedNames].
      - [Alert.alert] and [RNFS.writeFile] are logged on the device: the
        alerts shown and the files written, in their order.  A write of a
        file rejects as an oracle decides.
      - A promise that is not awaited runs to completion where it is
        created.
      - Not modelled: the rendering of the components, the timer of
        [startMonitoring], the animation, and [getStorageInfo] with
        [calculateSize], whose result is the number of bytes of a JSON
        text. *)

(** ** The engine, continued: local time, [toFixed] and [Math.random]

    [Date]'s local-time getters and its parser of date strings belong to
    the engine, as does what [toFixed] prints for a double. *)
Class Engine : Type := {
  (** [new Date(t).toDateString()] *)
  toDateString : Z -> string;
  (** [new Date(t).getFullYear()], [.getMonth()] (from 0), [.getDate()],
      [.getHours()] *)
  getFullYear : Z -> Z;
  getMonth : Z -> Z;
  getDate : Z -> Z;
  getHours : Z -> Z;
  (** [new Date(s) - 0]: the time value of the date the string [s] is
      parsed to, [NaN] for an invalid date *)
  parseDate : string -> JS.number;
  (** [parseFloat(x.toFixed(2))] *)
  toFixed2 : Q -> Q
}.

(** [Math.floor], [Math.round], [Math.min] and [Math.max] on finite
    numbers. *)
Definition Math_floor (x : Q) : Q := inject_Z (Qfloor x).
Definition Math_round (x : Q) : Q := inject_Z (Qfloor (x + (1 # 2))%Q).
Definition Math_min (x y : Q) : Q := if Qle_bool x y then x else y.
Definition Math_max (x y : Q) : Q := if Qle_bool x y then y else x.

(** The names every object inherits from [Object.prototype]: a lookup
    [table[name] || fallback] on an object literal finds a function or an
    object for them, not [undefined]. *)
Definition inheritedNames : list string :=
  ["constructor"; "hasOwnProperty"; "isPrototypeOf"; "propertyIsEnumerable";
   "toLocaleString"; "toString"; "valueOf"; "__proto__";
   "__defineGetter__"; "__defineSetter__"; "__lookupGetter__";
   "__lookupSetter__"].

Definition inherited (name : string) : bool :=
  bool_decide (name ∈ inheritedNames).

(** ** The state of the application: the store, the health service and
    the random numbers *)

Module DailyData.
Record t : Type := mk {
  steps : Q;
  calories : Q;
  lastUpdateDate : string
}.
End DailyData.

(** The fields of the [HealthService] instance. *)
Record ServiceState : Type := mkServiceState {
  isInitialized : bool;
  thresholds : HealthService.thresholds;
  dailyData : DailyData.t
}.

Record App : Type := mkApp {
  world : World;
  service : ServiceState;
  (** what [Math.random()] returns at its n-th call *)
  random : nat -> Q;
  draws : nat
}.

Definition Sim (A : Type) : Type := App -> outcome A * App.

#[global] Instance Sim_ret : MRet Sim :=
  fun A a s => (Return a, s).

#[global] Instance Sim_bind : MBind Sim :=
  fun A B f m s =>
    match m s with
    | (Return a, s') => f a s'
    | (Throw e, s') => (Throw e, s')
    end.

(** An operation on the world, run in the application. *)
Definition onWorld {A : Type} (m : Async A) : Sim A :=
  fun s =>
    let (o, w') := m (world s) in
    (o, mkApp w' (service s) (random s) (draws s)).

Definition Math_random : Sim Q :=
  fun s =>
    (Return (random s (draws s)),
     mkApp (world s) (service s) (random s) (S (draws s))).

Definition getService : Sim ServiceState :=
  fun s => (Return (service s), s).

Definition setService (v : ServiceState) : Sim unit :=
  fun s => (Return tt, mkApp (world s) v (random s) (draws s)).

Definition sim_try_catch {A : Type} (body : Sim A) (handler : Error -> Sim A)
  : Sim A :=
  fun s =>
    match body s with
    | (Return a, s') => (Return a, s')
    | (Throw e, s') => handler e s'
    end.

(** ** [src/services/healthService.js]: the simulated sensors, the daily
    counters and the advice *)

Module HealthServiceMethods.

(** [const today = new Date().toDateString()] *)
Definition todayString `{Engine} : Sim string :=
  today ← onWorld new_Date;
  mret (toDateString today).

Definition setDailyData (d : DailyData.t) : Sim unit :=
  this ← getService;
  setService (mkServiceState (isInitialized this) (thresholds this) d).

Section WithEngine.
Context `{Engine}.

Definition initializeDailyData : Sim unit :=
  today ← todayString;
  this ← getService;
  if negb (String.eqb (DailyData.lastUpdateDate (dailyData this)) today)
  then setDailyData (DailyData.mk 0 0 today)
  else mret tt.

(** The constructor; [this.initializeDailyData()] is its last statement. *)
Definition constructor : Sim unit :=
  today ← todayString;
  setService
    (mkServiceState false HealthService.initialThresholds
       (DailyData.mk 0 0 today));;
  initializeDailyData.

(** Nothing in the [try] block throws. *)
Definition initialize : Sim bool :=
  sim_try_catch
    (this ← getService;
     setService (mkServiceState true (thresholds this) (dailyData this));;
     mret true)
    (fun error => mret false).

Definition getCurrentHeartRate : Sim Q :=
  let baseRate := 70%Q in
  r ← Math_random;
  let variation := (r * 20 - 10)%Q in
  r ← Math_random;
  randomSpike ←
    (if JS.Qltb r (1 # 10)
     then r ← Math_random; mret ((r - (1 # 2)) * 40)%Q
     else mret 0%Q);
  let heartRate := Math_round (baseRate + variation + randomSpike)%Q in
  mret (Math_max 45 (Math_min 180 heartRate)).

Definition getBloodOxygen : Sim Q :=
  let base := 97%Q in
  r ← Math_random;
  let variation := (r * 3 - 1)%Q in
  mret (Math_round (base + variation)%Q).

Definition getSteps : Sim Q :=
  initializeDailyData;;
  r ← Math_random;
  let increment := (Math_floor (r * 21) + 10)%Q in
  this ← getService;
  let d := dailyData this in
  let steps := (DailyData.steps d + increment)%Q in
  let steps := Math_min steps 30000 in
  setDailyData
    (DailyData.mk steps (DailyData.calories d) (DailyData.lastUpdateDate d));;
  mret steps.

Definition getCalories : Sim Q :=
  initializeDailyData;;
  let caloriesPerStep := (45 # 1000)%Q in
  this ← getService;
  let d := dailyData this in
  let calories := Math_round (DailyData.steps d * caloriesPerStep)%Q in
  setDailyData
    (DailyData.mk (DailyData.steps d) calories (DailyData.lastUpdateDate d));;
  mret calories.

Definition getDistance : Sim Q :=
  initializeDailyData;;
  let metersPerStep := (762 # 1000)%Q in
  this ← getService;
  let distanceInKm :=
    (DailyData.steps (dailyData this) * metersPerStep / 1000)%Q in
  mret (toFixed2 distanceInKm).

Definition getRespiratoryRate : Sim Q :=
  let base := 16%Q in
  r ← Math_random;
  let variation := (r * 4 - 2)%Q in
  mret (Math_round (base + variation)%Q).

Definition resetDailyCounters : Sim unit :=
  today ← todayString;
  setDailyData (DailyData.mk 0 0 today).

Definition getDailyTotals : Sim (Q * Q) :=
  initializeDailyData;;
  this ← getService;
  mret (DailyData.steps (dailyData this),
        DailyData.calories (dailyData this)).

End WithEngine.

(** [newThresholds]: an object with any of the three fields. *)
Record newThresholds : Type := mkNewThresholds {
  newMinHeartRate : option JS.number;
  newMaxHeartRate : option JS.number;
  newMinBloodOxygen : option JS.number
}.

(** [this.thresholds = { ...this.thresholds, ...newThresholds }] *)
Definition updateThresholds (new : newThresholds) : Sim unit :=
  this ← getService;
  let old := thresholds this in
  setService
    (mkServiceState (isInitialized this)
       (HealthService.mkThresholds
          (default (HealthService.minHeartRate old) (newMinHeartRate new))
          (default (HealthService.maxHeartRate old) (newMaxHeartRate new))
          (default (HealthService.minBloodOxygen old)
             (newMinBloodOxygen new)))
       (dailyData this)).

Definition getThresholds : Sim HealthService.thresholds :=
  this ← getService;
  mret (thresholds this).




Definition getHealthRecommendation (heartRate bloodOxygen steps : JS.number)
  : list string :=
  let recommendations := [] in
  let recommendations :=
    if JS.ltb heartRate (JS.ofZ 60) then
      (recommendations
       ++ ["Consider increasing physical activity to improve cardiovascular fitness"])%list
    else if JS.gtb heartRate (JS.ofZ 100) then
      (recommendations ++ ["Make sure to rest and avoid overexertion"])%list
    else
      (recommendations
       ++ ["Heart rate is normal. Maintain good lifestyle habits"])%list in
  let recommendations :=
    if JS.ltb bloodOxygen (JS.ofZ 95) then
      (recommendations
       ++ ["Increase outdoor activities and maintain good ventilation indoors"])%list
    else recommendations in
  let recommendations :=
    if JS.ltb steps (JS.ofZ 5000) then
      (recommendations
       ++ ["Daily steps are low. Try to increase activity level"])%list
    else if JS.gtb steps (JS.ofZ 10000) then
      (recommendations
       ++ ["Excellent activity level. Remember to rest appropriately"])%list
    else recommendations in
  recommendations.

(** [activityMultipliers[activity] || activityMultipliers.resting] *)
Definition activityMultiplier (activity : string) : option (Q * Q) :=
  if String.eqb activity "resting" then Some (1, 5)%Q
  else if String.eqb activity "walking" then Some (13 # 10, 10)%Q
  else if String.eqb activity "running" then Some (18 # 10, 15)%Q
  else if String.eqb activity "exercising" then Some (2, 20)%Q
  else if inherited activity then None
  else Some (1, 5)%Q.

(** [baseRate = 70] and [activity = 'resting'] when left out. *)
Definition simulateRealtimeHeartRate (baseRate : option JS.number)
    (activity : option string) : Sim JS.number :=
  let baseRate := default (JS.ofZ 70) baseRate in
  let activity := default "resting" activity in
  let multiplier := activityMultiplier activity in
  let rate :=
    match multiplier with
    | Some (base, _) => JS.mul baseRate (JS.Fin base)
    | None => JS.mul baseRate JS.NaN
    end in
  r ← Math_random;
  let variation :=
    match multiplier with
    | Some (_, variation) => JS.Fin ((r - (1 # 2)) * variation)%Q
    | None => JS.mul (JS.Fin (r - (1 # 2))%Q) JS.NaN
    end in
  mret (JS.round (JS.add rate variation)).

End HealthServiceMethods.

(** ** Inputs for the health service *)

(** [Math.random()] returns a number of the interval [[0, 1)]. *)
Definition unitRandom (s : App) : Prop :=
  forall n : nat, (0 <= random s n)%Q /\ (random s n < 1)%Q.

(** An engine to evaluate the definitions on concrete inputs: the time
    zone is UTC, a date string [Y-M-D] is parsed as the midnight that
    starts the day (as V8 does), [toFixed(2)] rounds the exact decimal. *)
Module TestEngine.

Definition weekday (days : Z) : string :=
  nth (Z.to_nat ((days + 4) mod 7))
    ["Sun"; "Mon"; "Tue"; "Wed"; "Thu"; "Fri"; "Sat"] "".

Definition monthName (m : Z) : string :=
  nth (Z.to_nat (m - 1))
    ["Jan"; "Feb"; "Mar"; "Apr"; "May"; "Jun";
     "Jul"; "Aug"; "Sep"; "Oct"; "Nov"; "Dec"] "".

Definition dateString (t : Z) : string :=
  let days := t / TestRuntime.msPerDay in
  let '(y, m, d) := TestRuntime.civil days in
  weekday days ++ " " ++ monthName m ++ " " ++ TestRuntime.pad2 d ++ " "
  ++ pretty y.

(** The day number since 1970-01-01 of a year, month and day. *)
Definition daysFromCivil (y m d : Z) : Z :=
  let y := if m <=? 2 then y - 1 else y in
  let era := y / 400 in
  let yoe := y - era * 400 in
  let mp := if m <=? 2 then m + 9 else m - 3 in
  let doy := (153 * mp + 2) / 5 + d - 1 in
  let doe := yoe * 365 + yoe / 4 - yoe / 100 + doy in
  era * 146097 + doe - 719468.

Definition digitOf (c : ascii) : option Z :=
  let n := Z.of_nat (nat_of_ascii c) in
  if (48 <=? n) && (n <=? 57) then Some (n - 48) else None.

Fixpoint digitsFrom (acc : Z) (s : string) : option Z :=
  match s with
  | EmptyString => Some acc
  | String c s' =>
      match digitOf c with
      | Some d => digitsFrom (acc * 10 + d) s'
      | None => None
      end
  end.

Definition natural (s : string) : option Z :=
  match s with
  | EmptyString => None
  | _ => digitsFrom 0 s
  end.

Definition dash : ascii := Ascii.ascii_of_nat 45.

Definition parse (s : string) : JS.number :=
  match splitOn dash s with
  | [y; m; d] =>
      match natural y, natural m, natural d with
      | Some y, Some m, Some d =>
          if (1 <=? m) && (m <=? 12) && (1 <=? d) && (d <=? 31)
          then JS.ofZ (daysFromCivil y m d * TestRuntime.msPerDay)
          else JS.NaN
      | _, _, _ => JS.NaN
      end
  | _ => JS.NaN
  end.

#[export] Instance engine : Engine := {|
  toDateString := dateString;
  getFullYear := fun t => (TestRuntime.civil (t / TestRuntime.msPerDay)).1.1;
  getMonth := fun t => (TestRuntime.civil (t / TestRuntime.msPerDay)).1.2 - 1;
  getDate := fun t => (TestRuntime.civil (t / TestRuntime.msPerDay)).2;
  getHours := fun t => t mod TestRuntime.msPerDay / 3600000;
  parseDate := parse;
  toFixed2 := fun q => (inject_Z (Qfloor (q * 100 + (1 # 2))) / 100)%Q
|}.

End TestEngine.

(** A source of random numbers of the unit interval: 0.11, 0.48, 0.85,
    0.22, ... *)
Definition testRandom (n : nat) : Q :=
  Qmake ((37 * Z.of_nat n + 11) mod 100) 100.

(** The random numbers 0.5, 0.05, 0.99, 0.5, 0.05, ...: the second draw
    of a heart-rate reading asks for a spike. *)
Definition spikeRandom (n : nat) : Q :=
  match (n mod 3)%nat with
  | O => (1 # 2)%Q
  | 1%nat => (5 # 100)%Q
  | _ => (99 # 100)%Q
  end.

(** The application when the service has been constructed in the world
    [w] on the day [today]. *)
Definition appOn (w : World) (today : string) (rnd : nat -> Q) : App :=
  {| world := w;
     service := mkServiceState false HealthService.initialThresholds
                  (DailyData.mk 0 0 today);
     random := rnd;
     draws := 0 |}.

(** The application started in [fullWorld], and the same application the
    evening before with 29990 steps counted. *)
Definition testApp : App := appOn fullWorld "Sun Nov 02 2025" testRandom.

Definition eveningApp : App :=
  {| world := fullWorld;
     service := mkServiceState true HealthService.initialThresholds
                  (DailyData.mk 29990 1350 "Sat Nov 01 2025");
     random := testRandom;
     draws := 0 |}.

Definition lateApp : App :=
  {| world := fullWorld;
     service := mkServiceState true HealthService.initialThresholds
                  (DailyData.mk 29990 1350 "Sun Nov 02 2025");
     random := testRandom;
     draws := 0 |}.

(** ** The vocabulary of the health service *)

(** The day the service takes the next reading of the clock for. *)
Definition dayNow `{Engine} (s : App) : string :=
  toDateString (clock (world s) (clockReads (world s))).

(** The calls on the health service that read or change its state. *)
Inductive ServiceCall : Type :=
| CallInitialize
| CallGetCurrentHeartRate
| CallGetBloodOxygen
| CallGetSteps
| CallGetCalories
| CallGetDistance
| CallGetRespiratoryRate
| CallUpdateThresholds (new : HealthServiceMethods.newThresholds)
| CallResetDailyCounters
| CallGetDailyTotals
| CallSimulateRealtimeHeartRate (baseRate : option JS.number)
    (activity : option string).

(** The application after a call, whatever it returned. *)
Definition callService `{Engine} (c : ServiceCall) (s : App) : App :=
  match c with
  | CallInitialize => snd (HealthServiceMethods.initialize s)
  | CallGetCurrentHeartRate => snd (HealthServiceMethods.getCurrentHeartRate s)
  | CallGetBloodOxygen => snd (HealthServiceMethods.getBloodOxygen s)
  | CallGetSteps => snd (HealthServiceMethods.getSteps s)
  | CallGetCalories => snd (HealthServiceMethods.getCalories s)
  | CallGetDistance => snd (HealthServiceMethods.getDistance s)
  | CallGetRespiratoryRate => snd (HealthServiceMethods.getRespiratoryRate s)
  | CallUpdateThresholds new =>
      snd (HealthServiceMethods.updateThresholds new s)
  | CallResetDailyCounters => snd (HealthServiceMethods.resetDailyCounters s)
  | CallGetDailyTotals => snd (HealthServiceMethods.getDailyTotals s)
  | CallSimulateRealtimeHeartRate baseRate activity =>
      snd (HealthServiceMethods.simulateRealtimeHeartRate baseRate activity s)
  end.

Definition callAll `{Engine} (cs : list ServiceCall) (s : App) : App :=
  fold_left (fun s c => callService c s) cs s.

(** The step count is a whole number from 0 to 30000 and the calories
    one from 0 to 1350. *)
Definition countersInRange (s : App) : Prop :=
  exists n c : Z,
    (DailyData.steps (dailyData (service s)) == inject_Z n)%Q
    /\ (0 <= n <= 30000)%Z
    /\ (DailyData.calories (dailyData (service s)) == inject_Z c)%Q
    /\ (0 <= c <= 1350)%Z.

(** ** Grouping the values of records under a key

    [const grouped = {}; data.forEach(record => { const key = ...;
    if (!grouped[key]) { grouped[key] = []; } grouped[key].push(record.value);
    })].  The object is modelled by the list of its own properties in the
    order they were created, which is the order [Object.keys] gives for
    names that are not array indices (the keys of the code hold a [-], a
    [:] or a [/]). *)

Definition Groups : Type := list (string * list JS.number).

Definition hasOwn (key : string) (grouped : Groups) : bool :=
  existsb (fun g => String.eqb (fst g) key) grouped.

Fixpoint pushValue (key : string) (v : JS.number) (grouped : Groups)
  : Groups :=
  match grouped with
  | [] => [(key, [v])]
  | (k, vs) :: rest =>
      if String.eqb k key then (k, vs ++ [v])%list :: rest
      else (k, vs) :: pushValue key v rest
  end.

(** A name the empty object inherits is found by [grouped[key]], so no
    array is created for it, and what is found has no [push]: a
    [TypeError]. *)
Definition addToGroup (key : string) (v : JS.number) (grouped : Groups)
  : outcome Groups :=
  if negb (hasOwn key grouped) && inherited key then Throw TypeError
  else Return (pushValue key v grouped).

Fixpoint groupValues (keyOf : Sample -> string) (data : list Sample)
    (grouped : Groups) : outcome Groups :=
  match data with
  | [] => Return grouped
  | record :: data =>
      match addToGroup (keyOf record) (JS.toNumber (value record)) grouped
      with
      | Return grouped => groupValues keyOf data grouped
      | Throw e => Throw e
      end
  end.

(** A computation that does not touch the world, run in it. *)
Definition pure {A : Type} (o : outcome A) : Async A := fun w => (o, w).

(** [Math.round(values.reduce((a, b) => a + b, 0) / values.length)] *)
Definition roundedAverage (values : list JS.number) : JS.number :=
  JS.round (JS.div (JS.sum values) (JS.ofNat (length values))).

(** [array.sort(compare)], with [after a b] for [compare(a, b) > 0] (a
    [NaN] from [compare] counts as 0).  The sort is stable; when
    [compare] is not consistent the order is the engine's, and this is one
    order it may give. *)
Fixpoint insertSorted {A : Type} (after : A -> A -> bool) (x : A)
    (sorted : list A) : list A :=
  match sorted with
  | [] => [x]
  | y :: rest =>
      if after x y then y :: insertSorted after x rest
      else x :: y :: rest
  end.

Definition sort_ {A : Type} (after : A -> A -> bool) (l : list A) : list A :=
  foldr (insertSorted after) [] l.

(** The time values a [Date] can hold; [new Date(t)] is an invalid date
    outside, and its getters return [NaN]. *)
Definition validTime (t : Z) : bool :=
  (-8640000000000000 <=? t) && (t <=? 8640000000000000).

(** ** [src/services/storageService.js]: the day grouping and the export *)

Module StorageReports.

(** An element of the array [getDataGroupedByDay] returns. *)
Record DayGroup : Type := mkDayGroup {
  date : string;
  average : JS.number;
  count : nat;
  max : JS.number;
  min : JS.number
}.

(** The object [exportDataAsJSON] serialises, and the text: a JSON text is
    modelled by the value it denotes, as in the store. *)
Record ExportBundle : Type := mkExportBundle {
  exportDate : string;
  heartRateHistory : jsvalue;
  healthRecords : jsvalue;
  thresholds : jsvalue;
  settings : jsvalue
}.

Inductive exportText : Type :=
| ExportJson (bundle : ExportBundle).

Section WithEngine.
Context {R : Runtime} {E : Engine}.

(** [`${date.getFullYear()}-${date.getMonth() + 1}-${date.getDate()}`]
    for [date = new Date(record.timestamp)]. *)
Definition dateKey (record : Sample) : string :=
  match timestamp record with
  | Some t =>
      if validTime t
      then pretty (getFullYear t) ++ "-" ++ pretty (getMonth t + 1) ++ "-"
           ++ pretty (getDate t)
      else "NaN-NaN-NaN"
  | None => "NaN-NaN-NaN"
  end.

Definition summary (g : string * list JS.number) : DayGroup :=
  let '(dateKey, values) := g in
  {| date := dateKey;
     average := roundedAverage values;
     count := length values;
     max := JS.mathMax values;
     min := JS.mathMin values |}.

(** [new Date(a.date) - new Date(b.date) > 0] *)
Definition laterDate (a b : DayGroup) : bool :=
  JS.gtb (JS.sub (parseDate (date a)) (parseDate (date b))) (JS.ofZ 0).

(** [days = 7] when the argument is left out. *)
Definition getDataGroupedByDay (days : option Z) : Async (list DayGroup) :=
  let days := default 7 days in
  try_catch
    (data ← StorageService.getRecentData (Some days);
     grouped ← pure (groupValues dateKey data []);
     let result := map summary grouped in
     mret (sort_ laterDate result))
    (fun error => mret []).

(** [null] is [None]. *)
Definition exportDataAsJSON : Async (option exportText) :=
  try_catch
    (heartRate ← StorageService.getHeartRateHistory;
     healthRecords ← StorageService.getHealthRecords;
     thresholds ← StorageService.getThresholds;
     settings ← StorageService.getUserSettings;
     today ← new_Date;
     mret (Some (ExportJson
                   {| exportDate := toISOString today;
                      heartRateHistory := heartRate;
                      healthRecords := healthRecords;
                      thresholds := thresholds;
                      settings := settings |})))
    (fun error => mret None).

End WithEngine.

End StorageReports.

(** ** The vocabulary of the grouping

    What the grouping is meant to compute, written without the object:
    the keys in the order of their first occurrence, each with the values
    of the records that have the key, in the order of the data. *)

Fixpoint firstOccurrences (keys : list string) : list string :=
  match keys with
  | [] => []
  | k :: keys =>
      k :: List.filter (fun k' => negb (String.eqb k' k))
             (firstOccurrences keys)
  end.

Definition recordsOf (keyOf : Sample -> string) (key : string)
    (data : list Sample) : list Sample :=
  List.filter (fun r => String.eqb (keyOf r) key) data.

Definition groupsSpec (keyOf : Sample -> string) (data : list Sample)
  : Groups :=
  map (fun k => (k, valuesOf (recordsOf keyOf k data)))
    (firstOccurrences (map keyOf data)).

(** The number of values in all the groups. *)
Definition totalCount (counts : list nat) : nat :=
  fold_right Nat.add 0%nat counts.

(** Heart-rate records of three days, not in the order of the days: two
    of the second of November 2025, one of the day before, one of the
    day after. *)
Definition threeDays : list Sample :=
  [heartRateRecord (H := TestRuntime.runtime) (72 # 1) someDay someDay;
   heartRateRecord (H := TestRuntime.runtime) (90 # 1)
     (someDay + 86400000) (someDay + 86400000);
   heartRateRecord (H := TestRuntime.runtime) (64 # 1)
     (someDay - 86400000) (someDay - 86400000);
   heartRateRecord (H := TestRuntime.runtime) (75 # 1)
     (someDay + 3000) (someDay + 3000)].

(** A world that stores [threeDays], with the clock two days after
    [someDay]. *)
Definition threeDaysWorld : World :=
  worldAt (someDay + 2 * 86400000)
    {[ StorageService.STORAGE_KEYS.HEART_RATE_HISTORY :=
         Json (VArray threeDays) ]}.

(** ** [parseInt]

    [parseInt(string)] without a radix, on strings of code units below
    256: the white space at the start is skipped, a sign is read, a prefix
    [0x] or [0X] selects radix 16, and the longest run of digits is the
    value; [None] is [NaN].  The integer is exact. *)

Definition isWhiteSpace (c : ascii) : bool :=
  existsb (Nat.eqb (nat_of_ascii c)) [9; 10; 11; 12; 13; 32; 160]%nat.

Fixpoint trimStart (s : string) : string :=
  match s with
  | EmptyString => EmptyString
  | String c rest => if isWhiteSpace c then trimStart rest else s
  end.

Definition digitValue (c : ascii) : option Z :=
  let n := Z.of_nat (nat_of_ascii c) in
  if (48 <=? n) && (n <=? 57) then Some (n - 48)
  else if (97 <=? n) && (n <=? 122) then Some (n - 87)
  else if (65 <=? n) && (n <=? 90) then Some (n - 55)
  else None.

(** The value of the longest prefix of [s] made of digits of the radix,
    continued from [acc]; [acc] is [None] as long as no digit was read. *)
Fixpoint digitsPrefix (radix : Z) (s : string) (acc : option Z) : option Z :=
  match s with
  | EmptyString => acc
  | String c rest =>
      match digitValue c with
      | Some d =>
          if d <? radix
          then digitsPrefix radix rest (Some (default 0 acc * radix + d))
          else acc
      | None => acc
      end
  end.

Definition parseInt (s : string) : option Z :=
  let s := trimStart s in
  let '(sign, s) :=
    match s with
    | String "-" rest => (-1, rest)
    | String "+" rest => (1, rest)
    | _ => (1, s)
    end in
  let '(radix, s) :=
    match s with
    | String "0" (String "x" rest) | String "0" (String "X" rest) =>
        (16, rest)
    | _ => (10, s)
    end in
  match digitsPrefix radix s None with
  | Some n => Some (sign * n)
  | None => None
  end.

(** ** The device: the application, the alerts shown, the files written *)

(** An alert of [Alert.alert(title, message)]. *)
Record Alert : Type := mkAlert {
  title : string;
  text : string
}.

(** What the platform gives: the directory of [RNFS] and the [message] of
    an error. *)
Class Platform : Type := {
  DocumentDirectoryPath : string;
  errorMessage : Error -> string
}.

Record Device : Type := mkDevice {
  application : App;
  (** the alerts shown, the first one first *)
  alerts : list Alert;
  (** the files written with their contents, the first one first *)
  files : list (string * string);
  (** whether the n-th call of [RNFS.writeFile] rejects *)
  writeRejects : nat -> bool;
  fileWrites : nat
}.

(** A handler of a screen whose component state is [St]. *)
Definition Screen (St A : Type) : Type :=
  St * Device -> outcome A * (St * Device).

#[global] Instance Screen_ret (St : Type) : MRet (Screen St) :=
  fun A a s => (Return a, s).

#[global] Instance Screen_bind (St : Type) : MBind (Screen St) :=
  fun A B f m s =>
    match m s with
    | (Return a, s') => f a s'
    | (Throw e, s') => (Throw e, s')
    end.

Definition screen_throw {St A : Type} (e : Error) : Screen St A :=
  fun s => (Throw e, s).

Definition screen_try_catch {St A : Type} (body : Screen St A)
    (handler : Error -> Screen St A) : Screen St A :=
  fun s =>
    match body s with
    | (Return a, s') => (Return a, s')
    | (Throw e, s') => handler e s'
    end.

Definition onApp {St A : Type} (m : Sim A) : Screen St A :=
  fun s =>
    let (o, a') := m (application (snd s)) in
    (o, (fst s,
         mkDevice a' (alerts (snd s)) (files (snd s)) (writeRejects (snd s))
           (fileWrites (snd s)))).

Definition onStore {St A : Type} (m : Async A) : Screen St A :=
  onApp (onWorld m).

Definition getState {St : Type} : Screen St St :=
  fun s => (Return (fst s), s).

Definition setState {St : Type} (f : St -> St) : Screen St unit :=
  fun s => (Return tt, (f (fst s), snd s)).

Definition Alert_alert {St : Type} (title text : string) : Screen St unit :=
  fun s =>
    (Return tt,
     (fst s,
      mkDevice (application (snd s))
        (alerts (snd s) ++ [mkAlert title text])%list
        (files (snd s)) (writeRejects (snd s)) (fileWrites (snd s)))).

(** [RNFS.writeFile(path, contents, 'utf8')]; a rejected call writes
    nothing. *)
Definition RNFS_writeFile {St : Type} (path contents : string)
  : Screen St unit :=
  fun s =>
    let d := snd s in
    if writeRejects d (fileWrites d)
    then (Throw StorageError,
          (fst s,
           mkDevice (application d) (alerts d) (files d) (writeRejects d)
             (S (fileWrites d))))
    else (Return tt,
          (fst s,
           mkDevice (application d) (alerts d)
             (files d ++ [(path, contents)])%list
             (writeRejects d) (S (fileWrites d)))).

(** ** [src/screens/settings/index.js]: the handlers of the settings
    screen *)

Module SettingsHandlers.

Record State : Type := mkState {
  notifications : bool;
  autoSave : bool;
  thresholdDialogVisible : bool;
  minHeartRate : string;
  maxHeartRate : string
}.

Definition initialState : State :=
  {| notifications := true; autoSave := true;
     thresholdDialogVisible := false;
     minHeartRate := "60"; maxHeartRate := "100" |}.

Definition setThresholdDialogVisible (v : bool) : Screen State unit :=
  setState (fun st =>
    mkState (notifications st) (autoSave st) v (minHeartRate st)
      (maxHeartRate st)).

Section WithPlatform.
Context {R : Runtime} {P : Platform}.

(** [data.length === 0] holds of the empty array only; of a value that is
    not an array [data.map] is not a function. *)
Definition exportData : Screen State unit :=
  screen_try_catch
    (data ← onStore StorageService.getHeartRateHistory;
     match data with
     | VArray [] => Alert_alert "Notice" "No data available to export"
     | VArray l =>
         let csv := SettingsScreen.convertToCSV l in
         timestamp ← onStore new_Date;
         let filename :=
           "heart_guard_export_" ++ pretty timestamp ++ ".csv" in
         let path := DocumentDirectoryPath ++ "/" ++ filename in
         RNFS_writeFile path csv;;
         Alert_alert "Export Successful"
           ("Data saved to:" ++ LF ++ path ++ LF ++ LF ++ "Total records: "
            ++ pretty (length l))
     | _ => screen_throw TypeError
     end)
    (fun error => Alert_alert "Export Failed" (errorMessage error)).

(** [clearAllData] asks; [confirmClear] is the [onPress] of its
    [Confirm] button, and [Cancel] does nothing. *)
Definition clearAllData : Screen State unit :=
  Alert_alert "Confirm Clear"
    "This will delete all historical data. Continue?".


(** The call of [storageService.saveThresholds] is not awaited: what it
    returns is dropped.  After the test of [isNaN] both numbers are
    integers. *)
Definition saveThresholds : Screen State unit :=
  st ← getState;
  let min := parseInt (minHeartRate st) in
  let max := parseInt (maxHeartRate st) in
  match min, max with
  | Some min, Some max =>
      if min >=? max then
        Alert_alert "Error" "Minimum heart rate must be less than maximum"
      else if (min <? 40) || (max >? 200) then
        Alert_alert "Error"
          "Please enter reasonable heart rate range (40-200)"
      else
        onStore
          (StorageService.saveThresholds
             (Thresholds.mk (Some (inject_Z min)) (Some (inject_Z max))
                None));;
        setThresholdDialogVisible false;;
        Alert_alert "Success" "Threshold settings saved"
  | _, _ => Alert_alert "Error" "Please enter valid numbers"
  end.

End WithPlatform.

End SettingsHandlers.

(** ** [src/screens/settings/index.js]: the home screen *)

Module HomeScreen.

Record State : Type := mkState {
  heartRate : Q;
  bloodOxygen : Q;
  steps : Q;
  calories : Q;
  distance : Q;
  monitoring : bool;
  alertVisible : bool;
  alertMessage : string
}.

Definition initialState : State :=
  {| heartRate := 0; bloodOxygen := 0; steps := 0; calories := 0;
     distance := 0; monitoring := false; alertVisible := false;
     alertMessage := "" |}.

Definition showAlert (message : string) : Screen State unit :=
  setState (fun st =>
    mkState (heartRate st) (bloodOxygen st) (steps st) (calories st)
      (distance st) (monitoring st) true message).

Section WithEngine.
Context {R : Runtime} {E : Engine}.

Definition updateHealthData : Screen State unit :=
  screen_try_catch
    (hr ← onApp HealthServiceMethods.getCurrentHeartRate;
     bo ← onApp HealthServiceMethods.getBloodOxygen;
     st ← onApp HealthServiceMethods.getSteps;
     cal ← onApp HealthServiceMethods.getCalories;
     dist ← onApp HealthServiceMethods.getDistance;
     setState (fun s =>
       mkState hr bo st cal dist (monitoring s) (alertVisible s)
         (alertMessage s));;
     this ← onApp getService;
     let check :=
       HealthService.checkHeartRateThreshold (thresholds this) (JS.Fin hr)
         None in
     (if negb (String.eqb (HealthService.status check) "normal")
      then showAlert (HealthService.message check)
      else mret tt);;
     onStore (StorageService.saveHeartRateRecord hr);;
     onStore
       (StorageService.saveHealthRecord
          (mkSample None (Some hr) (Some bo) (Some st) (Some cal)
             (Some dist) None None));;
     mret tt)
    (fun error => mret tt).

End WithEngine.

Definition getHeartRateColor (st : State) : string :=
  if JS.Qis0 (heartRate st) then "#95a5a6"
  else if JS.Qltb (heartRate st) 60 then "#3498db"
  else if JS.Qgtb (heartRate st) 100 then "#e74c3c"
  else "#2ecc71".

Definition getHeartRateStatus (st : State) : string :=
  if JS.Qis0 (heartRate st) then "Waiting"
  else if JS.Qltb (heartRate st) 60 then "Low"
  else if JS.Qgtb (heartRate st) 100 then "High"
  else "Normal".

End HomeScreen.

(** ** [src/screens/settings/index.js]: the history screen *)

Module HistoryScreen.

Record Stats : Type := mkStats {
  average : JS.number;
  max : JS.number;
  min : JS.number;
  trend : string
}.

Record State : Type := mkState {
  period : string;
  data : list Sample;
  loading : bool;
  stats : Stats
}.

Definition initialState : State :=
  {| period := "today"; data := []; loading := true;
     stats := mkStats (JS.ofZ 0) (JS.ofZ 0) (JS.ofZ 0) "stable" |}.

Definition setLoading (v : bool) : Screen State unit :=
  setState (fun st => mkState (period st) (data st) v (stats st)).

Definition setData (records : list Sample) : Screen State unit :=
  setState (fun st => mkState (period st) records (loading st) (stats st)).

Definition setStats (v : Stats) : Screen State unit :=
  setState (fun st => mkState (period st) (data st) (loading st) v).

Definition calculateStats (records : list Sample) : Screen State unit :=
  if (length records =? 0)%nat then
    setStats (mkStats (JS.ofZ 0) (JS.ofZ 0) (JS.ofZ 0) "stable")
  else
    let values := map (fun r => JS.toNumber (value r)) records in
    let sum := JS.sum values in
    let average := JS.round (JS.div sum (JS.ofNat (length values))) in
    let max := JS.mathMax values in
    let min := JS.mathMin values in
    let mid := (length values / 2)%nat in
    let firstHalf := take mid values in
    let secondHalf := drop mid values in
    let firstAvg :=
      JS.div (JS.sum firstHalf) (JS.ofNat (length firstHalf)) in
    let secondAvg :=
      JS.div (JS.sum secondHalf) (JS.ofNat (length secondHalf)) in
    let trend := "stable" in
    let trend :=
      if JS.gtb secondAvg (JS.add firstAvg (JS.ofZ 5)) then "rising"
      else trend in
    let trend :=
      if JS.ltb secondAvg (JS.sub firstAvg (JS.ofZ 5)) then "falling"
      else trend in
    setStats (mkStats average max min trend).

(** [storageService.getRecentData(days)] for [days = parseInt(period)]:
    when [days] is [NaN] so is [startDate], and no time stamp is greater
    than [NaN]. *)
Definition getRecentData (days : option Z) : Async (list Sample) :=
  match days with
  | Some days => StorageService.getRecentData (Some days)
  | None =>
      try_catch
        (history ← StorageService.getHeartRateHistory;
         now ← Date_now;
         filter_ history (fun r => false))
        (fun error => mret [])
  end.

Section WithEngine.
Context {R : Runtime} {E : Engine}.

(** [try { ... } catch (error) { ... } finally { setLoading(false); }] *)
Definition loadData : Screen State unit :=
  setLoading true;;
  screen_try_catch
    (st ← getState;
     records ←
       (if String.eqb (period st) "today"
        then onStore StorageService.getTodayData
        else
          let days := parseInt (period st) in
          onStore (getRecentData days));
     setData records;;
     calculateStats records)
    (fun error => mret tt);;
  setLoading false.

(** The data of the chart: [labels] and [datasets[0].data]; the colour
    and the stroke width are constants. *)
Record Chart : Type := mkChart {
  labels : list string;
  points : list JS.number
}.

(** [`${date.getHours()}:00`] and [`${date.getMonth() + 1}/${date.getDate()}`]
    for [date = new Date(record.timestamp)]. *)
Definition timeKey (record : Sample) : string :=
  match timestamp record with
  | Some t =>
      if validTime t then pretty (getHours t) ++ ":00" else "NaN:00"
  | None => "NaN:00"
  end.

Definition dateKey (record : Sample) : string :=
  match timestamp record with
  | Some t =>
      if validTime t
      then pretty (getMonth t + 1) ++ "/" ++ pretty (getDate t)
      else "NaN/NaN"
  | None => "NaN/NaN"
  end.

(** [parseInt(a) - parseInt(b) > 0] *)
Definition laterHour (a b : string) : bool :=
  match parseInt a, parseInt b with
  | Some x, Some y => x - y >? 0
  | _, _ => false
  end.

(** [array.filter((_, i) => i % 2 === 0)] *)
Fixpoint evenIndices {A : Type} (l : list A) : list A :=
  match l with
  | x :: _ :: rest => x :: evenIndices rest
  | _ => l
  end.

(** [array.slice(-maxPoints)] *)
Definition lastPoints {A : Type} (maxPoints : nat) (l : list A) : list A :=
  drop (length l - maxPoints) l.

Definition prepareChartData (st : State) : outcome Chart :=
  if (length (data st) =? 0)%nat then
    Return (mkChart ["No Data"] [JS.ofZ 0])
  else if String.eqb (period st) "today" then
    match groupValues timeKey (data st) [] with
    | Return hourlyData =>
        let sorted := sort_ laterHour (map fst hourlyData) in
        let labels := sorted in
        let values :=
          map (fun timeKey =>
                 roundedAverage
                   (default []
                      (snd <$> List.find
                                 (fun g => String.eqb (fst g) timeKey)
                                 hourlyData)))
              sorted in
        Return
          (mkChart
             (if (12 <? length labels)%nat then evenIndices labels
              else labels)
             (if (12 <? length values)%nat then evenIndices values
              else values))
    | Throw e => Throw e
    end
  else
    match groupValues dateKey (data st) [] with
    | Return groupedByDay =>
        let labels := map fst groupedByDay in
        let values := map (fun g => roundedAverage (snd g)) groupedByDay in
        let maxPoints := 10%nat in
        Return (mkChart (lastPoints maxPoints labels)
                  (lastPoints maxPoints values))
    | Throw e => Throw e
    end.

End WithEngine.

Definition getTrendIcon (st : State) : string :=
  if String.eqb (trend (stats st)) "rising" then "trending-up"
  else if String.eqb (trend (stats st)) "falling" then "trending-down"
  else "trending-neutral".

Definition getTrendColor (st : State) : string :=
  if String.eqb (trend (stats st)) "rising" then "#e74c3c"
  else if String.eqb (trend (stats st)) "falling" then "#3498db"
  else "#95a5a6".

Definition getTrendText (st : State) : string :=
  if String.eqb (trend (stats st)) "rising" then "Rising Trend"
  else if String.eqb (trend (stats st)) "falling" then "Falling Trend"
  else "Stable".

End HistoryScreen.

(** ** The vocabulary and the inputs of the screens *)

(** The store of a device. *)
Definition storeOf (d : Device) : World := world (application d).

(** A platform to run the handlers on. *)
Module TestPlatform.

#[export] Instance platform : Platform := {|
  DocumentDirectoryPath := "/data/user/0/com.heartguard/files";
  errorMessage := fun e =>
    match e with
    | StorageError => "The operation could not be completed"
    | SyntaxError => "JSON Parse error: Unexpected token"
    | TypeError => "undefined is not a function"
    end
|}.

End TestPlatform.

(** A device whose store is [w], on the second of November 2025, before
    any alert or file; [brokenDisk] is one whose file system rejects every
    write. *)
Definition deviceOn (w : World) : Device :=
  {| application := appOn w "Sun Nov 02 2025" testRandom;
     alerts := [];
     files := [];
     writeRejects := fun _ => false;
     fileWrites := 0 |}.

Definition brokenDisk (w : World) : Device :=
  {| application := appOn w "Sun Nov 02 2025" testRandom;
     alerts := [];
     files := [];
     writeRejects := fun _ => true;
     fileWrites := 0 |}.

(** The settings screen after the user typed the two bounds. *)
Definition typed (minHeartRate maxHeartRate : string)
  : SettingsHandlers.State :=
  SettingsHandlers.mkState true true true minHeartRate maxHeartRate.

(** The four numbers the history screen keeps of a [Statistics]. *)
Definition statsOf (s : Statistics) : HistoryScreen.Stats :=
  HistoryScreen.mkStats (average s) (max s) (min s) (trend s).

(** The history screen with a period chosen and data loaded. *)
Definition historyOf (period : string) (data : list Sample)
  : HistoryScreen.State :=
  HistoryScreen.mkState period data false
    (statsOf (computeStatistics data)).

(** The hours of a day as the chart labels them, and the label of a
    record without a valid time. *)
Definition hourLabels : list string :=
  map (fun h => pretty h ++ ":00") (seqZ 0 24).

(** Records of every other hour of the second of November 2025 from
    03:00 on, then of the hours between: 21 hours in all. *)
Definition manyHours : list Sample :=
  map (fun h =>
         heartRateRecord (H := TestRuntime.runtime) (inject_Z (60 + h))
           (someDay + h * 3600000) (someDay + h * 3600000))
    [0; 2; 4; 6; 8; 10; 12; 14; 16; 18; 20; 1; 3; 5; 7; 9; 11; 13; 15; 17;
     19].

(** * Properties *)

(** ** Arithmetic of the number model *)

Lemma Qgtb_spec a b : JS.Qgtb a b = true <-> (b < a)%Q.
Proof.
  unfold JS.Qgtb. rewrite Qgt_alt.
  destruct (a ?= b)%Q; split; congruence.
Qed.

Lemma Qltb_spec a b : JS.Qltb a b = true <-> (a < b)%Q.
Proof.
  unfold JS.Qltb. rewrite Qlt_alt.
  destruct (a ?= b)%Q; split; congruence.
Qed.

Lemma Qis0_spec a : JS.Qis0 a = true <-> (a == 0)%Q.
Proof.
  unfold JS.Qis0. rewrite Qeq_alt.
  destruct (a ?= 0)%Q; split; congruence.
Qed.








(** The average of the empty half is [0 / 0]. *)
Lemma halfAverage_nil : halfAverage [] = JS.NaN.
Proof. reflexivity. Qed.

(** ** Running the record store *)

Section Store.
Context `{Runtime}.
Import StorageService.

Lemma bind_run {A B} (m : Async A) (f : A -> Async B) (w : World) :
  (m ≫= f) w
  = match m w with
    | (Return a, w') => f a w'
    | (Throw e, w') => (Throw e, w')
    end.
Proof. reflexivity. Qed.

Lemma read_run (key : string) (dflt : jsvalue) (w : World) :
  try_catch
    (data ← AsyncStorage.getItem key;
     match data with
     | Some text => JSON_parse text
     | None => mret dflt
     end)
    (fun error => mret dflt) w
  = (Return (readOr key dflt w), called w).
Proof.
  unfold try_catch, readOr. rewrite bind_run. unfold AsyncStorage.getItem.
  destruct (rejects w (storageCalls w)); [reflexivity|].
  destruct (disk w !! key) as [[v|]|]; reflexivity.
Qed.

Lemma getHeartRateHistory_run w :
  getHeartRateHistory w
  = (Return (readOr STORAGE_KEYS.HEART_RATE_HISTORY (VArray []) w), called w).
Proof. apply read_run. Qed.

Lemma getHealthRecords_run w :
  getHealthRecords w
  = (Return (readOr STORAGE_KEYS.HEALTH_RECORDS (VArray []) w), called w).
Proof. apply read_run. Qed.

Lemma getThresholds_run w :
  getThresholds w
  = (Return (readOr STORAGE_KEYS.THRESHOLDS (VThresholds defaultThresholds) w),
     called w).
Proof. apply read_run. Qed.

Lemma getUserSettings_run w :
  getUserSettings w
  = (Return (readOr STORAGE_KEYS.USER_SETTINGS
               (VSettings defaultUserSettings) w),
     called w).
Proof. apply read_run. Qed.

Lemma saveHeartRateRecord_run (heartRate : Q) (w : World) :
  saveHeartRateRecord heartRate w
  = match readOr STORAGE_KEYS.HEART_RATE_HISTORY (VArray []) (tick (tick w))
    with
    | VArray l =>
        let record := heartRateRecord heartRate (stampTime w) (dateTime w) in
        let filtered :=
          List.filter
            (fun r => timestamp_gt r (saveTime w - 30 * msPerDay))
            (l ++ [record])%list in
        if rejects w (S (storageCalls w))
        then (Return false, called (tick (called (tick (tick w)))))
        else (Return true,
              called (withDisk
                        (<[STORAGE_KEYS.HEART_RATE_HISTORY :=
                             Json (VArray filtered)]> (disk w))
                        (tick (called (tick (tick w))))))
    | _ => (Return false, called (tick (tick w)))
    end.
Proof.
  unfold saveHeartRateRecord, try_catch.
  rewrite bind_run. cbn [Date_now]. rewrite bind_run. cbn [new_Date Date_now].
  rewrite bind_run, getHeartRateHistory_run.
  destruct (readOr _ _ _) as [l| |]; try reflexivity.
  rewrite bind_run. cbn [push mret Async_ret]. rewrite bind_run.
  cbn [Date_now]. rewrite bind_run. cbn [filter_ mret Async_ret].
  rewrite bind_run. unfold AsyncStorage.setItem.
  cbn [tick called rejects storageCalls clockReads clock disk].
  destruct (rejects w (S (storageCalls w))); reflexivity.
Qed.

Lemma saveHealthRecord_run (record : Sample) (w : World) :
  saveHealthRecord record w
  = match readOr STORAGE_KEYS.HEALTH_RECORDS (VArray []) (tick (tick w))
    with
    | VArray l =>
        let full := fullRecord record (stampTime w) (dateTime w) in
        let filtered :=
          List.filter
            (fun r => timestamp_gt r (saveTime w - 30 * msPerDay))
            (l ++ [full])%list in
        if rejects w (S (storageCalls w))
        then (Return false, called (tick (called (tick (tick w)))))
        else (Return true,
              called (withDisk
                        (<[STORAGE_KEYS.HEALTH_RECORDS :=
                             Json (VArray filtered)]> (disk w))
                        (tick (called (tick (tick w))))))
    | _ => (Return false, called (tick (tick w)))
    end.
Proof.
  unfold saveHealthRecord, try_catch.
  rewrite bind_run. cbn [Date_now]. rewrite bind_run. cbn [new_Date Date_now].
  rewrite bind_run, getHealthRecords_run.
  destruct (readOr _ _ _) as [l| |]; try reflexivity.
  rewrite bind_run. cbn [push mret Async_ret]. rewrite bind_run.
  cbn [Date_now]. rewrite bind_run. cbn [filter_ mret Async_ret].
  rewrite bind_run. unfold AsyncStorage.setItem.
  cbn [tick called rejects storageCalls clockReads clock disk].
  destruct (rejects w (S (storageCalls w))); reflexivity.
Qed.

(** The array a query filters: the stored stream, or nothing when what it
    reads is not an array. *)
Lemma getRecentData_run (days : option Z) (w : World) :
  getRecentData days w
  = (Return
       match readOr STORAGE_KEYS.HEART_RATE_HISTORY (VArray []) w with
       | VArray l =>
           List.filter
             (fun r => timestamp_gt r (stampTime w - default 7 days * msPerDay))
             l
       | _ => []
       end,
     tick (called w)).
Proof.
  unfold getRecentData, try_catch.
  rewrite bind_run, getHeartRateHistory_run, bind_run.
  cbn [Date_now]. destruct (readOr _ _ _); reflexivity.
Qed.

Lemma getTodayData_run (w : World) :
  getTodayData w
  = (Return
       match readOr STORAGE_KEYS.HEART_RATE_HISTORY (VArray []) w with
       | VArray l =>
           List.filter
             (fun r => timestamp_ge r (startOfLocalDay (stampTime w))) l
       | _ => []
       end,
     tick (called w)).
Proof.
  unfold getTodayData, try_catch.
  rewrite bind_run, getHeartRateHistory_run, bind_run.
  cbn [new_Date Date_now]. destruct (readOr _ _ _); reflexivity.
Qed.

Lemma getDataInRange_run (startDate endDate : Z) (w : World) :
  getDataInRange startDate endDate w
  = (Return
       match readOr STORAGE_KEYS.HEART_RATE_HISTORY (VArray []) w with
       | VArray l =>
           List.filter
             (fun r => timestamp_ge r startDate && timestamp_le r endDate) l
       | _ => []
       end,
     called w).
Proof.
  unfold getDataInRange, try_catch.
  rewrite bind_run, getHeartRateHistory_run.
  destruct (readOr _ _ _); reflexivity.
Qed.

(** [getStatistics] is [computeStatistics] on what [getRecentData] reads;
    it never takes its [catch] branch. *)
Lemma getStatistics_run (days : option Z) (w : World) :
  getStatistics days w
  = (Return (computeStatistics
               match readOr STORAGE_KEYS.HEART_RATE_HISTORY (VArray []) w with
               | VArray l =>
                   List.filter
                     (fun r =>
                        timestamp_gt r
                          (stampTime w - default 7 days * msPerDay)) l
               | _ => []
               end),
     tick (called w)).
Proof.
  unfold getStatistics, try_catch. rewrite bind_run, getRecentData_run.
  reflexivity.
Qed.

Lemma saveThresholds_run (thresholds : Thresholds.t) (w : World) :
  saveThresholds thresholds w
  = if rejects w (storageCalls w) then (Return false, called w)
    else (Return true,
          called (withDisk
                    (<[STORAGE_KEYS.THRESHOLDS :=
                         Json (VThresholds thresholds)]> (disk w)) w)).
Proof.
  unfold saveThresholds, try_catch. rewrite bind_run.
  unfold AsyncStorage.setItem.
  destruct (rejects w (storageCalls w)); reflexivity.
Qed.

Lemma saveUserSettings_run (settings : UserSettings.t) (w : World) :
  saveUserSettings settings w
  = if rejects w (storageCalls w) then (Return false, called w)
    else (Return true,
          called (withDisk
                    (<[STORAGE_KEYS.USER_SETTINGS :=
                         Json (VSettings settings)]> (disk w)) w)).
Proof.
  unfold saveUserSettings, try_catch. rewrite bind_run.
  unfold AsyncStorage.setItem.
  destruct (rejects w (storageCalls w)); reflexivity.
Qed.

Lemma clearAllData_run (w : World) :
  clearAllData w
  = if rejects w (storageCalls w) then (Return false, called w)
    else (Return true,
          called (withDisk
                    (delete STORAGE_KEYS.HEART_RATE_HISTORY
                       (delete STORAGE_KEYS.HEALTH_RECORDS (disk w))) w)).
Proof.
  unfold clearAllData, try_catch. rewrite bind_run.
  unfold AsyncStorage.multiRemove.
  destruct (rejects w (storageCalls w)); reflexivity.
Qed.

End Store.

(** The equations of the operations, as a rewrite base. *)
Create Rewrite HintDb store_run.

#[global] Hint Rewrite
  @getHeartRateHistory_run @getHealthRecords_run @getThresholds_run
  @getUserSettings_run @saveHeartRateRecord_run @saveHealthRecord_run
  @getRecentData_run @getTodayData_run @getDataInRange_run
  @getStatistics_run @saveThresholds_run @saveUserSettings_run
  @clearAllData_run : store_run.

(** Rewrite the operation of the goal to its equation and split on what
    the storage answered. *)
Ltac run_store :=
  autorewrite with store_run; cbv zeta;
  repeat match goal with
         | |- context [match readOr ?k ?d ?w with _ => _ end] =>
             destruct (readOr k d w)
         | |- context [if rejects ?w ?n then _ else _] =>
             destruct (rejects w n)
         end.

(** ** [getStatistics] and the aggregator *)

(** What [getStatistics] returns is [computeStatistics] of what
    [getRecentData] returns in the same world. *)
Lemma getStatistics_computes (days : option Z) (w : World) :
  exists data,
    fst (StorageService.getRecentData days w) = Return data
    /\ fst (StorageService.getStatistics days w)
       = Return (computeStatistics data).
Proof.
  rewrite getRecentData_run, getStatistics_run. eexists.
  split; reflexivity.
Qed.

(** ** The trend (C1) *)








(** ** Retention (C2) *)

Lemma retained_filter (now : Z) (l : list Sample) :
  retained now
    (List.filter
       (fun r => timestamp_gt r (now - 30 * StorageService.msPerDay)) l).
Proof.
  intros r Hr. apply List.filter_In in Hr as [_ Hgt].
  unfold timestamp_gt in Hgt. destruct (timestamp r) as [t|]; [|discriminate].
  exists t. split; [reflexivity|]. apply Z.gtb_lt in Hgt. exact Hgt.
Qed.

Lemma retained_incl (now : Z) (l l' : list Sample) :
  incl l' l -> retained now l -> retained now l'.
Proof. intros Hincl Hret r Hr. apply Hret, Hincl, Hr. Qed.

Lemma retained_absent31 (now : Z) (l : list Sample) :
  retained now l -> absent31 now l.
Proof.
  intros Hret r Hr Hts. destruct (Hret r Hr) as (t & Ht & Hlt).
  rewrite Hts in Ht. injection Ht as <-.
  unfold StorageService.msPerDay in Hlt. lia.
Qed.

Lemma readOr_stream (key : string) (l : list Sample) (w : World) :
  disk w !! key = Some (Json (VArray l)) ->
  readOr key (VArray []) w = VArray l \/ readOr key (VArray []) w = VArray [].
Proof.
  intros Hdisk. unfold readOr. rewrite Hdisk.
  destruct (rejects w (storageCalls w)); [now right|now left].
Qed.

Section Retention.
Context `{Runtime}.
Import StorageService.

(** A property of the stored stream that sub-arrays inherit holds of what
    every query returns. *)
Lemma everyQuery_stream (w : World) (l : list Sample)
    (P : list Sample -> Prop) :
  disk w !! STORAGE_KEYS.HEART_RATE_HISTORY = Some (Json (VArray l)) ->
  (forall l', incl l' l -> P l') ->
  everyQuery w P.
Proof.
  intros Hdisk HP.
  assert (Hsub : forall p, P (List.filter p l))
    by (intros p; apply HP; intros r Hr; now apply List.filter_In in Hr).
  assert (Hnil : P []) by (apply HP; intros r []).
  pose proof (readOr_stream _ _ _ Hdisk) as Hread.
  unfold everyQuery. split; [|split; [|split]].
  - rewrite getHeartRateHistory_run. cbn [fst].
    destruct Hread as [-> | ->]; eexists; (split; [reflexivity|]);
      [apply HP, incl_refl|exact Hnil].
  - intros days. rewrite getRecentData_run. cbn [fst].
    destruct Hread as [-> | ->]; eexists; (split; [reflexivity|]);
      [apply Hsub|exact Hnil].
  - rewrite getTodayData_run. cbn [fst].
    destruct Hread as [-> | ->]; eexists; (split; [reflexivity|]);
      [apply Hsub|exact Hnil].
  - intros startDate endDate. rewrite getDataInRange_run. cbn [fst].
    destruct Hread as [-> | ->]; eexists; (split; [reflexivity|]);
      [apply Hsub|exact Hnil].
Qed.

Lemma saveHeartRateRecord_retains (heartRate : Q) (w w' : World) :
  saveHeartRateRecord heartRate w = (Return true, w') ->
  exists l,
    disk w' !! STORAGE_KEYS.HEART_RATE_HISTORY = Some (Json (VArray l))
    /\ retained (saveTime w) l.
Proof.
  rewrite saveHeartRateRecord_run.
  destruct (readOr _ _ _) as [l0| |]; try discriminate.
  cbv zeta. destruct (rejects w (S (storageCalls w))); [discriminate|].
  intros [= <-]. eexists. split.
  - cbn [called withDisk disk]. apply lookup_insert_eq.
  - apply retained_filter.
Qed.

Lemma saveHealthRecord_retains (record : Sample) (w w' : World) :
  saveHealthRecord record w = (Return true, w') ->
  exists l,
    disk w' !! STORAGE_KEYS.HEALTH_RECORDS = Some (Json (VArray l))
    /\ retained (saveTime w) l.
Proof.
  rewrite saveHealthRecord_run.
  destruct (readOr _ _ _) as [l0| |]; try discriminate.
  cbv zeta. destruct (rejects w (S (storageCalls w))); [discriminate|].
  intros [= <-]. eexists. split.
  - cbn [called withDisk disk]. apply lookup_insert_eq.
  - apply retained_filter.
Qed.

Lemma retained_earlier (now now' : Z) (l : list Sample) :
  now <= now' -> retained now' l -> retained now l.
Proof.
  intros Hle Hret r Hr. destruct (Hret r Hr) as (t & Ht & Hlt).
  exists t. split; [exact Ht|lia].
Qed.

Lemma everyQuery_absent (w : World) (P : list Sample -> Prop) :
  disk w !! STORAGE_KEYS.HEART_RATE_HISTORY = None -> P [] ->
  everyQuery w P.
Proof.
  intros Hdisk Hnil.
  assert (Hread : readOr STORAGE_KEYS.HEART_RATE_HISTORY (VArray []) w
                  = VArray [])
    by (unfold readOr; rewrite Hdisk;
        destruct (rejects w (storageCalls w)); reflexivity).
  unfold everyQuery. split; [|split; [|split]].
  - rewrite getHeartRateHistory_run. cbn [fst]. rewrite Hread. eauto.
  - intros days. rewrite getRecentData_run. cbn [fst]. rewrite Hread. eauto.
  - rewrite getTodayData_run. cbn [fst]. rewrite Hread. eauto.
  - intros startDate endDate. rewrite getDataInRange_run. cbn [fst].
    rewrite Hread. eauto.
Qed.

Lemma everyQuery_retained (now : Z) (w : World) :
  streamRetained now w ->
  everyQuery w (fun l => retained now l /\ absent31 now l).
Proof.
  intros [Hnone | (l & Hdisk & Hret)].
  - apply everyQuery_absent; [exact Hnone|]. split; intros r [].
  - apply (everyQuery_stream w l); [exact Hdisk|].
    intros l' Hincl. pose proof (retained_incl _ _ _ Hincl Hret) as Hret'.
    split; [exact Hret'|now apply retained_absent31].
Qed.

(** No operation changes the clock or takes a reading back. *)
Lemma perform_clock (op : Operation) (w : World) :
  clock (perform op w) = clock w
  /\ (clockReads w <= clockReads (perform op w))%nat.
Proof.
  destruct op; cbn [perform]; run_store; cbn; split; (reflexivity || lia).
Qed.

Lemma perform_clockFrom (now : Z) (op : Operation) (w : World) :
  clockFrom now w -> clockFrom now (perform op w).
Proof.
  intros Hclock n Hn. destruct (perform_clock op w) as [-> Hreads].
  apply Hclock. lia.
Qed.

(** Every operation keeps the heart-rate stream within the window counted
    from [now], when the clock does not go back behind [now]. *)
Lemma perform_streamRetained (now : Z) (op : Operation) (w : World) :
  clockFrom now w -> streamRetained now w ->
  streamRetained now (perform op w).
Proof.
  intros Hclock Hinv. unfold streamRetained in *.
  destruct op; cbn [perform]; run_store;
    cbn [snd called withDisk tick disk]; try exact Hinv.
  - (* saveHeartRateRecord has written the filtered stream *)
    right. eexists. split; [apply lookup_insert_eq|].
    apply retained_earlier with (now' := saveTime w);
      [apply Hclock; lia|apply retained_filter].
  - (* saveHealthRecord has written another key *)
    rewrite lookup_insert_ne by discriminate. exact Hinv.
  - (* saveThresholds *)
    rewrite lookup_insert_ne by discriminate. exact Hinv.
  - (* saveUserSettings *)
    rewrite lookup_insert_ne by discriminate. exact Hinv.
  - (* clearAllData has removed the stream *)
    left. apply lookup_delete_eq.
Qed.

Lemma performAll_streamRetained (now : Z) (ops : list Operation) (w : World) :
  clockFrom now w -> streamRetained now w ->
  streamRetained now (performAll ops w).
Proof.
  revert w. induction ops as [|op ops IH]; intros w Hclock Hinv;
    [exact Hinv|].
  cbn [performAll fold_left]. apply IH.
  - now apply perform_clockFrom.
  - now apply perform_streamRetained.
Qed.

(** A save that completes has read the clock three times. *)
Lemma saveHeartRateRecord_clock (heartRate : Q) (w w' : World) :
  saveHeartRateRecord heartRate w = (Return true, w') ->
  clock w' = clock w /\ clockReads w' = S (S (S (clockReads w))).
Proof.
  rewrite saveHeartRateRecord_run.
  destruct (readOr _ _ _) as [l0| |]; try discriminate.
  cbv zeta. destruct (rejects w (S (storageCalls w))); [discriminate|].
  intros [= <-]. split; reflexivity.
Qed.

End Retention.

(** C2.  After a save that completes, the persisted stream holds only
    samples stamped strictly after the save time minus 30 days ([saveTime]
    is the clock reading the save counts the window from); in particular
    no sample stamped 31 days before the save time is in it.  Nor is one in
    what a query returns afterwards: not while the stream is the persisted
    one, and not after any further calls on the store, as long as the
    clock does not go back behind the save time. *)
Theorem retention_after_save (R : Runtime) :
  (forall (heartRate : Q) (w w' : World),
      StorageService.saveHeartRateRecord heartRate w = (Return true, w') ->
      exists l,
        disk w' !! StorageService.STORAGE_KEYS.HEART_RATE_HISTORY
        = Some (Json (VArray l))
        /\ retained (saveTime w) l
        /\ absent31 (saveTime w) l
        /\ (forall w2,
              disk w2 !! StorageService.STORAGE_KEYS.HEART_RATE_HISTORY
              = disk w' !! StorageService.STORAGE_KEYS.HEART_RATE_HISTORY ->
              everyQuery w2
                (fun l' =>
                   retained (saveTime w) l' /\ absent31 (saveTime w) l'))
        /\ (forall ops,
              clockFrom (saveTime w) w' ->
              everyQuery (performAll ops w')
                (fun l' =>
                   retained (saveTime w) l' /\ absent31 (saveTime w) l')))
  /\ (forall (record : Sample) (w w' : World),
      StorageService.saveHealthRecord record w = (Return true, w') ->
      exists l,
        disk w' !! StorageService.STORAGE_KEYS.HEALTH_RECORDS
        = Some (Json (VArray l))
        /\ retained (saveTime w) l
        /\ absent31 (saveTime w) l
        /\ forall w2,
             disk w2 !! StorageService.STORAGE_KEYS.HEALTH_RECORDS
             = disk w' !! StorageService.STORAGE_KEYS.HEALTH_RECORDS ->
             exists l',
               fst (StorageService.getHealthRecords w2) = Return (VArray l')
               /\ retained (saveTime w) l' /\ absent31 (saveTime w) l').
Proof.
  split.
  - intros heartRate w w' Hsave.
    destruct (saveHeartRateRecord_retains _ _ _ Hsave) as (l & Hdisk & Hret).
    exists l. split; [exact Hdisk|]. split; [exact Hret|].
    split; [now apply retained_absent31|]. split.
    + intros w2 Hsame. rewrite Hdisk in Hsame.
      apply everyQuery_retained. right. exists l. now split.
    + intros ops Hclock. apply everyQuery_retained.
      apply performAll_streamRetained; [exact Hclock|].
      right. exists l. now split.
  - intros record w w' Hsave.
    destruct (saveHealthRecord_retains _ _ _ Hsave) as (l & Hdisk & Hret).
    exists l. split; [exact Hdisk|]. split; [exact Hret|].
    split; [now apply retained_absent31|].
    intros w2 Hsame. rewrite Hdisk in Hsame.
    rewrite getHealthRecords_run. cbn [fst].
    destruct (readOr_stream _ _ _ Hsame) as [-> | ->]; eexists;
      (split; [reflexivity|]).
    + split; [exact Hret|now apply retained_absent31].
    + split; intros r [].
Qed.

Lemma retention_after_save_witness :
  StorageService.saveHeartRateRecord (H := TestRuntime.runtime) (72 # 1)
    staleWorld
  = (Return true,
     snd (StorageService.saveHeartRateRecord (H := TestRuntime.runtime)
            (72 # 1) staleWorld))
  /\ clockFrom (saveTime staleWorld)
       (snd (StorageService.saveHeartRateRecord (H := TestRuntime.runtime)
               (72 # 1) staleWorld))
  /\ (exists l,
        disk (snd (StorageService.saveHeartRateRecord
                     (H := TestRuntime.runtime) (72 # 1) staleWorld))
          !! StorageService.STORAGE_KEYS.HEART_RATE_HISTORY
        = Some (Json (VArray l))
        /\ absent31 (saveTime staleWorld) l)
  /\ everyQuery (H := TestRuntime.runtime)
       (performAll (H := TestRuntime.runtime)
          [CallGetStatistics None; CallSaveHealthRecord stampedRecord;
           CallSaveHeartRateRecord (75 # 1); CallGetRecentData (Some 30)]
          (snd (StorageService.saveHeartRateRecord
                  (H := TestRuntime.runtime) (72 # 1) staleWorld)))
       (fun l' => retained (saveTime staleWorld) l'
                  /\ absent31 (saveTime staleWorld) l').
Proof.
  assert (Hsave :
    StorageService.saveHeartRateRecord (H := TestRuntime.runtime) (72 # 1)
      staleWorld
    = (Return true,
       snd (StorageService.saveHeartRateRecord (H := TestRuntime.runtime)
              (72 # 1) staleWorld))).
  { assert (Hfst :
      fst (StorageService.saveHeartRateRecord (H := TestRuntime.runtime)
             (72 # 1) staleWorld) = Return true) by (vm_compute; reflexivity).
    destruct (StorageService.saveHeartRateRecord _ _) as [o w'].
    cbn [fst snd] in *. now rewrite Hfst. }
  assert (Hclock :
    clockFrom (saveTime staleWorld)
      (snd (StorageService.saveHeartRateRecord (H := TestRuntime.runtime)
              (72 # 1) staleWorld))).
  { destruct (saveHeartRateRecord_clock _ _ _ Hsave) as [Hc Hr].
    intros n Hn. rewrite Hc. rewrite Hr in Hn.
    unfold saveTime, staleWorld, worldAt. cbn [clock clockReads]. lia. }
  split; [exact Hsave|]. split; [exact Hclock|].
  destruct (proj1 (retention_after_save TestRuntime.runtime) _ _ _ Hsave)
    as (l & Hdisk & _ & Habs & _ & Hafter).
  split; [exists l; split; [exact Hdisk|exact Habs]|].
  apply Hafter. exact Hclock.
Defined.

Example stale_record_purged :
  disk (snd (StorageService.saveHeartRateRecord (H := TestRuntime.runtime)
               (72 # 1) staleWorld))
    !! StorageService.STORAGE_KEYS.HEART_RATE_HISTORY
  = Some (Json (VArray
                  [heartRateRecord (H := TestRuntime.runtime) (72 # 1)
                     someDay (someDay + 1)])).
Proof. vm_compute. reflexivity. Qed.

(** ** Average, minimum and maximum (C3) *)



Lemma Qgtb_false a b : JS.Qgtb a b = false -> (a <= b)%Q.
Proof.
  intros E. apply Qnot_lt_le. intros Hlt. apply Qgtb_spec in Hlt. congruence.
Qed.










Lemma Qround_mono a b : (a <= b)%Q -> (Qround a <= Qround b)%Z.
Proof.
  intros Hab. unfold Qround. apply Qfloor_resp_le.
  apply Qplus_le_l. exact Hab.
Qed.


Lemma Qround_int z : Qround (inject_Z z) = z.
Proof.
  unfold Qround, Qplus, inject_Z, Qfloor. cbn [Qnum Qden].
  change (Z.pos (1 * 2)) with 2.
  symmetry. apply (Z.div_unique _ 2 z 1); lia.
Qed.







(** ** A single sample (C4) *)

(** What [getStatistics] returns as [firstAvg] is the sum of the first half
    divided by [firstHalfDivisor], rounded. *)
Lemma firstAvg_computeStatistics data :
  data <> [] ->
  firstAvg (computeStatistics data)
  = Some (JS.round
            (JS.div
               (JS.sum (take (length (valuesOf data) / 2) (valuesOf data)))
               (JS.ofNat (firstHalfDivisor data)))).
Proof.
  intros Hne. unfold computeStatistics.
  destruct data; [congruence|]. reflexivity.
Qed.

(** C4, as amended.  For a single sample, whatever its value, the first
    half is empty and is not special-cased: its average is evaluated as
    [0 / 0], which is [NaN] (division by zero raises nothing in
    JavaScript, and [getStatistics] returns in every world); the two
    comparisons with [NaN] are false, so the trend is ['stable'], and the
    [firstAvg] returned is [NaN]. *)
Theorem single_sample_trend_stable (r : Sample) :
  firstHalfDivisor [r] = 0%nat
  /\ JS.div (JS.sum []) (JS.ofNat 0) = JS.NaN
  /\ firstAvg (computeStatistics [r]) = Some JS.NaN
  /\ trend (computeStatistics [r]) = "stable"
  /\ (forall days, neverThrows (StorageService.getStatistics days)).
Proof.
  do 3 (split; [reflexivity|]). split.
  - unfold computeStatistics, trendOf, valuesOf.
    cbn [length Nat.eqb trend map].
    destruct (value r) as [q|]; reflexivity.
  - intros days w. rewrite getStatistics_run. eexists. reflexivity.
Qed.

(** C4 as stated fails: for the single sample 70 the divisor of the first
    average is zero, the division is evaluated, and its result [NaN] is
    returned as [firstAvg]. *)
Lemma single_sample_division_by_zero_counterexample :
  length (beats [70]) = 1%nat
  /\ firstHalfDivisor (beats [70]) = 0%nat
  /\ firstAvg (computeStatistics (beats [70]))
     = Some (JS.round (JS.div (JS.Fin 0) (JS.ofNat 0)))
  /\ firstAvg (computeStatistics (beats [70])) = Some JS.NaN.
Proof. repeat split. Qed.

(** ** The threshold evaluator (C5, C6) *)


Lemma gtb_Fin a b : JS.gtb (JS.Fin a) (JS.Fin b) = true <-> (b < a)%Q.
Proof. apply Qgtb_spec. Qed.

Lemma gtb_Fin_false a b : JS.gtb (JS.Fin a) (JS.Fin b) = false <-> (a <= b)%Q.
Proof.
  cbn. split.
  - apply Qgtb_false.
  - intros Hle. destruct (JS.Qgtb a b) eqn:E; [|reflexivity].
    apply Qgtb_spec in E. exfalso. now apply (Qlt_not_le b a).
Qed.

Section Evaluator.
Context `{Runtime}.
Import HealthService.



End Evaluator.



(** C6, as amended.  A blood-oxygen value below [thresholds.minBloodOxygen]
    is ['critical'] with severity ['danger'] when it is below 90 and
    ['low'] with severity ['warning'] when it is at least 90; a value that
    is not below [thresholds.minBloodOxygen] is ['normal'], also when it is
    below 90. *)
Theorem blood_oxygen_classification (R : Runtime)
    (this : HealthService.thresholds) (bloodOxygen : JS.number) :
  (JS.ltb bloodOxygen (HealthService.minBloodOxygen this) = true ->
   JS.ltb bloodOxygen (JS.ofZ 90) = true ->
   HealthService.status (HealthService.checkBloodOxygen this bloodOxygen)
   = "critical"
   /\ HealthService.severity (HealthService.checkBloodOxygen this bloodOxygen)
      = "danger")
  /\ (JS.ltb bloodOxygen (HealthService.minBloodOxygen this) = true ->
      JS.le (JS.ofZ 90) bloodOxygen ->
      HealthService.status (HealthService.checkBloodOxygen this bloodOxygen)
      = "low"
      /\ HealthService.severity
           (HealthService.checkBloodOxygen this bloodOxygen)
         = "warning")
  /\ (JS.ltb bloodOxygen (HealthService.minBloodOxygen this) = false ->
      HealthService.status (HealthService.checkBloodOxygen this bloodOxygen)
      = "normal"
      /\ HealthService.severity
           (HealthService.checkBloodOxygen this bloodOxygen)
         = "normal").
Proof.
  assert (Hge : JS.le (JS.ofZ 90) bloodOxygen ->
                JS.ltb bloodOxygen (JS.ofZ 90) = false).
  { destruct bloodOxygen as [q| | |]; cbn; try tauto.
    intros Hle. now apply gtb_Fin_false. }
  unfold HealthService.checkBloodOxygen. split; [|split].
  - intros Hbelow Hcritical. rewrite Hbelow, Hcritical. split; reflexivity.
  - intros Hbelow Hle. rewrite Hbelow, (Hge Hle). split; reflexivity.
  - intros Hnot. rewrite Hnot. split; reflexivity.
Qed.

Lemma blood_oxygen_classification_witness :
  JS.ltb (JS.ofZ 88)
    (HealthService.minBloodOxygen HealthService.initialThresholds) = true
  /\ JS.ltb (JS.ofZ 88) (JS.ofZ 90) = true
  /\ HealthService.status
       (HealthService.checkBloodOxygen (H := TestRuntime.runtime)
          HealthService.initialThresholds (JS.ofZ 88)) = "critical"
  /\ HealthService.severity
       (HealthService.checkBloodOxygen (H := TestRuntime.runtime)
          HealthService.initialThresholds (JS.ofZ 88)) = "danger".
Proof.
  split; [reflexivity|]. split; [reflexivity|].
  exact (proj1 (blood_oxygen_classification TestRuntime.runtime
                  HealthService.initialThresholds (JS.ofZ 88))
           eq_refl eq_refl).
Defined.

(** C6 as stated fails when the configured bound is below 90: with
    [minBloodOxygen = 85] the value 87, which is below 90, is ['normal']. *)
Lemma blood_oxygen_below_90_counterexample :
  JS.ltb (JS.ofZ 87) (JS.ofZ 90) = true
  /\ HealthService.status
       (HealthService.checkBloodOxygen (H := TestRuntime.runtime)
          lowOxygenThresholds (JS.ofZ 87)) = "normal"
  /\ HealthService.severity
       (HealthService.checkBloodOxygen (H := TestRuntime.runtime)
          lowOxygenThresholds (JS.ofZ 87)) = "normal"
  /\ ~ (HealthService.status
          (HealthService.checkBloodOxygen (H := TestRuntime.runtime)
             lowOxygenThresholds (JS.ofZ 87)) = "critical"
        /\ HealthService.severity
             (HealthService.checkBloodOxygen (H := TestRuntime.runtime)
                lowOxygenThresholds (JS.ofZ 87)) = "danger").
Proof.
  split; [reflexivity|]. split; [reflexivity|]. split; [reflexivity|].
  intros [Hst _]. vm_compute in Hst. discriminate Hst.
Qed.

(** ** The time stamp of a saved record (C7) *)

Section Stamp.
Context `{Runtime}.
Import StorageService.

Lemma saveHealthRecord_stored (record : Sample) (w w' : World) :
  saveHealthRecord record w = (Return true, w') ->
  exists old,
    readOr STORAGE_KEYS.HEALTH_RECORDS (VArray []) (tick (tick w)) = VArray old
    /\ disk w' !! STORAGE_KEYS.HEALTH_RECORDS
       = Some (Json (VArray
            (List.filter
               (fun r => timestamp_gt r (saveTime w - 30 * msPerDay))
               (old ++ [fullRecord record (stampTime w) (dateTime w)])%list))).
Proof.
  rewrite saveHealthRecord_run.
  destruct (readOr _ _ _) as [old| |]; try discriminate.
  cbv zeta. destruct (rejects w (S (storageCalls w))); [discriminate|].
  intros [= <-]. exists old. split; [reflexivity|].
  cbn [called withDisk disk]. apply lookup_insert_eq.
Qed.

Lemma saveHeartRateRecord_stored (heartRate : Q) (w w' : World) :
  saveHeartRateRecord heartRate w = (Return true, w') ->
  exists old,
    readOr STORAGE_KEYS.HEART_RATE_HISTORY (VArray []) (tick (tick w))
    = VArray old
    /\ disk w' !! STORAGE_KEYS.HEART_RATE_HISTORY
       = Some (Json (VArray
            (List.filter
               (fun r => timestamp_gt r (saveTime w - 30 * msPerDay))
               (old ++ [heartRateRecord heartRate (stampTime w) (dateTime w)])
               %list))).
Proof.
  rewrite saveHeartRateRecord_run.
  destruct (readOr _ _ _) as [old| |]; try discriminate.
  cbv zeta. destruct (rejects w (S (storageCalls w))); [discriminate|].
  intros [= <-]. exists old. split; [reflexivity|].
  cbn [called withDisk disk]. apply lookup_insert_eq.
Qed.

Lemma appended_kept (old : list Sample) (r : Sample) (now t : Z) :
  timestamp r = Some t -> now - 30 * msPerDay < t ->
  In r (List.filter (fun r => timestamp_gt r (now - 30 * msPerDay))
          (old ++ [r])%list).
Proof.
  intros Ht Hlt. apply List.filter_In. split.
  - apply List.in_or_app. right. now left.
  - unfold timestamp_gt. rewrite Ht. now apply Z.gtb_lt.
Qed.

End Stamp.

(** C7, as amended.  A save that completes stores the new record with the
    clock reading taken at the start of the save as its [timestamp],
    whether or not the sample it was given carries a [timestamp] (and a
    [date]) of its own: [saveHealthRecord] overwrites both and keeps the
    other fields, [saveHeartRateRecord] is given the value alone.  The new
    record is appended to what was read and the stream filtered to the
    retention window is persisted; the new record is in it when its stamp
    is within the window. *)
Theorem save_stamps_current_time (R : Runtime) :
  (forall (record : Sample) (w w' : World),
      StorageService.saveHealthRecord record w = (Return true, w') ->
      let stored := fullRecord record (stampTime w) (dateTime w) in
      timestamp stored = Some (stampTime w)
      /\ date stored = Some (toISOString (dateTime w))
      /\ (value stored, heartRate stored, bloodOxygen stored, steps stored,
          calories stored, distance stored)
         = (value record, heartRate record, bloodOxygen record, steps record,
            calories record, distance record)
      /\ exists old,
           readOr StorageService.STORAGE_KEYS.HEALTH_RECORDS (VArray [])
             (tick (tick w)) = VArray old
           /\ disk w' !! StorageService.STORAGE_KEYS.HEALTH_RECORDS
              = Some (Json (VArray
                   (List.filter
                      (fun r => timestamp_gt r
                         (saveTime w - 30 * StorageService.msPerDay))
                      (old ++ [stored])%list)))
           /\ (saveTime w - 30 * StorageService.msPerDay < stampTime w ->
               In stored
                 (List.filter
                    (fun r => timestamp_gt r
                       (saveTime w - 30 * StorageService.msPerDay))
                    (old ++ [stored])%list)))
  /\ (forall (heartRate : Q) (w w' : World),
      StorageService.saveHeartRateRecord heartRate w = (Return true, w') ->
      let stored := heartRateRecord heartRate (stampTime w) (dateTime w) in
      timestamp stored = Some (stampTime w)
      /\ value stored = Some heartRate
      /\ exists old,
           readOr StorageService.STORAGE_KEYS.HEART_RATE_HISTORY (VArray [])
             (tick (tick w)) = VArray old
           /\ disk w' !! StorageService.STORAGE_KEYS.HEART_RATE_HISTORY
              = Some (Json (VArray
                   (List.filter
                      (fun r => timestamp_gt r
                         (saveTime w - 30 * StorageService.msPerDay))
                      (old ++ [stored])%list)))
           /\ (saveTime w - 30 * StorageService.msPerDay < stampTime w ->
               In stored
                 (List.filter
                    (fun r => timestamp_gt r
                       (saveTime w - 30 * StorageService.msPerDay))
                    (old ++ [stored])%list))).
Proof.
  split.
  - intros record w w' Hsave stored.
    destruct (saveHealthRecord_stored _ _ _ Hsave) as (old & Hread & Hdisk).
    do 3 (split; [reflexivity|]).
    exists old. split; [exact Hread|]. split; [exact Hdisk|].
    intros Hwin. now apply appended_kept with (t := stampTime w).
  - intros heartRate w w' Hsave stored.
    destruct (saveHeartRateRecord_stored _ _ _ Hsave) as (old & Hread & Hdisk).
    do 2 (split; [reflexivity|]).
    exists old. split; [exact Hread|]. split; [exact Hdisk|].
    intros Hwin. now apply appended_kept with (t := stampTime w).
Qed.

Lemma save_stamps_current_time_witness :
  StorageService.saveHealthRecord (H := TestRuntime.runtime) stampedRecord
    (worldAt someDay ∅)
  = (Return true,
     snd (StorageService.saveHealthRecord (H := TestRuntime.runtime)
            stampedRecord (worldAt someDay ∅)))
  /\ timestamp (fullRecord (H := TestRuntime.runtime) stampedRecord
                  (stampTime (worldAt someDay ∅))
                  (dateTime (worldAt someDay ∅)))
     = Some (stampTime (worldAt someDay ∅)).
Proof.
  assert (Hsave :
    StorageService.saveHealthRecord (H := TestRuntime.runtime) stampedRecord
      (worldAt someDay ∅)
    = (Return true,
       snd (StorageService.saveHealthRecord (H := TestRuntime.runtime)
              stampedRecord (worldAt someDay ∅)))).
  { assert (Hfst :
      fst (StorageService.saveHealthRecord (H := TestRuntime.runtime)
             stampedRecord (worldAt someDay ∅)) = Return true)
      by (vm_compute; reflexivity).
    destruct (StorageService.saveHealthRecord _ _) as [o w'].
    cbn [fst snd] in *. now rewrite Hfst. }
  split; [exact Hsave|].
  exact (proj1 (proj1 (save_stamps_current_time TestRuntime.runtime)
                  _ _ _ Hsave)).
Defined.

(** C7 as stated fails: a health record that carries the time stamp
    [someDay - 1000] is stored with the stamp [someDay], the clock reading of
    the save. *)
Lemma caller_timestamp_overwritten_counterexample :
  timestamp stampedRecord = Some (someDay - 1000)
  /\ fst (StorageService.saveHealthRecord (H := TestRuntime.runtime)
            stampedRecord (worldAt someDay ∅)) = Return true
  /\ exists stored,
       disk (snd (StorageService.saveHealthRecord (H := TestRuntime.runtime)
                    stampedRecord (worldAt someDay ∅)))
         !! StorageService.STORAGE_KEYS.HEALTH_RECORDS
       = Some (Json (VArray [stored]))
       /\ timestamp stored = Some someDay
       /\ timestamp stored <> timestamp stampedRecord.
Proof.
  split; [reflexivity|]. split; [vm_compute; reflexivity|].
  eexists. split; [vm_compute; reflexivity|].
  split; [reflexivity|]. cbn [timestamp stampedRecord].
  intros Heq. vm_compute in Heq. discriminate Heq.
Qed.

(** ** Persistence failures (C8) *)

Section Failures.
Context `{Runtime}.
Import StorageService.

Lemma saveHeartRateRecord_total (heartRate : Q) :
  neverThrows (saveHeartRateRecord heartRate).
Proof.
  intros w. run_store; eexists; reflexivity.
Qed.

Lemma saveHealthRecord_total (record : Sample) :
  neverThrows (saveHealthRecord record).
Proof.
  intros w. run_store; eexists; reflexivity.
Qed.

Lemma saveHeartRateRecord_write_fails (heartRate : Q) (w : World) :
  rejects w (S (storageCalls w)) = true ->
  fst (saveHeartRateRecord heartRate w) = Return false.
Proof.
  intros Hrej. rewrite saveHeartRateRecord_run.
  destruct (readOr _ _ _); cbv zeta; rewrite ?Hrej; reflexivity.
Qed.

Lemma saveHealthRecord_write_fails (record : Sample) (w : World) :
  rejects w (S (storageCalls w)) = true ->
  fst (saveHealthRecord record w) = Return false.
Proof.
  intros Hrej. rewrite saveHealthRecord_run.
  destruct (readOr _ _ _); cbv zeta; rewrite ?Hrej; reflexivity.
Qed.

Lemma readOr_rejected (key : string) (dflt : jsvalue) (w : World) :
  rejects w (storageCalls w) = true -> readOr key dflt w = dflt.
Proof. intros Hrej. unfold readOr. now rewrite Hrej. Qed.

Lemma queries_total :
  (forall days, neverThrows (getRecentData days))
  /\ neverThrows getTodayData
  /\ (forall startDate endDate,
        neverThrows (getDataInRange startDate endDate))
  /\ (forall days, neverThrows (getStatistics days)).
Proof.
  repeat split; intros; intros w;
    autorewrite with store_run; eexists; reflexivity.
Qed.

Lemma settings_total :
  (forall thresholds, neverThrows (saveThresholds thresholds))
  /\ neverThrows getThresholds
  /\ (forall settings, neverThrows (saveUserSettings settings))
  /\ neverThrows getUserSettings
  /\ neverThrows clearAllData.
Proof.
  repeat split; intros; intros w; run_store; eexists; reflexivity.
Qed.

End Failures.

(** C8.  No operation of the record store throws, whatever the storage
    calls do.  A save whose write is rejected returns [false] (the write is
    the second storage call of a save, after the read of the stream), and a
    read of a stream whose [getItem] is rejected returns the empty list; so
    do the queries built on it, and [getStatistics] returns the zero
    state. *)
Theorem persistence_failures_are_caught (R : Runtime) :
  ((forall heartRate, neverThrows (StorageService.saveHeartRateRecord heartRate))
   /\ (forall record, neverThrows (StorageService.saveHealthRecord record))
   /\ neverThrows StorageService.getHeartRateHistory
   /\ neverThrows StorageService.getHealthRecords
   /\ (forall days, neverThrows (StorageService.getRecentData days))
   /\ neverThrows StorageService.getTodayData
   /\ (forall startDate endDate,
         neverThrows (StorageService.getDataInRange startDate endDate))
   /\ (forall days, neverThrows (StorageService.getStatistics days))
   /\ (forall thresholds, neverThrows (StorageService.saveThresholds thresholds))
   /\ neverThrows StorageService.getThresholds
   /\ (forall settings, neverThrows (StorageService.saveUserSettings settings))
   /\ neverThrows StorageService.getUserSettings
   /\ neverThrows StorageService.clearAllData)
  /\ (forall heartRate w,
        rejects w (S (storageCalls w)) = true ->
        fst (StorageService.saveHeartRateRecord heartRate w) = Return false)
  /\ (forall record w,
        rejects w (S (storageCalls w)) = true ->
        fst (StorageService.saveHealthRecord record w) = Return false)
  /\ (forall w,
        rejects w (storageCalls w) = true ->
        fst (StorageService.getHeartRateHistory w) = Return (VArray [])
        /\ fst (StorageService.getHealthRecords w) = Return (VArray [])
        /\ (forall days,
              fst (StorageService.getRecentData days w) = Return [])
        /\ fst (StorageService.getTodayData w) = Return []
        /\ (forall startDate endDate,
              fst (StorageService.getDataInRange startDate endDate w)
              = Return [])
        /\ (forall days,
              fst (StorageService.getStatistics days w)
              = Return zeroStatistics)).
Proof.
  split; [|split; [|split]].
  - destruct queries_total as (Hrecent & Htoday & Hrange & Hstats).
    destruct settings_total as (Hst & Hgt & Hss & Hgs & Hclear).
    split; [exact saveHeartRateRecord_total|].
    split; [exact saveHealthRecord_total|].
    split; [intros w; rewrite getHeartRateHistory_run; eexists; reflexivity|].
    split; [intros w; rewrite getHealthRecords_run; eexists; reflexivity|].
    repeat split; assumption.
  - intros heartRate w. apply saveHeartRateRecord_write_fails.
  - intros record w. apply saveHealthRecord_write_fails.
  - intros w Hrej.
    split; [rewrite getHeartRateHistory_run; cbn [fst];
            now rewrite readOr_rejected|].
    split; [rewrite getHealthRecords_run; cbn [fst];
            now rewrite readOr_rejected|].
    split; [intros days; rewrite getRecentData_run; cbn [fst];
            now rewrite readOr_rejected|].
    split; [rewrite getTodayData_run; cbn [fst];
            now rewrite readOr_rejected|].
    split; [intros s e; rewrite getDataInRange_run; cbn [fst];
            now rewrite readOr_rejected|].
    intros days. rewrite getStatistics_run. cbn [fst].
    now rewrite readOr_rejected.
Qed.

Lemma persistence_failures_are_caught_witness :
  rejects (rejecting 1 fullWorld) (S (storageCalls (rejecting 1 fullWorld)))
  = true
  /\ fst (StorageService.saveHeartRateRecord (H := TestRuntime.runtime)
            (72 # 1) (rejecting 1 fullWorld)) = Return false.
Proof.
  split; [reflexivity|].
  exact (proj1 (proj2 (persistence_failures_are_caught TestRuntime.runtime))
           (72 # 1)%Q (rejecting 1 fullWorld) eq_refl).
Defined.

(** ** The CSV export (C9) *)

Lemma freeOf_app (c : ascii) (s1 s2 : string) :
  freeOf c (s1 ++ s2) = freeOf c s1 && freeOf c s2.
Proof.
  induction s1 as [|a s1 IH]; [reflexivity|].
  change (String a s1 ++ s2) with (String a (s1 ++ s2)).
  cbn [freeOf]. rewrite IH. apply andb_assoc.
Qed.

Lemma splitOn_free (sep : ascii) (s : string) :
  freeOf sep s = true -> splitOn sep s = [s].
Proof.
  induction s as [|a s IH]; cbn [freeOf splitOn]; [reflexivity|].
  intros Hfree. apply andb_prop in Hfree as [Ha Hs].
  apply negb_true_iff in Ha. rewrite Ha, (IH Hs). reflexivity.
Qed.

Lemma splitOn_app (sep : ascii) (s1 s2 : string) :
  freeOf sep s1 = true ->
  splitOn sep (s1 ++ String sep s2) = s1 :: splitOn sep s2.
Proof.
  induction s1 as [|a s1 IH].
  - intros _. change (EmptyString ++ String sep s2) with (String sep s2).
    cbn [splitOn]. now rewrite Ascii.eqb_refl.
  - change (String a s1 ++ String sep s2)
      with (String a (s1 ++ String sep s2)).
    cbn [freeOf splitOn]. intros Hfree. apply andb_prop in Hfree as [Ha Hs].
    apply negb_true_iff in Ha. rewrite Ha, (IH Hs). reflexivity.
Qed.

(** Cutting a joined text at the separator gives the pieces back, when
    there is a piece and no piece holds the separator. *)
Lemma splitOn_concat (sep : ascii) (xs : list string) :
  xs <> [] -> Forall (fun x => freeOf sep x = true) xs ->
  splitOn sep (String.concat (String sep EmptyString) xs) = xs.
Proof.
  induction xs as [|x xs IH]; [congruence|]. intros _ Hall.
  apply Forall_cons in Hall as [Hx Hxs].
  destruct xs as [|y ys].
  - cbn [String.concat]. now apply splitOn_free.
  - change (String.concat (String sep EmptyString) (x :: y :: ys))
      with (x ++ String sep (String.concat (String sep EmptyString) (y :: ys))).
    rewrite (splitOn_app _ _ _ Hx), IH; [reflexivity|discriminate|exact Hxs].
Qed.

Section CsvExport.
Context `{Runtime}.
Import SettingsScreen.

Lemma convertToCSV_rows (data : list Sample) :
  convertToCSV data
  = csvHeader ++ String LFchar (String.concat LF (map rowOf data)).
Proof. reflexivity. Qed.

Lemma rowOf_free_LF (r : Sample) :
  safeFields r -> freeOf LFchar (rowOf r) = true.
Proof.
  intros ((_ & Hd) & (_ & Ht) & (_ & Hv)). unfold rowOf.
  rewrite !freeOf_app, Hd, Ht, Hv. reflexivity.
Qed.

Lemma parseRow_rowOf (r : Sample) :
  safeFields r -> parseRow (rowOf r) = Some (tripleOf r).
Proof.
  intros ((Hd & _) & (Ht & _) & (Hv & _)). unfold parseRow, rowOf.
  change ("," ++ timeStrOf r ++ "," ++ templateField (value r))
    with (String comma (timeStrOf r
                        ++ String comma (templateField (value r)))).
  rewrite (splitOn_app _ _ _ Hd), (splitOn_app _ _ _ Ht),
    (splitOn_free _ _ Hv).
  reflexivity.
Qed.

Lemma parseRows_rows (data : list Sample) :
  Forall safeFields data ->
  parseRows (map rowOf data) = Some (map tripleOf data).
Proof.
  induction 1 as [|r data Hr _ IH]; [reflexivity|].
  cbn [map parseRows]. rewrite (parseRow_rowOf r Hr), IH. reflexivity.
Qed.

Lemma csvLines_convertToCSV (data : list Sample) :
  data <> [] -> Forall safeFields data ->
  csvLines (convertToCSV data) = csvHeader :: map rowOf data.
Proof.
  intros Hne Hsafe. unfold csvLines.
  rewrite convertToCSV_rows, splitOn_app by reflexivity.
  f_equal. apply splitOn_concat.
  - destruct data; [congruence|discriminate].
  - apply Forall_map. eapply Forall_impl; [exact Hsafe|].
    intros r Hr. now apply rowOf_free_LF.
Qed.

End CsvExport.

(** *** The UTC runtime prints nothing that has to be quoted

    Its dates, times and numbers are made of digits, [/], [:], [-], a space
    and the letters of [AM] and [PM]: for this runtime every sample has
    safe fields. *)

Lemma pretty_N_char_free (c : ascii) (d : N) :
  c = comma \/ c = LFchar -> Ascii.eqb (pretty_N_char d) c = false.
Proof.
  intros [-> | ->]; unfold pretty_N_char; repeat case_match; reflexivity.
Qed.

Lemma pretty_N_go_free (c : ascii) (x : N) (s : string) :
  c = comma \/ c = LFchar ->
  freeOf c s = true -> freeOf c (pretty_N_go x s) = true.
Proof.
  intros Hc. revert s. induction (N.lt_wf_0 x) as [x _ IH]. intros s Hs.
  destruct (N.eq_dec x 0%N) as [-> | Hx].
  - now rewrite pretty_N_go_0.
  - rewrite pretty_N_go_step by lia. apply IH.
    + apply N.div_lt; lia.
    + cbn [freeOf]. now rewrite (pretty_N_char_free c _ Hc), Hs.
Qed.

Lemma pretty_Z_free (c : ascii) (z : Z) :
  c = comma \/ c = LFchar -> freeOf c (pretty z) = true.
Proof.
  intros Hc.
  assert (Hpos : forall p : positive, freeOf c (pretty p) = true).
  { intros p. unfold pretty, pretty_positive, pretty, pretty_N.
    destruct (decide (N.pos p = 0%N)); [discriminate|].
    now apply pretty_N_go_free. }
  destruct z as [|p|p]; unfold pretty, pretty_Z.
  - destruct Hc as [-> | ->]; reflexivity.
  - apply Hpos.
  - rewrite freeOf_app, Hpos. destruct Hc as [-> | ->]; reflexivity.
Qed.

Lemma pad2_free (c : ascii) (n : Z) :
  c = comma \/ c = LFchar -> freeOf c (TestRuntime.pad2 n) = true.
Proof.
  intros Hc. unfold TestRuntime.pad2.
  destruct (n <? 10); rewrite ?freeOf_app, (pretty_Z_free c n Hc);
    destruct Hc as [-> | ->]; reflexivity.
Qed.

Lemma localeDate_free (c : ascii) (t : Z) :
  c = comma \/ c = LFchar -> freeOf c (TestRuntime.localeDate t) = true.
Proof.
  intros Hc. unfold TestRuntime.localeDate.
  destruct (TestRuntime.civil _) as [[y m] d].
  rewrite !freeOf_app, !(pretty_Z_free c _ Hc).
  destruct Hc as [-> | ->]; reflexivity.
Qed.

Lemma localeTime_free (c : ascii) (t : Z) :
  c = comma \/ c = LFchar -> freeOf c (TestRuntime.localeTime t) = true.
Proof.
  intros Hc. unfold TestRuntime.localeTime. cbv zeta.
  rewrite !freeOf_app, !(pad2_free c _ Hc), (pretty_Z_free c _ Hc).
  destruct (_ <? 12); destruct Hc as [-> | ->]; reflexivity.
Qed.

Lemma showQ_free (c : ascii) (q : Q) :
  c = comma \/ c = LFchar -> freeOf c (TestRuntime.showQ q) = true.
Proof.
  intros Hc. unfold TestRuntime.showQ. destruct (Qred q) as [n d].
  assert (Hfrac : freeOf c (pretty n ++ "/" ++ pretty (Z.pos d)) = true).
  { rewrite !freeOf_app, !(pretty_Z_free c _ Hc).
    destruct Hc as [-> | ->]; reflexivity. }
  destruct d; try exact Hfrac. apply (pretty_Z_free c n Hc).
Qed.

Lemma TestRuntime_safeFields (r : Sample) :
  safeFields (H := TestRuntime.runtime) r.
Proof.
  assert (Hcomma : comma = comma \/ comma = LFchar) by now left.
  assert (Hlf : LFchar = comma \/ LFchar = LFchar) by now right.
  unfold safeFields, csvSafe, SettingsScreen.dateStrOf,
    SettingsScreen.timeStrOf, templateField.
  cbn [toLocaleDateString toLocaleTimeString numberToString
       TestRuntime.runtime].
  repeat split; destruct (timestamp r), (value r);
    auto using localeDate_free, localeTime_free, showQ_free.
Qed.

(** With this runtime every non-empty list of samples is exported to a
    text that reads back, whatever the samples hold. *)
Lemma convertToCSV_round_trip_utc (data : list Sample) :
  data <> [] ->
  length (csvLines
            (SettingsScreen.convertToCSV (H := TestRuntime.runtime) data))
  = S (length data)
  /\ parseCSV (SettingsScreen.convertToCSV (H := TestRuntime.runtime) data)
     = Some (map (tripleOf (H := TestRuntime.runtime)) data).
Proof.
  intros Hne.
  assert (Hsafe : Forall (safeFields (H := TestRuntime.runtime)) data)
    by (apply List.Forall_forall; intros r _; apply TestRuntime_safeFields).
  pose proof (csvLines_convertToCSV data Hne Hsafe) as Hlines.
  split.
  - rewrite Hlines. cbn [length]. now rewrite length_map.
  - unfold parseCSV. rewrite Hlines.
    change (String.eqb csvHeader csvHeader) with true. cbv iota.
    now apply parseRows_rows.
Qed.



(** ** Clearing the data (C10) *)

Lemma STORAGE_KEYS_distinct :
  NoDup [StorageService.STORAGE_KEYS.HEART_RATE_HISTORY;
         StorageService.STORAGE_KEYS.HEALTH_RECORDS;
         StorageService.STORAGE_KEYS.THRESHOLDS;
         StorageService.STORAGE_KEYS.USER_SETTINGS].
Proof. compute_done. Qed.

Section Clear.
Context `{Runtime}.
Import StorageService.

Lemma clearAllData_other (w : World) (key : string) :
  key <> STORAGE_KEYS.HEART_RATE_HISTORY ->
  key <> STORAGE_KEYS.HEALTH_RECORDS ->
  disk (snd (clearAllData w)) !! key = disk w !! key.
Proof.
  intros Hhr Hhealth. rewrite clearAllData_run.
  destruct (rejects w (storageCalls w)); [reflexivity|].
  cbn [snd called withDisk disk].
  rewrite lookup_delete_ne, lookup_delete_ne; [reflexivity|auto..].
Qed.

Lemma clearAllData_removed (w : World) :
  fst (clearAllData w) = Return true ->
  disk (snd (clearAllData w)) !! STORAGE_KEYS.HEART_RATE_HISTORY = None
  /\ disk (snd (clearAllData w)) !! STORAGE_KEYS.HEALTH_RECORDS = None.
Proof.
  rewrite clearAllData_run.
  destruct (rejects w (storageCalls w)); [discriminate|]. intros _.
  cbn [snd called withDisk disk]. split.
  - apply lookup_delete_eq.
  - rewrite lookup_delete_ne by discriminate. apply lookup_delete_eq.
Qed.

Lemma readOr_same (key : string) (dflt : jsvalue) (w1 w2 : World) :
  disk w1 !! key = disk w2 !! key ->
  rejects w1 (storageCalls w1) = rejects w2 (storageCalls w2) ->
  readOr key dflt w1 = readOr key dflt w2.
Proof. intros Hdisk Hrej. unfold readOr. now rewrite Hdisk, Hrej. Qed.

End Clear.

(** C10.  [clearAllData] removes the heart-rate history and the health
    records and nothing else: every other key of the store, in particular
    the thresholds and the user settings, holds after the call what it
    held before, also when the removal is rejected.  So a caller that reads
    the thresholds (or the user settings), clears the data and reads them
    again is returned the same value twice, provided the storage answers
    both reads alike (a rejected read returns the defaults). *)
Theorem clearAllData_keeps_settings (w : World) :
  (forall key,
      key <> StorageService.STORAGE_KEYS.HEART_RATE_HISTORY ->
      key <> StorageService.STORAGE_KEYS.HEALTH_RECORDS ->
      disk (snd (StorageService.clearAllData w)) !! key = disk w !! key)
  /\ disk (snd (StorageService.clearAllData w))
       !! StorageService.STORAGE_KEYS.THRESHOLDS
     = disk w !! StorageService.STORAGE_KEYS.THRESHOLDS
  /\ disk (snd (StorageService.clearAllData w))
       !! StorageService.STORAGE_KEYS.USER_SETTINGS
     = disk w !! StorageService.STORAGE_KEYS.USER_SETTINGS
  /\ (fst (StorageService.clearAllData w) = Return true ->
      disk (snd (StorageService.clearAllData w))
        !! StorageService.STORAGE_KEYS.HEART_RATE_HISTORY = None
      /\ disk (snd (StorageService.clearAllData w))
           !! StorageService.STORAGE_KEYS.HEALTH_RECORDS = None)
  /\ (rejects w (storageCalls w) = rejects w (S (S (storageCalls w))) ->
      fst (StorageService.getThresholds
             (snd (StorageService.clearAllData
                     (snd (StorageService.getThresholds w)))))
      = fst (StorageService.getThresholds w)
      /\ fst (StorageService.getUserSettings
                (snd (StorageService.clearAllData
                        (snd (StorageService.getUserSettings w)))))
         = fst (StorageService.getUserSettings w)).
Proof.
  split; [intros key; apply clearAllData_other|].
  split; [apply clearAllData_other; discriminate|].
  split; [apply clearAllData_other; discriminate|].
  split; [apply clearAllData_removed|].
  intros Hrej.
  assert (Hcalls : rejects (snd (StorageService.clearAllData (called w)))
                     (storageCalls
                        (snd (StorageService.clearAllData (called w))))
                   = rejects w (storageCalls w)).
  { rewrite Hrej, clearAllData_run. cbn [called rejects storageCalls].
    destruct (rejects w (S (storageCalls w))); reflexivity. }
  rewrite !getThresholds_run, !getUserSettings_run. cbn [fst snd].
  split; f_equal; apply readOr_same; try exact Hcalls;
    rewrite clearAllData_other by discriminate; reflexivity.
Qed.

Lemma clearAllData_keeps_settings_witness :
  rejects fullWorld (storageCalls fullWorld)
  = rejects fullWorld (S (S (storageCalls fullWorld)))
  /\ fst (StorageService.clearAllData fullWorld) = Return true
  /\ fst (StorageService.getThresholds
            (snd (StorageService.clearAllData
                    (snd (StorageService.getThresholds fullWorld)))))
     = fst (StorageService.getThresholds fullWorld)
  /\ disk (snd (StorageService.clearAllData fullWorld))
       !! StorageService.STORAGE_KEYS.HEART_RATE_HISTORY = None.
Proof.
  assert (Hok : fst (StorageService.clearAllData fullWorld) = Return true)
    by (vm_compute; reflexivity).
  destruct (clearAllData_keeps_settings fullWorld)
    as (_ & _ & _ & Hgone & Hsame).
  split; [reflexivity|]. split; [exact Hok|].
  split; [exact (proj1 (Hsame eq_refl))|exact (proj1 (Hgone Hok))].
Defined.

Example thresholds_survive_clear :
  fst (StorageService.getThresholds
         (snd (StorageService.clearAllData fullWorld)))
  = Return (VThresholds
              (Thresholds.mk (Some (55 # 1)%Q) (Some (120 # 1)%Q) None))
  /\ fst (StorageService.getHeartRateHistory
            (snd (StorageService.clearAllData fullWorld)))
     = Return (VArray []).
Proof. split; vm_compute; reflexivity. Qed.

(** ** The examples on binary64 doubles

    The number model is exact; the engine computes on binary64 doubles.
    On the inputs of the examples above both give the same answers: the
    product [190 * 0.85] rounds to [161.5], the sums and means of the
    trend examples are exact, and [0 / 0] is a [NaN] that compares false
    with everything. *)

Example double_maxAllowed_times_085 :
  PrimFloat.mul (PrimFloat.sub 220 30) d085 = 161.5%float.
Proof. vm_compute. reflexivity. Qed.

Example double_warning_at_105 :
  PrimFloat.ltb (PrimFloat.mul (PrimFloat.sub 220 30) d085) 105 = false.
Proof. vm_compute. reflexivity. Qed.

Example double_danger_at_165 :
  PrimFloat.ltb (PrimFloat.mul (PrimFloat.sub 220 30) d085) 165 = true.
Proof. vm_compute. reflexivity. Qed.

Example double_half_means_exact :
  ((0 + 70 + 70 + 70 + 70) / 4 = 70 /\ (0 + 80 + 80 + 80 + 80) / 4 = 80)%float.
Proof. split; vm_compute; reflexivity. Qed.

Example double_zero_by_zero_is_nan :
  PrimFloat.is_nan (0 / 0)%float = true
  /\ PrimFloat.ltb (0 / 0 + 5)%float 70 = false
  /\ PrimFloat.ltb 70 (0 / 0 - 5)%float = false.
Proof. repeat split; vm_compute; reflexivity. Qed.

(** * Further properties of the record store *)

(** ** Failed writes *)



(** ** A save whose read of the stream fails *)

Lemma readOr_unreadable (key : string) (dflt : jsvalue) (w : World) :
  rejects w (storageCalls w) = true \/ disk w !! key = Some Garbage
  \/ disk w !! key = None ->
  readOr key dflt w = dflt.
Proof.
  unfold readOr. intros [-> | [-> | ->]]; [reflexivity|..];
    destruct (rejects w (storageCalls w)); reflexivity.
Qed.

(** X2.  A save does not tell a stream it could not read from an empty
    one: when the read of the stream is rejected, or the stored text does
    not parse, and the write succeeds, the save returns [true] and the
    stream it persists holds the new record alone; what was stored before
    is overwritten. *)
Theorem unreadable_stream_is_overwritten (R : Runtime) (w : World) :
  rejects w (storageCalls w) = true
  \/ disk w !! StorageService.STORAGE_KEYS.HEART_RATE_HISTORY = Some Garbage ->
  rejects w (S (storageCalls w)) = false ->
  saveTime w - 30 * StorageService.msPerDay < stampTime w ->
  forall heartRate,
    fst (StorageService.saveHeartRateRecord heartRate w) = Return true
    /\ disk (snd (StorageService.saveHeartRateRecord heartRate w))
         !! StorageService.STORAGE_KEYS.HEART_RATE_HISTORY
       = Some (Json (VArray
                 [heartRateRecord heartRate (stampTime w) (dateTime w)])).
Proof.
  intros Hread Hwrite Hwin heartRate.
  rewrite saveHeartRateRecord_run.
  assert (Hempty :
    readOr StorageService.STORAGE_KEYS.HEART_RATE_HISTORY (VArray [])
      (tick (tick w)) = VArray []).
  { apply readOr_unreadable. cbn [tick rejects storageCalls disk].
    destruct Hread as [Hr | Hg]; [now left|right; now left]. }
  rewrite Hempty. cbv zeta. rewrite Hwrite. cbn [fst snd called withDisk disk].
  split; [reflexivity|]. rewrite lookup_insert_eq.
  cbn [app List.filter]. unfold timestamp_gt at 1.
  cbn [timestamp heartRateRecord].
  apply Z.gtb_lt in Hwin. rewrite Hwin. reflexivity.
Qed.

Lemma unreadable_stream_is_overwritten_witness :
  (rejects unreadableWorld (storageCalls unreadableWorld) = true
   \/ disk unreadableWorld !! StorageService.STORAGE_KEYS.HEART_RATE_HISTORY
      = Some Garbage)
  /\ rejects unreadableWorld (S (storageCalls unreadableWorld)) = false
  /\ saveTime unreadableWorld - 30 * StorageService.msPerDay
     < stampTime unreadableWorld
  /\ (exists old,
        disk unreadableWorld
          !! StorageService.STORAGE_KEYS.HEART_RATE_HISTORY
        = Some (Json (VArray [old])))
  /\ disk (snd (StorageService.saveHeartRateRecord
                  (H := TestRuntime.runtime) (72 # 1) unreadableWorld))
       !! StorageService.STORAGE_KEYS.HEART_RATE_HISTORY
     = Some (Json (VArray
               [heartRateRecord (H := TestRuntime.runtime) (72 # 1)
                  (stampTime unreadableWorld) (dateTime unreadableWorld)])).
Proof.
  assert (Hread :
    rejects unreadableWorld (storageCalls unreadableWorld) = true
    \/ disk unreadableWorld !! StorageService.STORAGE_KEYS.HEART_RATE_HISTORY
       = Some Garbage) by (left; reflexivity).
  assert (Hwin : saveTime unreadableWorld - 30 * StorageService.msPerDay
                 < stampTime unreadableWorld) by (vm_compute; reflexivity).
  split; [exact Hread|]. split; [reflexivity|]. split; [exact Hwin|].
  split; [eexists; vm_compute; reflexivity|].
  exact (proj2 (unreadable_stream_is_overwritten TestRuntime.runtime
                  unreadableWorld Hread eq_refl Hwin (72 # 1)%Q)).
Defined.

(** ** Saving and reading back *)

Lemma filter_app_last {A} (p : A -> bool) (l : list A) (x : A) :
  p x = true -> List.filter p (l ++ [x]) = (List.filter p l ++ [x])%list.
Proof.
  intros Hx. rewrite List.filter_app. cbn [List.filter]. now rewrite Hx.
Qed.

Lemma readOr_stored (key : string) (dflt v : jsvalue) (w : World) :
  disk w !! key = Some (Json v) -> rejects w (storageCalls w) = false ->
  readOr key dflt w = v.
Proof. intros Hdisk Hok. unfold readOr. now rewrite Hok, Hdisk. Qed.

(** X3.  Reading back what was saved: after a save that completes (the
    clock not having run 30 days between its readings), a read of the
    history that is not rejected returns the records of the stream the
    save read that are still within the window, in their order, followed
    by the new record, which carries the saved value; so the history grows
    by at most one record. *)
Theorem saved_record_is_read_back_last (R : Runtime) (heartRate : Q)
    (w w' : World) :
  StorageService.saveHeartRateRecord heartRate w = (Return true, w') ->
  saveTime w - 30 * StorageService.msPerDay < stampTime w ->
  rejects w' (storageCalls w') = false ->
  exists old,
    readOr StorageService.STORAGE_KEYS.HEART_RATE_HISTORY (VArray [])
      (tick (tick w)) = VArray old
    /\ fst (StorageService.getHeartRateHistory w')
       = Return (VArray
           (List.filter
              (fun r => timestamp_gt r
                          (saveTime w - 30 * StorageService.msPerDay)) old
            ++ [heartRateRecord heartRate (stampTime w) (dateTime w)])%list)
    /\ value (heartRateRecord heartRate (stampTime w) (dateTime w))
       = Some heartRate
    /\ (length
          (List.filter
             (fun r => timestamp_gt r
                         (saveTime w - 30 * StorageService.msPerDay)) old
           ++ [heartRateRecord heartRate (stampTime w) (dateTime w)])%list
        <= S (length old))%nat.
Proof.
  intros Hsave Hwin Hok.
  destruct (saveHeartRateRecord_stored _ _ _ Hsave) as (old & Hread & Hdisk).
  exists old. split; [exact Hread|].
  rewrite filter_app_last in Hdisk
    by (unfold timestamp_gt; cbn [timestamp heartRateRecord];
        now apply Z.gtb_lt).
  split; [|split; [reflexivity|]].
  - rewrite getHeartRateHistory_run. cbn [fst].
    now rewrite (readOr_stored _ _ _ _ Hdisk Hok).
  - rewrite length_app. cbn [length].
    pose proof (List.filter_length_le
                  (fun r => timestamp_gt r
                     (saveTime w - 30 * StorageService.msPerDay)) old).
    lia.
Qed.

Lemma saved_record_is_read_back_last_witness :
  fst (StorageService.getHeartRateHistory
         (snd (StorageService.saveHeartRateRecord (H := TestRuntime.runtime)
                 (72 # 1) fullWorld)))
  = Return (VArray
      [heartRateRecord (H := TestRuntime.runtime) (80 # 1)
         (someDay - 5000) (someDay - 5000);
       heartRateRecord (H := TestRuntime.runtime) (72 # 1)
         someDay (someDay + 1)]).
Proof.
  assert (Hsave :
    StorageService.saveHeartRateRecord (H := TestRuntime.runtime) (72 # 1)
      fullWorld
    = (Return true,
       snd (StorageService.saveHeartRateRecord (H := TestRuntime.runtime)
              (72 # 1) fullWorld))).
  { assert (Hfst :
      fst (StorageService.saveHeartRateRecord (H := TestRuntime.runtime)
             (72 # 1) fullWorld) = Return true) by (vm_compute; reflexivity).
    destruct (StorageService.saveHeartRateRecord _ _) as [o w'].
    cbn [fst snd] in *. now rewrite Hfst. }
  assert (Hwin : saveTime fullWorld - 30 * StorageService.msPerDay
                 < stampTime fullWorld) by (vm_compute; reflexivity).
  assert (Hok : rejects (snd (StorageService.saveHeartRateRecord
                                (H := TestRuntime.runtime) (72 # 1) fullWorld))
                  (storageCalls
                     (snd (StorageService.saveHeartRateRecord
                             (H := TestRuntime.runtime) (72 # 1) fullWorld)))
                = false) by (vm_compute; reflexivity).
  destruct (saved_record_is_read_back_last TestRuntime.runtime _ _ _
              Hsave Hwin Hok) as (old & Hread & Hback & _).
  rewrite Hback. vm_compute in Hread. injection Hread as <-.
  vm_compute. reflexivity.
Defined.

(** ** Thresholds and settings *)

(** X4.  Thresholds and user settings are read back as they were saved:
    after a [saveThresholds] (a [saveUserSettings]) that returns [true], a
    read that is not rejected returns the object that was saved, whatever
    was stored before.  A read of a key that was never written, or whose
    text does not parse, returns the defaults [{min: 60, max: 100,
    minBloodOxygen: 95}] and [{notifications: true, autoSave: true, theme:
    'light'}]. *)
Theorem settings_are_read_back (w : World) :
  (forall thresholds,
      fst (StorageService.saveThresholds thresholds w) = Return true ->
      rejects w (S (storageCalls w)) = false ->
      fst (StorageService.getThresholds
             (snd (StorageService.saveThresholds thresholds w)))
      = Return (VThresholds thresholds))
  /\ (forall settings,
      fst (StorageService.saveUserSettings settings w) = Return true ->
      rejects w (S (storageCalls w)) = false ->
      fst (StorageService.getUserSettings
             (snd (StorageService.saveUserSettings settings w)))
      = Return (VSettings settings))
  /\ (disk w !! StorageService.STORAGE_KEYS.THRESHOLDS = None
      \/ disk w !! StorageService.STORAGE_KEYS.THRESHOLDS = Some Garbage ->
      fst (StorageService.getThresholds w)
      = Return (VThresholds
                  (Thresholds.mk (Some (60 # 1)%Q) (Some (100 # 1)%Q)
                     (Some (95 # 1)%Q))))
  /\ (disk w !! StorageService.STORAGE_KEYS.USER_SETTINGS = None
      \/ disk w !! StorageService.STORAGE_KEYS.USER_SETTINGS = Some Garbage ->
      fst (StorageService.getUserSettings w)
      = Return (VSettings
                  (UserSettings.mk (Some true) (Some true) (Some "light")))).
Proof.
  split; [|split; [|split]].
  - intros thresholds. rewrite saveThresholds_run.
    destruct (rejects w (storageCalls w)); [discriminate|]. intros _ Hok.
    cbn [snd]. rewrite getThresholds_run. cbn [fst]. f_equal.
    apply readOr_stored; [apply lookup_insert_eq|exact Hok].
  - intros settings. rewrite saveUserSettings_run.
    destruct (rejects w (storageCalls w)); [discriminate|]. intros _ Hok.
    cbn [snd]. rewrite getUserSettings_run. cbn [fst]. f_equal.
    apply readOr_stored; [apply lookup_insert_eq|exact Hok].
  - intros Hdisk. rewrite getThresholds_run. cbn [fst]. f_equal.
    apply readOr_unreadable. right. destruct Hdisk; [now right|now left].
  - intros Hdisk. rewrite getUserSettings_run. cbn [fst]. f_equal.
    apply readOr_unreadable. right. destruct Hdisk; [now right|now left].
Qed.

Lemma settings_are_read_back_witness :
  fst (StorageService.saveThresholds
         (Thresholds.mk (Some (50 # 1)%Q) (Some (110 # 1)%Q) None) fullWorld)
  = Return true
  /\ rejects fullWorld (S (storageCalls fullWorld)) = false
  /\ fst (StorageService.getThresholds
            (snd (StorageService.saveThresholds
                    (Thresholds.mk (Some (50 # 1)%Q) (Some (110 # 1)%Q) None)
                    fullWorld)))
     = Return (VThresholds
                 (Thresholds.mk (Some (50 # 1)%Q) (Some (110 # 1)%Q) None)).
Proof.
  assert (Hok : fst (StorageService.saveThresholds
                       (Thresholds.mk (Some (50 # 1)%Q) (Some (110 # 1)%Q)
                          None) fullWorld) = Return true)
    by (vm_compute; reflexivity).
  split; [exact Hok|]. split; [reflexivity|].
  exact (proj1 (settings_are_read_back fullWorld) _ Hok eq_refl).
Defined.

(** ** What the operations leave alone *)

(** X5.  Every write touches one key and every read none: a save of a
    heart-rate record changes at most the heart-rate history, a save of a
    health record at most the health records, [saveThresholds] and
    [saveUserSettings] at most their own key; the reads, the queries and
    [getStatistics] leave the whole store as it was. *)
Theorem operations_keep_other_keys (R : Runtime) (w : World) :
  (forall heartRate key,
      key <> StorageService.STORAGE_KEYS.HEART_RATE_HISTORY ->
      disk (snd (StorageService.saveHeartRateRecord heartRate w)) !! key
      = disk w !! key)
  /\ (forall record key,
      key <> StorageService.STORAGE_KEYS.HEALTH_RECORDS ->
      disk (snd (StorageService.saveHealthRecord record w)) !! key
      = disk w !! key)
  /\ (forall thresholds key,
      key <> StorageService.STORAGE_KEYS.THRESHOLDS ->
      disk (snd (StorageService.saveThresholds thresholds w)) !! key
      = disk w !! key)
  /\ (forall settings key,
      key <> StorageService.STORAGE_KEYS.USER_SETTINGS ->
      disk (snd (StorageService.saveUserSettings settings w)) !! key
      = disk w !! key)
  /\ disk (snd (StorageService.getHeartRateHistory w)) = disk w
  /\ disk (snd (StorageService.getHealthRecords w)) = disk w
  /\ (forall days, disk (snd (StorageService.getRecentData days w)) = disk w)
  /\ disk (snd (StorageService.getTodayData w)) = disk w
  /\ (forall startDate endDate,
      disk (snd (StorageService.getDataInRange startDate endDate w)) = disk w)
  /\ (forall days, disk (snd (StorageService.getStatistics days w)) = disk w)
  /\ disk (snd (StorageService.getThresholds w)) = disk w
  /\ disk (snd (StorageService.getUserSettings w)) = disk w.
Proof.
  repeat split; intros; run_store; cbn [snd called withDisk tick disk];
    rewrite ?lookup_insert_ne by congruence; reflexivity.
Qed.

Lemma operations_keep_other_keys_witness :
  StorageService.STORAGE_KEYS.THRESHOLDS
  <> StorageService.STORAGE_KEYS.HEART_RATE_HISTORY
  /\ disk (snd (StorageService.saveHeartRateRecord (H := TestRuntime.runtime)
                  (72 # 1) fullWorld))
       !! StorageService.STORAGE_KEYS.THRESHOLDS
     = disk fullWorld !! StorageService.STORAGE_KEYS.THRESHOLDS.
Proof.
  assert (Hne : StorageService.STORAGE_KEYS.THRESHOLDS
                <> StorageService.STORAGE_KEYS.HEART_RATE_HISTORY)
    by discriminate.
  split; [exact Hne|].
  exact (proj1 (operations_keep_other_keys TestRuntime.runtime fullWorld)
           (72 # 1)%Q _ Hne).
Defined.

(** ** The queries *)

Lemma filter_sublist_of {A} (p : A -> bool) (l : list A) :
  sublist (List.filter p l) l.
Proof.
  induction l as [|x l IH]; cbn [List.filter]; [constructor|].
  destruct (p x); [now apply sublist_skip|now apply sublist_cons].
Qed.

Lemma filter_sublist_mono {A} (p q : A -> bool) (l : list A) :
  (forall x, p x = true -> q x = true) ->
  sublist (List.filter p l) (List.filter q l).
Proof.
  intros Hpq. induction l as [|x l IH]; cbn [List.filter]; [constructor|].
  destruct (p x) eqn:Ep.
  - rewrite (Hpq x Ep). now apply sublist_skip.
  - destruct (q x); [now apply sublist_cons|exact IH].
Qed.

(** The stream a query filters: what is stored, or nothing when the read
    fails or does not give an array. *)
Lemma query_stream (w : World) :
  exists stream,
    sublist stream
      match disk w !! StorageService.STORAGE_KEYS.HEART_RATE_HISTORY with
      | Some (Json (VArray l)) => l
      | _ => []
      end
    /\ (forall p,
          match readOr StorageService.STORAGE_KEYS.HEART_RATE_HISTORY
                  (VArray []) w with
          | VArray l => List.filter p l
          | _ => []
          end = List.filter p stream)
    /\ (rejects w (storageCalls w) = false ->
        stream = match disk w !! StorageService.STORAGE_KEYS.HEART_RATE_HISTORY
                 with
                 | Some (Json (VArray l)) => l
                 | _ => []
                 end).
Proof.
  unfold readOr. destruct (rejects w (storageCalls w)).
  - exists []. split; [apply sublist_nil_l|]. split; [reflexivity|discriminate].
  - destruct (disk w !! _) as [[[l| |]|]|];
      eexists; (split; [reflexivity|]); split; reflexivity.
Qed.

(** X6.  [getDataInRange(startDate, endDate)] returns, in their stored
    order, exactly the samples of the stream whose time stamp lies in the
    closed interval: a sample stamped [startDate] or [endDate] is returned,
    a sample without a time stamp is not, and the result is empty when
    [endDate < startDate]. *)
Theorem getDataInRange_is_the_closed_interval (w : World)
    (startDate endDate : Z) :
  exists result stream,
    fst (StorageService.getDataInRange startDate endDate w) = Return result
    /\ sublist stream
         match disk w !! StorageService.STORAGE_KEYS.HEART_RATE_HISTORY with
         | Some (Json (VArray l)) => l
         | _ => []
         end
    /\ (rejects w (storageCalls w) = false ->
        stream = match disk w !! StorageService.STORAGE_KEYS.HEART_RATE_HISTORY
                 with
                 | Some (Json (VArray l)) => l
                 | _ => []
                 end)
    /\ sublist result stream
    /\ (forall r,
          In r result
          <-> In r stream
              /\ exists t, timestamp r = Some t /\ startDate <= t <= endDate)
    /\ (endDate < startDate -> result = []).
Proof.
  destruct (query_stream w) as (stream & Hsub & Hfilter & Hall).
  rewrite getDataInRange_run. cbn [fst]. rewrite Hfilter.
  eexists. exists stream. split; [reflexivity|].
  split; [exact Hsub|]. split; [exact Hall|].
  split; [apply filter_sublist_of|].
  assert (Hmem : forall r,
    In r (List.filter
            (fun r => timestamp_ge r startDate && timestamp_le r endDate)
            stream)
    <-> In r stream
        /\ exists t, timestamp r = Some t /\ startDate <= t <= endDate).
  { intros r. rewrite List.filter_In. unfold timestamp_ge, timestamp_le.
    split.
    - intros [Hin Hp]. split; [exact Hin|].
      destruct (timestamp r) as [t|]; [|discriminate].
      apply andb_prop in Hp as [Hge Hle]. exists t. split; [reflexivity|].
      apply Z.geb_le in Hge. apply Z.leb_le in Hle. lia.
    - intros [Hin (t & -> & Hge & Hle)]. split; [exact Hin|].
      apply andb_true_intro. split; [apply Z.geb_le|apply Z.leb_le]; lia. }
  split; [exact Hmem|].
  intros Hempty.
  destruct (List.filter _ stream) as [|r rest] eqn:E; [reflexivity|].
  exfalso. destruct (proj1 (Hmem r)) as (_ & t & _ & Hge & Hle);
    [left; reflexivity|lia].
Qed.

(** X7.  [getRecentData(days)] returns, in their stored order, exactly the
    samples stamped strictly after the current time minus [days] days (a
    sample stamped exactly [days] days ago is left out), [days] is 7 when
    the argument is left out, and what it returns for fewer days is part of
    what it returns for more days at the same time. *)
Theorem getRecentData_window (w : World) :
  (forall days,
      exists result stream,
        fst (StorageService.getRecentData days w) = Return result
        /\ sublist stream
             match disk w !! StorageService.STORAGE_KEYS.HEART_RATE_HISTORY
             with
             | Some (Json (VArray l)) => l
             | _ => []
             end
        /\ sublist result stream
        /\ forall r,
             In r result
             <-> In r stream
                 /\ exists t,
                      timestamp r = Some t
                      /\ stampTime w
                         - default 7 days * StorageService.msPerDay < t)
  /\ fst (StorageService.getRecentData None w)
     = fst (StorageService.getRecentData (Some 7) w)
  /\ (forall d1 d2 l1 l2,
        d1 <= d2 ->
        fst (StorageService.getRecentData (Some d1) w) = Return l1 ->
        fst (StorageService.getRecentData (Some d2) w) = Return l2 ->
        sublist l1 l2).
Proof.
  destruct (query_stream w) as (stream & Hsub & Hfilter & _).
  split; [|split].
  - intros days. rewrite getRecentData_run. cbn [fst]. rewrite Hfilter.
    eexists. exists stream. split; [reflexivity|]. split; [exact Hsub|].
    split; [apply filter_sublist_of|].
    intros r. rewrite List.filter_In. unfold timestamp_gt. split.
    + intros [Hin Hp]. split; [exact Hin|].
      destruct (timestamp r) as [t|]; [|discriminate].
      exists t. split; [reflexivity|]. now apply Z.gtb_lt.
    + intros [Hin (t & -> & Hlt)]. split; [exact Hin|]. now apply Z.gtb_lt.
  - rewrite !getRecentData_run. reflexivity.
  - intros d1 d2 l1 l2 Hle. rewrite !getRecentData_run. cbn [fst].
    rewrite !Hfilter. intros [= <-] [= <-].
    apply filter_sublist_mono. intros r. unfold timestamp_gt.
    destruct (timestamp r) as [t|]; [|discriminate].
    cbn [default]. intros Hgt. apply Z.gtb_lt in Hgt. apply Z.gtb_lt.
    unfold StorageService.msPerDay in *. nia.
Qed.

Lemma getRecentData_window_witness :
  1 <= 30
  /\ sublist
       match fst (StorageService.getRecentData (Some 1) fullWorld) with
       | Return l => l | Throw _ => [] end
       match fst (StorageService.getRecentData (Some 30) fullWorld) with
       | Return l => l | Throw _ => [] end.
Proof.
  split; [lia|].
  destruct (proj1 (getRecentData_window fullWorld) (Some 1))
    as (l1 & _ & E1 & _).
  destruct (proj1 (getRecentData_window fullWorld) (Some 30))
    as (l2 & _ & E2 & _).
  rewrite E1, E2.
  apply (proj2 (proj2 (getRecentData_window fullWorld)) 1 30 l1 l2);
    [lia|exact E1|exact E2].
Defined.

(** ** Clearing and starting again *)

(** X8.  After a [clearAllData] that returns [true] both streams read as
    empty, every query returns the empty list and [getStatistics] the zero
    state; clearing again changes nothing; and the store can be used
    again: the next save of a heart rate whose write is not rejected
    returns [true] and persists the stream that holds the new record
    alone. *)
Theorem store_is_reusable_after_clear (R : Runtime) (w : World) :
  fst (StorageService.clearAllData w) = Return true ->
  everyQuery (snd (StorageService.clearAllData w)) (fun l => l = [])
  /\ fst (StorageService.getHealthRecords (snd (StorageService.clearAllData w)))
     = Return (VArray [])
  /\ (forall days,
        fst (StorageService.getStatistics days
               (snd (StorageService.clearAllData w)))
        = Return zeroStatistics)
  /\ disk (snd (StorageService.clearAllData
                  (snd (StorageService.clearAllData w))))
     = disk (snd (StorageService.clearAllData w))
  /\ (forall heartRate,
        rejects w (S (S (storageCalls w))) = false ->
        saveTime (snd (StorageService.clearAllData w))
        - 30 * StorageService.msPerDay
        < stampTime (snd (StorageService.clearAllData w)) ->
        fst (StorageService.saveHeartRateRecord heartRate
               (snd (StorageService.clearAllData w))) = Return true
        /\ disk (snd (StorageService.saveHeartRateRecord heartRate
                        (snd (StorageService.clearAllData w))))
             !! StorageService.STORAGE_KEYS.HEART_RATE_HISTORY
           = Some (Json (VArray
                     [heartRateRecord heartRate
                        (stampTime (snd (StorageService.clearAllData w)))
                        (dateTime (snd (StorageService.clearAllData w)))]))).
Proof.
  intros Hok. destruct (clearAllData_removed w Hok) as [Hhr Hhealth].
  revert Hhr Hhealth. rewrite clearAllData_run in *.
  destruct (rejects w (storageCalls w)); [discriminate|]. cbn [snd].
  set (w1 := called (withDisk _ w)). intros Hhr Hhealth.
  assert (Hread : forall key w0,
            disk w0 !! key = None -> readOr key (VArray []) w0 = VArray []).
  { intros key w0 Hnone. apply readOr_unreadable. right. now right. }
  split; [apply everyQuery_absent; [exact Hhr|reflexivity]|].
  split; [rewrite getHealthRecords_run; cbn [fst]; now rewrite Hread|].
  split; [intros days; rewrite getStatistics_run; cbn [fst];
          now rewrite Hread|].
  split.
  - rewrite clearAllData_run.
    destruct (rejects w1 (storageCalls w1)); cbn [snd called withDisk disk];
      [reflexivity|].
    subst w1. cbn [called withDisk disk].
    rewrite (delete_id (M := gmap string)
               (delete StorageService.STORAGE_KEYS.HEART_RATE_HISTORY _)
               StorageService.STORAGE_KEYS.HEALTH_RECORDS)
      by (rewrite lookup_delete_ne by discriminate; apply lookup_delete_eq).
    apply delete_id. apply lookup_delete_eq.
  - intros heartRate Hwrite Hwin. rewrite saveHeartRateRecord_run.
    rewrite Hread by exact Hhr. cbv zeta.
    replace (rejects w1 (S (storageCalls w1))) with false
      by (subst w1; cbn [called withDisk rejects storageCalls];
          now rewrite Hwrite).
    cbn [fst snd called withDisk disk]. split; [reflexivity|].
    rewrite lookup_insert_eq. cbn [app List.filter].
    unfold timestamp_gt at 1. cbn [timestamp heartRateRecord].
    apply Z.gtb_lt in Hwin. now rewrite Hwin.
Qed.

Lemma store_is_reusable_after_clear_witness :
  fst (StorageService.clearAllData fullWorld) = Return true
  /\ fst (StorageService.saveHeartRateRecord (H := TestRuntime.runtime)
            (72 # 1) (snd (StorageService.clearAllData fullWorld)))
     = Return true
  /\ (forall days,
        fst (StorageService.getStatistics days
               (snd (StorageService.clearAllData fullWorld)))
        = Return zeroStatistics).
Proof.
  assert (Hok : fst (StorageService.clearAllData fullWorld) = Return true)
    by (vm_compute; reflexivity).
  destruct (store_is_reusable_after_clear TestRuntime.runtime fullWorld Hok)
    as (_ & _ & Hstats & _ & Hsave).
  split; [exact Hok|]. split; [|exact Hstats].
  apply Hsave; [reflexivity|vm_compute; reflexivity].
Defined.

(** * The simulated sensors *)

Lemma Math_round_Qround (x : Q) : Math_round x = inject_Z (Qround x).
Proof. reflexivity. Qed.

Lemma Qround_lower (a : Z) (x : Q) :
  (inject_Z a <= x)%Q -> (a <= Qround x)%Z.
Proof.
  intros Hle. rewrite <- (Qround_int a). now apply Qround_mono.
Qed.

Lemma Qround_upper (b : Z) (x : Q) :
  (x <= inject_Z b)%Q -> (Qround x <= b)%Z.
Proof.
  intros Hle. rewrite <- (Qround_int b). now apply Qround_mono.
Qed.

Lemma Math_min_Z (a b : Z) :
  Math_min (inject_Z a) (inject_Z b) = inject_Z (Z.min a b).
Proof.
  unfold Math_min. destruct (Qle_bool _ _) eqn:E.
  - apply Qle_bool_iff in E. rewrite <- Zle_Qle in E.
    now rewrite Z.min_l.
  - assert (~ (a <= b)%Z) as Hn.
    { intros Hab. rewrite Zle_Qle in Hab. apply Qle_bool_iff in Hab.
      congruence. }
    rewrite Z.min_r; [reflexivity | lia].
Qed.

Lemma Math_max_Z (a b : Z) :
  Math_max (inject_Z a) (inject_Z b) = inject_Z (Z.max a b).
Proof.
  unfold Math_max. destruct (Qle_bool _ _) eqn:E.
  - apply Qle_bool_iff in E. rewrite <- Zle_Qle in E.
    now rewrite Z.max_r.
  - assert (~ (a <= b)%Z) as Hn.
    { intros Hab. rewrite Zle_Qle in Hab. apply Qle_bool_iff in Hab.
      congruence. }
    rewrite Z.max_l; [reflexivity | lia].
Qed.

Lemma gtb_ofZ (a b : Z) : JS.gtb (JS.ofZ a) (JS.ofZ b) = (b <? a)%Z.
Proof.
  unfold JS.ofZ. destruct (b <? a)%Z eqn:E.
  - apply gtb_Fin. rewrite <- Zlt_Qlt. lia.
  - apply gtb_Fin_false. rewrite <- Zle_Qle. lia.
Qed.

(** What a reading of the heart rate returns and leaves. *)
Lemma getCurrentHeartRate_run (s : App) :
  unitRandom s ->
  exists hr : Z,
    HealthServiceMethods.getCurrentHeartRate s
    = (Return (inject_Z hr),
       mkApp (world s) (service s) (random s)
         (if JS.Qltb (random s (S (draws s))) (1 # 10)
          then S (S (S (draws s))) else S (S (draws s))))
    /\ (45 <= hr <= 100)%Z
    /\ (JS.Qltb (random s (S (draws s))) (1 # 10) = false ->
        (60 <= hr <= 80)%Z).
Proof.
  intros Hrnd.
  destruct (Hrnd (draws s)) as [H0 H0'].
  destruct (Hrnd (S (S (draws s)))) as [H2 H2'].
  remember (random s (draws s)) as r0 eqn:E0.
  remember (random s (S (S (draws s)))) as r2 eqn:E2.
  unfold HealthServiceMethods.getCurrentHeartRate, Math_random.
  unfold mbind, Sim_bind, mret, Sim_ret. cbn [random draws world service].
  rewrite <- E0.
  destruct (JS.Qltb (random s (S (draws s))) (1 # 10)) eqn:Espike;
    cbn [random draws world service]; rewrite <- ?E2.
  - set (x := (70 + (r0 * 20 - 10) + (r2 - (1 # 2)) * 40)%Q).
    assert (40 <= Qround x)%Z as Hlo
      by (apply Qround_lower; subst x; unfold inject_Z; lra).
    assert (Qround x <= 100)%Z as Hhi
      by (apply Qround_upper; subst x; unfold inject_Z; lra).
    exists (Z.max 45 (Z.min 180 (Qround x))).
    rewrite Math_round_Qround.
    change 180%Q with (inject_Z 180). change 45%Q with (inject_Z 45).
    rewrite Math_min_Z, Math_max_Z.
    split; [reflexivity|]. split; [lia | discriminate].
  - set (x := (70 + (r0 * 20 - 10) + 0)%Q).
    assert (60 <= Qround x)%Z as Hlo
      by (apply Qround_lower; subst x; unfold inject_Z; lra).
    assert (Qround x <= 80)%Z as Hhi
      by (apply Qround_upper; subst x; unfold inject_Z; lra).
    exists (Z.max 45 (Z.min 180 (Qround x))).
    rewrite Math_round_Qround.
    change 180%Q with (inject_Z 180). change 45%Q with (inject_Z 45).
    rewrite Math_min_Z, Math_max_Z.
    split; [reflexivity|]. split; lia.
Qed.

(** With the thresholds the constructor sets, a whole heart rate up to
    100 is low or normal, and one from 60 on is normal. *)
Lemma initial_thresholds_verdict (R : Runtime) (hr : Z)
    (userAge : option JS.number) :
  (hr <= 100)%Z ->
  HealthService.checkHeartRateThreshold HealthService.initialThresholds
    (JS.ofZ hr) userAge
  = if (hr <? 60)%Z
    then HealthService.mkVerdict "low"
           ("Heart rate is low (" ++ template (JS.ofZ hr) ++ " BPM)"
            ++ LF ++ "Rest and monitor carefully")
           "warning"
    else HealthService.mkVerdict "normal" "Heart rate is normal" "normal".
Proof.
  intros Hhr. unfold HealthService.checkHeartRateThreshold.
  cbn [HealthService.minHeartRate HealthService.maxHeartRate
       HealthService.initialThresholds].
  unfold JS.ltb. rewrite !gtb_ofZ.
  destruct (hr <? 60)%Z; [reflexivity|].
  now replace (100 <? hr)%Z with false by lia.
Qed.

(** X9.  The heart rate the service simulates is a whole number from 45 to 100,
    and from 60 to 80 when the second draw asks for no spike: the clamp at
    180 is never reached, and with the thresholds the constructor sets
    [checkHeartRateThreshold] never finds such a reading high, and finds a
    reading without a spike normal.  A reading takes two or three random
    numbers and changes neither the store nor the service. *)
Theorem simulated_heart_rate_is_never_high (R : Runtime) (s : App) :
  unitRandom s ->
  exists hr : Z,
    HealthServiceMethods.getCurrentHeartRate s
    = (Return (inject_Z hr),
       mkApp (world s) (service s) (random s)
         (if JS.Qltb (random s (S (draws s))) (1 # 10)
          then S (S (S (draws s))) else S (S (draws s))))
    /\ (45 <= hr <= 100)%Z
    /\ (forall userAge,
          HealthService.status
            (HealthService.checkHeartRateThreshold
               HealthService.initialThresholds (JS.ofZ hr) userAge)
          <> "high")
    /\ (JS.Qltb (random s (S (draws s))) (1 # 10) = false ->
        (60 <= hr <= 80)%Z
        /\ forall userAge,
             HealthService.status
               (HealthService.checkHeartRateThreshold
                  HealthService.initialThresholds (JS.ofZ hr) userAge)
             = "normal").
Proof.
  intros Hrnd.
  destruct (getCurrentHeartRate_run s Hrnd) as (hr & Hrun & Hrange & Hcalm).
  exists hr. split; [exact Hrun|]. split; [exact Hrange|]. split.
  - intros userAge. rewrite initial_thresholds_verdict by lia.
    destruct (hr <? 60)%Z; discriminate.
  - intros Hspike. specialize (Hcalm Hspike). split; [exact Hcalm|].
    intros userAge. rewrite initial_thresholds_verdict by lia.
    now replace (hr <? 60)%Z with false by lia.
Qed.

Lemma testRandom_unit (s : App) :
  random s = testRandom -> unitRandom s.
Proof.
  intros Hs n. rewrite Hs. unfold testRandom, Qle, Qlt.
  cbn [Qnum Qden].
  pose proof (Z.mod_pos_bound (37 * Z.of_nat n + 11) 100).
  lia.
Qed.

Lemma simulated_heart_rate_is_never_high_witness :
  unitRandom testApp
  /\ exists hr : Z,
       HealthServiceMethods.getCurrentHeartRate testApp
       = (Return (inject_Z hr),
          mkApp (world testApp) (service testApp) (random testApp)
            (if JS.Qltb (random testApp (S (draws testApp))) (1 # 10)
             then S (S (S (draws testApp))) else S (S (draws testApp))))
       /\ (45 <= hr <= 100)%Z
       /\ (forall userAge,
             HealthService.status
               (HealthService.checkHeartRateThreshold
                  (H := TestRuntime.runtime)
                  HealthService.initialThresholds (JS.ofZ hr) userAge)
             <> "high")
       /\ (JS.Qltb (random testApp (S (draws testApp))) (1 # 10) = false ->
           (60 <= hr <= 80)%Z
           /\ forall userAge,
                HealthService.status
                  (HealthService.checkHeartRateThreshold
                     (H := TestRuntime.runtime)
                     HealthService.initialThresholds (JS.ofZ hr) userAge)
                = "normal").
Proof.
  split.
  - now apply testRandom_unit.
  - apply (simulated_heart_rate_is_never_high TestRuntime.runtime testApp).
    now apply testRandom_unit.
Defined.

(** With the draws 0.11 and 0.48 the reading is 62; with the draws 0.5,
    0.05 and 0.99 a spike takes it to 90. *)
Example heart_rate_readings :
  fst (HealthServiceMethods.getCurrentHeartRate testApp) = Return 62%Q
  /\ fst (HealthServiceMethods.getCurrentHeartRate
            (appOn fullWorld "Sun Nov 02 2025" spikeRandom))
     = Return 90%Q.
Proof. split; reflexivity. Qed.

Lemma gtb_bound_false (m : JS.number) (a b : Z) :
  JS.gtb m (JS.ofZ a) = false -> (a <= b)%Z ->
  JS.gtb m (JS.ofZ b) = false.
Proof.
  intros Hm Hab. destruct m as [q| | |]; try reflexivity; try discriminate.
  unfold JS.ofZ in *. apply gtb_Fin_false. apply gtb_Fin_false in Hm.
  rewrite Zle_Qle in Hab. lra.
Qed.

(** What a reading of the blood oxygen returns and leaves. *)
Lemma getBloodOxygen_run (s : App) :
  unitRandom s ->
  exists bo : Z,
    HealthServiceMethods.getBloodOxygen s
    = (Return (inject_Z bo),
       mkApp (world s) (service s) (random s) (S (draws s)))
    /\ (96 <= bo <= 99)%Z.
Proof.
  intros Hrnd. destruct (Hrnd (draws s)) as [H0 H0'].
  set (x := (97 + (random s (draws s) * 3 - 1))%Q).
  assert (96 <= Qround x)%Z as Hlo
    by (apply Qround_lower; subst x; unfold inject_Z; lra).
  assert (Qround x <= 99)%Z as Hhi
    by (apply Qround_upper; subst x; unfold inject_Z; lra).
  exists (Qround x). split; [reflexivity | lia].
Qed.

(** X10.  The blood oxygen the service simulates is a whole number from 96 to
    99 and the respiratory rate one from 14 to 18; each reading takes one
    random number and changes nothing else.  So [checkBloodOxygen] finds
    every simulated reading normal unless the threshold was raised above
    96, and [getHealthRecommendation] never advises ventilation for
    one. *)
Theorem simulated_blood_oxygen_is_normal (R : Runtime) (s : App) :
  unitRandom s ->
  let next := mkApp (world s) (service s) (random s) (S (draws s)) in
  (exists bo : Z,
     HealthServiceMethods.getBloodOxygen s = (Return (inject_Z bo), next)
     /\ (96 <= bo <= 99)%Z
     /\ (forall this,
           JS.gtb (HealthService.minBloodOxygen this) (JS.ofZ 96) = false ->
           HealthService.checkBloodOxygen this (JS.ofZ bo)
           = HealthService.mkVerdict "normal" "Blood oxygen level is normal"
               "normal")
     /\ (forall heartRate steps,
           "Increase outdoor activities and maintain good ventilation indoors"
           ∉ HealthServiceMethods.getHealthRecommendation heartRate
               (JS.ofZ bo) steps))
  /\ (exists rr : Z,
        HealthServiceMethods.getRespiratoryRate s
        = (Return (inject_Z rr), next)
        /\ (14 <= rr <= 18)%Z).
Proof.
  intros Hrnd next. split.
  - destruct (getBloodOxygen_run s Hrnd) as (bo & Hrun & Hlo & Hhi).
    exists bo. split; [exact Hrun|]. split; [lia|]. split.
    + intros this Hthis. unfold HealthService.checkBloodOxygen, JS.ltb.
      now rewrite (gtb_bound_false _ 96 bo Hthis Hlo).
    + intros heartRate steps.
      unfold HealthServiceMethods.getHealthRecommendation, JS.ltb.
      rewrite gtb_ofZ. replace (bo <? 95)%Z with false by lia.
      destruct (JS.gtb (JS.ofZ 60) heartRate),
        (JS.gtb heartRate (JS.ofZ 100)), (JS.gtb (JS.ofZ 5000) steps),
        (JS.gtb steps (JS.ofZ 10000)); cbn [app];
        rewrite ?elem_of_cons, elem_of_nil; intros Hin;
        repeat (destruct Hin as [Hin|Hin]; [discriminate|]); exact Hin.
  - destruct (Hrnd (draws s)) as [H0 H0'].
    set (x := (16 + (random s (draws s) * 4 - 2))%Q).
    assert (14 <= Qround x)%Z as Hlo
      by (apply Qround_lower; subst x; unfold inject_Z; lra).
    assert (Qround x <= 18)%Z as Hhi
      by (apply Qround_upper; subst x; unfold inject_Z; lra).
    exists (Qround x). split; [reflexivity | lia].
Qed.

Lemma simulated_blood_oxygen_is_normal_witness :
  unitRandom testApp
  /\ fst (HealthServiceMethods.getBloodOxygen testApp) = Return 96%Q
  /\ exists bo : Z,
       fst (HealthServiceMethods.getBloodOxygen testApp)
       = Return (inject_Z bo)
       /\ HealthService.checkBloodOxygen (H := TestRuntime.runtime)
            HealthService.initialThresholds (JS.ofZ bo)
          = HealthService.mkVerdict "normal" "Blood oxygen level is normal"
              "normal".
Proof.
  split; [now apply testRandom_unit|]. split; [reflexivity|].
  destruct (simulated_blood_oxygen_is_normal TestRuntime.runtime testApp
              (testRandom_unit testApp eq_refl))
    as [[bo (Hrun & _ & Hcheck & _)] _].
  exists bo. split.
  - now rewrite Hrun.
  - apply Hcheck. reflexivity.
Defined.

(** * The daily counters *)

Section Counters.
Context `{Engine}.
Import HealthServiceMethods.

Lemma todayString_run (s : App) :
  todayString s
  = (Return (dayNow s),
     mkApp (tick (world s)) (service s) (random s) (draws s)).
Proof. reflexivity. Qed.

(** The service after [initializeDailyData] on the day [today]. *)
Lemma initializeDailyData_run (s : App) :
  initializeDailyData s
  = (Return tt,
     mkApp (tick (world s))
       (if String.eqb (DailyData.lastUpdateDate (dailyData (service s)))
             (dayNow s)
        then service s
        else mkServiceState (isInitialized (service s))
               (thresholds (service s)) (DailyData.mk 0 0 (dayNow s)))
       (random s) (draws s)).
Proof.
  unfold initializeDailyData. unfold mbind at 1. unfold Sim_bind.
  rewrite todayString_run.
  unfold mbind, Sim_bind, getService, setDailyData.
  cbn [service world random draws].
  destruct (String.eqb _ _); reflexivity.
Qed.

Lemma increment_range (r : Q) :
  (0 <= r)%Q -> (r < 1)%Q ->
  exists f : Z,
    Math_floor (r * 21) = inject_Z f /\ (0 <= f <= 20)%Z.
Proof.
  intros H0 H1. exists (Qfloor (r * 21)). split; [reflexivity|].
  split.
  - rewrite <- (Qfloor_Z 0). apply Qfloor_resp_le. unfold inject_Z. lra.
  - assert (Qfloor (r * 21) < 21)%Z; [|lia].
    rewrite Zlt_Qlt. pose proof (Qfloor_le (r * 21)).
    unfold inject_Z at 2. lra.
Qed.

(** What [getSteps] does to the application. *)
Lemma getSteps_run (s : App) :
  let d := dailyData (service (snd (initializeDailyData s))) in
  let steps :=
    Math_min
      (DailyData.steps d + (Math_floor (random s (draws s) * 21) + 10))
      30000 in
  getSteps s
  = (Return steps,
     mkApp (tick (world s))
       (mkServiceState (isInitialized (service s)) (thresholds (service s))
          (DailyData.mk steps (DailyData.calories d)
             (DailyData.lastUpdateDate d)))
       (random s) (S (draws s))).
Proof.
  unfold getSteps. unfold mbind at 1. unfold Sim_bind.
  rewrite initializeDailyData_run. cbn [snd service].
  unfold mbind, Sim_bind, Math_random, getService, setDailyData, setService,
    mret, Sim_ret.
  cbn [service world random draws].
  destruct (String.eqb _ _); reflexivity.
Qed.

Lemma getCalories_run (s : App) :
  let d := dailyData (service (snd (initializeDailyData s))) in
  let calories := Math_round (DailyData.steps d * (45 # 1000)) in
  getCalories s
  = (Return calories,
     mkApp (tick (world s))
       (mkServiceState (isInitialized (service s)) (thresholds (service s))
          (DailyData.mk (DailyData.steps d) calories
             (DailyData.lastUpdateDate d)))
       (random s) (draws s)).
Proof.
  unfold getCalories. unfold mbind at 1. unfold Sim_bind.
  rewrite initializeDailyData_run. cbn [snd service].
  unfold mbind, Sim_bind, getService, setDailyData, setService, mret, Sim_ret.
  cbn [service world random draws].
  destruct (String.eqb _ _); reflexivity.
Qed.

Lemma getDistance_run (s : App) :
  let d := dailyData (service (snd (initializeDailyData s))) in
  getDistance s
  = (Return (toFixed2 (DailyData.steps d * (762 # 1000) / 1000)),
     snd (initializeDailyData s)).
Proof.
  unfold getDistance. unfold mbind at 1. unfold Sim_bind.
  rewrite initializeDailyData_run. cbn [snd service].
  reflexivity.
Qed.

Lemma getDailyTotals_run (s : App) :
  let d := dailyData (service (snd (initializeDailyData s))) in
  getDailyTotals s
  = (Return (DailyData.steps d, DailyData.calories d),
     snd (initializeDailyData s)).
Proof.
  unfold getDailyTotals. unfold mbind at 1. unfold Sim_bind.
  rewrite initializeDailyData_run. cbn [snd service].
  reflexivity.
Qed.

(** The daily data after the check for a new day. *)
Lemma initialized_data (s : App) :
  dailyData (service (snd (initializeDailyData s)))
  = if String.eqb (DailyData.lastUpdateDate (dailyData (service s)))
         (dayNow s)
    then dailyData (service s)
    else DailyData.mk 0 0 (dayNow s).
Proof.
  rewrite initializeDailyData_run. cbn [snd service].
  destruct (String.eqb _ _); reflexivity.
Qed.

Lemma initialized_today (s : App) :
  DailyData.lastUpdateDate (dailyData (service (snd (initializeDailyData s))))
  = dayNow s.
Proof.
  rewrite initialized_data.
  destruct (String.eqb _ _) eqn:E; [|reflexivity].
  now apply String.eqb_eq in E.
Qed.

End Counters.

(** X11.  A call of [getSteps] adds a whole number of steps from 10 to 30 to
    the count of the day and caps the count at 30000; when the day of the
    clock is not the day of the last update, the count starts again from
    zero (and the calories are zero) before the steps are added.  The
    call stores the count it returns and the day, leaves the calories of
    the day as they were, and changes neither the thresholds nor the
    store. *)
Theorem getSteps_counts_within_the_day (E : Engine) (s : App) :
  unitRandom s ->
  let before := dailyData (service s) in
  let after := dailyData (service (snd (HealthServiceMethods.getSteps s))) in
  exists (increment : Z) (steps : Q),
    (10 <= increment <= 30)%Z
    /\ fst (HealthServiceMethods.getSteps s) = Return steps
    /\ DailyData.steps after = steps
    /\ DailyData.lastUpdateDate after = dayNow s
    /\ (steps <= 30000)%Q
    /\ (DailyData.lastUpdateDate before = dayNow s ->
        let sum := (DailyData.steps before + inject_Z increment)%Q in
        ((sum <= 30000)%Q -> (steps == sum)%Q)
        /\ ((30000 < sum)%Q -> (steps == 30000)%Q)
        /\ DailyData.calories after = DailyData.calories before)
    /\ (DailyData.lastUpdateDate before <> dayNow s ->
        (steps == inject_Z increment)%Q
        /\ DailyData.calories after = 0%Q)
    /\ thresholds (service (snd (HealthServiceMethods.getSteps s)))
       = thresholds (service s)
    /\ disk (world (snd (HealthServiceMethods.getSteps s)))
       = disk (world s).
Proof.
  intros Hrnd before after. subst before after.
  destruct (Hrnd (draws s)) as [H0 H1].
  destruct (increment_range _ H0 H1) as (f & Hf & Hrange).
  rewrite getSteps_run. cbn [fst snd service dailyData DailyData.steps
    DailyData.calories DailyData.lastUpdateDate thresholds world].
  rewrite initialized_today, initialized_data, Hf.
  exists (f + 10)%Z. eexists. split; [lia|]. split; [reflexivity|].
  split; [reflexivity|]. split; [reflexivity|].
  assert (forall x : Q, (Math_min x 30000 <= 30000)%Q
                        /\ ((x <= 30000)%Q -> Math_min x 30000 = x)
                        /\ ((30000 < x)%Q -> Math_min x 30000 = 30000%Q))
    as Hmin.
  { intros x. unfold Math_min. destruct (Qle_bool x 30000) eqn:Ele.
    - apply Qle_bool_iff in Ele. repeat split; [exact Ele | lra].
    - assert (~ (x <= 30000)%Q) as Hn.
      { intros Hle. apply Qle_bool_iff in Hle. congruence. }
      repeat split; [lra | intros; lra]. }
  split; [apply Hmin|].
  assert (inject_Z f + 10 == inject_Z (f + 10))%Q as Hinc.
  { rewrite inject_Z_plus. reflexivity. }
  split; [|split; [|split; reflexivity]].
  - intros Hsame. rewrite Hsame, String.eqb_refl.
    split; [|split; [|reflexivity]].
    + intros Hle. rewrite (proj1 (proj2 (Hmin _))); [now rewrite Hinc|].
      now rewrite Hinc.
    + intros Hlt. rewrite (proj2 (proj2 (Hmin _))); [reflexivity|].
      now rewrite Hinc.
  - intros Hnew. apply String.eqb_neq in Hnew. rewrite Hnew.
    cbn [DailyData.steps DailyData.calories]. split; [|reflexivity].
    rewrite (proj1 (proj2 (Hmin _))).
    + rewrite Hinc. ring.
    + rewrite Hinc, Qplus_0_l.
      change 30000%Q with (inject_Z 30000). rewrite <- Zle_Qle. lia.
Qed.

Lemma getSteps_counts_within_the_day_witness :
  unitRandom lateApp
  /\ DailyData.lastUpdateDate (dailyData (service lateApp))
     = dayNow (H := TestEngine.engine) lateApp
  /\ exists (increment : Z) (steps : Q),
       (10 <= increment <= 30)%Z
       /\ fst (HealthServiceMethods.getSteps (H := TestEngine.engine) lateApp)
          = Return steps
       /\ (steps <= 30000)%Q
       /\ ((30000 < DailyData.steps (dailyData (service lateApp))
                    + inject_Z increment)%Q ->
           (steps == 30000)%Q).
Proof.
  split; [now apply testRandom_unit|]. split; [reflexivity|].
  destruct (getSteps_counts_within_the_day TestEngine.engine lateApp
              (testRandom_unit lateApp eq_refl))
    as (increment & steps & Hinc & Hrun & _ & _ & Hcap & Hsame & _).
  exists increment, steps. split; [exact Hinc|]. split; [exact Hrun|].
  split; [exact Hcap|]. apply Hsame. reflexivity.
Defined.

(** Late on the second of November 12 steps take the count from 29990 to
    the cap; the same call on a count of the first of November starts
    the day with 12 steps and no calories. *)
Example steps_at_the_cap_and_at_midnight :
  fst (HealthServiceMethods.getSteps (H := TestEngine.engine) lateApp)
  = Return 30000%Q
  /\ fst (HealthServiceMethods.getSteps (H := TestEngine.engine) eveningApp)
     = Return 12%Q
  /\ dailyData
       (service
          (snd (HealthServiceMethods.getSteps (H := TestEngine.engine)
                  eveningApp)))
     = DailyData.mk 12 0 "Sun Nov 02 2025".
Proof. repeat split. Qed.

Section CountersInvariant.
Context `{Engine}.
Import HealthServiceMethods.

Lemma countersInRange_data (s s' : App) :
  dailyData (service s') = dailyData (service s) ->
  countersInRange s -> countersInRange s'.
Proof. unfold countersInRange. intros ->. auto. Qed.

Lemma countersInRange_zero (s : App) (today : string) :
  dailyData (service s) = DailyData.mk 0 0 today -> countersInRange s.
Proof.
  intros Hs. exists 0%Z, 0%Z. rewrite Hs.
  cbn [DailyData.steps DailyData.calories]. repeat split; (reflexivity || lia).
Qed.

Lemma countersInRange_initialized (s : App) :
  countersInRange s -> countersInRange (snd (initializeDailyData s)).
Proof.
  intros Hs. rewrite initializeDailyData_run. cbn [snd].
  destruct (String.eqb _ _).
  - eapply countersInRange_data; [|exact Hs]. reflexivity.
  - eapply countersInRange_zero. reflexivity.
Qed.

Lemma initializeDailyData_frame (s : App) :
  random (snd (initializeDailyData s)) = random s
  /\ draws (snd (initializeDailyData s)) = draws s
  /\ disk (world (snd (initializeDailyData s))) = disk (world s)
  /\ storageCalls (world (snd (initializeDailyData s)))
     = storageCalls (world s)
  /\ thresholds (service (snd (initializeDailyData s)))
     = thresholds (service s).
Proof.
  rewrite initializeDailyData_run. cbn [snd random draws world service].
  repeat split. destruct (String.eqb _ _); reflexivity.
Qed.

Lemma callService_keeps (c : ServiceCall) (s : App) :
  unitRandom s -> countersInRange s ->
  countersInRange (callService c s)
  /\ random (callService c s) = random s
  /\ disk (world (callService c s)) = disk (world s)
  /\ storageCalls (world (callService c s)) = storageCalls (world s).
Proof.
  intros Hrnd Hs.
  pose proof (countersInRange_initialized s Hs) as Hinit.
  pose proof (initializeDailyData_frame s) as (Hr & _ & Hd & Hc & _).
  destruct c; cbn [callService].
  - split; [|repeat split]. eapply countersInRange_data; [|exact Hs].
    reflexivity.
  - unfold getCurrentHeartRate, Math_random, mbind, Sim_bind, mret, Sim_ret.
    cbn [random draws world service].
    destruct (JS.Qltb _ _); cbn [snd random world service];
      (split; [|repeat split]); (eapply countersInRange_data; [|exact Hs]);
      reflexivity.
  - split; [|repeat split]. eapply countersInRange_data; [|exact Hs].
    reflexivity.
  - rewrite getSteps_run. cbn [snd random world service disk storageCalls].
    split; [|repeat split]; try assumption.
    destruct Hinit as (n & c & Hn & Hnr & Hcal & Hcr).
    destruct (Hrnd (draws s)) as [H0 H1].
    destruct (increment_range _ H0 H1) as (f & Hf & Hfr).
    rewrite Hf. unfold countersInRange.
    cbn [service dailyData DailyData.steps DailyData.calories].
    exists (Z.min (n + (f + 10)) 30000), c.
    split; [|split; [lia | split; [exact Hcal | exact Hcr]]].
    unfold Math_min. destruct (Qle_bool _ _) eqn:Ele.
    + apply Qle_bool_iff in Ele. rewrite Hn in Ele |- *.
      change 10%Q with (inject_Z 10) in *.
      change 30000%Q with (inject_Z 30000) in Ele.
      rewrite <- !inject_Z_plus in Ele |- *. rewrite <- Zle_Qle in Ele.
      now rewrite Z.min_l.
    + assert (~ (n + (f + 10) <= 30000)%Z) as Hn'.
      { intros Hle. apply not_true_iff_false in Ele. apply Ele.
        apply Qle_bool_iff. rewrite Hn.
        change 10%Q with (inject_Z 10).
        change 30000%Q with (inject_Z 30000).
        now rewrite <- !inject_Z_plus, <- Zle_Qle. }
      rewrite Z.min_r; [reflexivity | lia].
  - rewrite getCalories_run. cbn [snd random world service disk storageCalls].
    split; [|repeat split]; try assumption.
    destruct Hinit as (n & c & Hn & Hnr & Hcal & Hcr).
    unfold countersInRange.
    cbn [service dailyData DailyData.steps DailyData.calories].
    exists n, (Qround (DailyData.steps
                         (dailyData (service (snd (initializeDailyData s))))
                       * (45 # 1000))).
    split; [exact Hn|]. split; [exact Hnr|].
    split; [now rewrite Math_round_Qround|].
    split.
    + apply Qround_lower. rewrite Hn. unfold inject_Z at 1.
      assert (0 <= inject_Z n)%Q by (rewrite <- (Zle_Qle 0); lia). lra.
    + apply Qround_upper. rewrite Hn.
      assert (inject_Z n <= 30000)%Q
        by (change 30000%Q with (inject_Z 30000); rewrite <- Zle_Qle; lia).
      unfold inject_Z at 2. lra.
  - rewrite getDistance_run. cbn [snd]. repeat split; assumption.
  - split; [|repeat split]. eapply countersInRange_data; [|exact Hs].
    reflexivity.
  - split; [|repeat split]. eapply countersInRange_data; [|exact Hs].
    reflexivity.
  - split; [|repeat split]. eapply countersInRange_zero. reflexivity.
  - rewrite getDailyTotals_run. cbn [snd]. repeat split; assumption.
  - split; [|repeat split]. eapply countersInRange_data; [|exact Hs].
    reflexivity.
Qed.

End CountersInvariant.

(** X12.  From the construction of the service on, and whatever calls are made
    on it in whatever order and at whatever times, the step count is a
    whole number from 0 to 30000 and the calories are a whole number from
    0 to 1350; no call on the service reads or writes the store. *)
Theorem daily_counters_stay_in_range (E : Engine) (s : App) :
  unitRandom s ->
  countersInRange (snd (HealthServiceMethods.constructor s))
  /\ (countersInRange s ->
      forall calls : list ServiceCall,
        countersInRange (callAll calls s)
        /\ disk (world (callAll calls s)) = disk (world s)
        /\ storageCalls (world (callAll calls s)) = storageCalls (world s)).
Proof.
  intros Hrnd. split.
  - unfold HealthServiceMethods.constructor. unfold mbind at 1.
    unfold Sim_bind. rewrite todayString_run.
    unfold mbind at 1. unfold Sim_bind, setService.
    cbn [world service random draws].
    rewrite initializeDailyData_run. cbn [snd service dailyData].
    destruct (String.eqb _ _); eapply countersInRange_zero; reflexivity.
  - intros Hs calls. revert s Hrnd Hs.
    induction calls as [|c calls IH]; intros s Hrnd Hs; [now repeat split|].
    change (callAll (c :: calls) s) with (callAll calls (callService c s)).
    destruct (callService_keeps c s Hrnd Hs) as (Hs' & Hr & Hd & Hc).
    assert (unitRandom (callService c s)) as Hrnd'.
    { intros n. rewrite Hr. apply Hrnd. }
    destruct (IH _ Hrnd' Hs') as (Hin & Hdisk & Hcalls).
    split; [exact Hin|]. split; congruence.
Qed.

Lemma daily_counters_stay_in_range_witness :
  unitRandom testApp
  /\ countersInRange testApp
  /\ countersInRange
       (callAll (H := TestEngine.engine)
          [CallGetSteps; CallGetCalories; CallGetDistance; CallGetSteps;
           CallGetDailyTotals] testApp).
Proof.
  assert (countersInRange testApp) as Hs
    by (eapply countersInRange_zero; reflexivity).
  split; [now apply testRandom_unit|]. split; [exact Hs|].
  apply (daily_counters_stay_in_range TestEngine.engine testApp
           (testRandom_unit testApp eq_refl)).
  exact Hs.
Defined.

(** The totals after two rounds of the calls the home screen makes: 32
    steps, and the calories of the 12 steps counted when [getCalories]
    was last called. *)
Example daily_totals_after_two_rounds :
  fst (HealthServiceMethods.getDailyTotals (H := TestEngine.engine)
         (callAll (H := TestEngine.engine)
            [CallGetSteps; CallGetCalories; CallGetDistance; CallGetSteps]
            testApp))
  = Return (32%Q, 1%Q).
Proof. reflexivity. Qed.

(** * The target zone and the advice *)





(** X14.  The advice of [getHealthRecommendation] has one to three items
    without repetition, and the first is about the heart rate.  It is
    computed from the bounds 60, 100 and 95 written in the function, so it
    agrees with the verdicts of the two evaluators under the thresholds
    the constructor sets: the first item is the one for a low, a high or
    a normal heart rate exactly when [checkHeartRateThreshold] says so,
    and ventilation is advised exactly when [checkBloodOxygen] does not
    say normal.  This holds of every number, [NaN] and the infinities
    included. *)
Theorem advice_agrees_with_initial_thresholds (R : Runtime)
    (heartRate bloodOxygen steps : JS.number) (userAge : option JS.number) :
  let advice :=
    HealthServiceMethods.getHealthRecommendation heartRate bloodOxygen steps in
  let verdict :=
    HealthService.checkHeartRateThreshold HealthService.initialThresholds
      heartRate userAge in
  (1 <= length advice <= 3)%nat
  /\ NoDup advice
  /\ (exists first rest, advice = first :: rest
      /\ (HealthService.status verdict = "low" <->
          first = "Consider increasing physical activity to improve cardiovascular fitness")
      /\ (HealthService.status verdict = "high" <->
          first = "Make sure to rest and avoid overexertion")
      /\ (HealthService.status verdict = "normal" <->
          first = "Heart rate is normal. Maintain good lifestyle habits"))
  /\ ("Increase outdoor activities and maintain good ventilation indoors"
      ∈ advice <->
      HealthService.status
        (HealthService.checkBloodOxygen HealthService.initialThresholds
           bloodOxygen) <> "normal").
Proof.
  intros advice verdict. subst advice verdict.
  unfold HealthServiceMethods.getHealthRecommendation,
    HealthService.checkHeartRateThreshold, HealthService.checkBloodOxygen.
  cbn [HealthService.minHeartRate HealthService.maxHeartRate
       HealthService.minBloodOxygen HealthService.initialThresholds].
  destruct (JS.ltb heartRate (JS.ofZ 60)) eqn:Elow;
    [|destruct (JS.gtb heartRate (JS.ofZ 100)) eqn:Ehigh;
      [destruct (JS.gtb heartRate (JS.mul _ _))|]];
    (destruct (JS.ltb bloodOxygen (JS.ofZ 95)) eqn:Ebo;
      [destruct (JS.ltb bloodOxygen (JS.ofZ 90))|]);
    (destruct (JS.ltb steps (JS.ofZ 5000));
      [|destruct (JS.gtb steps (JS.ofZ 10000))]);
    cbn [app length HealthService.status];
    (split; [lia|]);
    (split; [compute_done|]);
    (split;
     [eexists _, _; split; [reflexivity|];
      repeat split; intros Heq; (reflexivity || discriminate Heq)
     |split;
      [intros Hin; try discriminate;
       rewrite ?elem_of_cons, elem_of_nil in Hin;
       repeat (destruct Hin as [Hin|Hin]; [discriminate|]); contradiction
      |intros Hne; try (exfalso; apply Hne; reflexivity);
       rewrite ?elem_of_cons; auto 6]]).
Qed.

(** * Grouping by day *)

Section Grouping.
Variable keyOf : Sample -> string.

Lemma firstOccurrences_In (k : string) (l : list string) :
  In k (firstOccurrences l) <-> In k l.
Proof.
  induction l as [|a l IH]; cbn [firstOccurrences]; [reflexivity|].
  cbn [In]. rewrite filter_In, IH.
  destruct (String.eqb k a) eqn:E.
  - apply String.eqb_eq in E. subst. tauto.
  - apply String.eqb_neq in E. cbn [negb].
    split; [tauto|]. intros [->|Hin]; [tauto | auto].
Qed.

Lemma firstOccurrences_NoDup (l : list string) :
  List.NoDup (firstOccurrences l).
Proof.
  induction l as [|a l IH]; cbn [firstOccurrences]; constructor.
  - rewrite filter_In. intros [_ Hne]. now rewrite String.eqb_refl in Hne.
  - now apply List.NoDup_filter.
Qed.

Lemma firstOccurrences_snoc (l : list string) (k : string) :
  firstOccurrences (l ++ [k])
  = if in_dec string_dec k l then firstOccurrences l
    else (firstOccurrences l ++ [k])%list.
Proof.
  induction l as [|a l IH]; [reflexivity|].
  cbn [app firstOccurrences]. rewrite IH.
  destruct (in_dec string_dec k l) as [Hin|Hnin];
    destruct (in_dec string_dec k (a :: l)) as [Hin'|Hnin'];
    try reflexivity.
  - exfalso. apply Hnin'. now right.
  - destruct Hin' as [->|Hin']; [|contradiction].
    rewrite List.filter_app. cbn [List.filter].
    rewrite String.eqb_refl. cbn [negb]. now rewrite app_nil_r.
  - rewrite List.filter_app. cbn [List.filter].
    destruct (String.eqb k a) eqn:E; [|reflexivity].
    apply String.eqb_eq in E. subst. exfalso. apply Hnin'. now left.
Qed.

Lemma pushValue_new (F : string -> list JS.number) (k : string)
    (v : JS.number) (ks : list string) :
  ~ In k ks ->
  pushValue k v (map (fun k' => (k', F k')) ks)
  = (map (fun k' => (k', F k')) ks ++ [(k, [v])])%list.
Proof.
  induction ks as [|a ks IH]; intros Hnin; [reflexivity|].
  cbn [map pushValue app].
  destruct (String.eqb a k) eqn:E.
  - apply String.eqb_eq in E. subst. exfalso. apply Hnin. now left.
  - rewrite IH; [reflexivity|]. intros Hin. apply Hnin. now right.
Qed.

Lemma pushValue_old (F : string -> list JS.number) (k : string)
    (v : JS.number) (ks : list string) :
  In k ks -> List.NoDup ks ->
  pushValue k v (map (fun k' => (k', F k')) ks)
  = map (fun k' => (k', if String.eqb k' k then (F k' ++ [v])%list
                        else F k')) ks.
Proof.
  induction ks as [|a ks IH]; intros Hin Hnd; [destruct Hin|].
  inversion Hnd as [|? ? Ha Hnd']; subst.
  cbn [map pushValue].
  destruct (String.eqb a k) eqn:E.
  - apply String.eqb_eq in E. subst. f_equal.
    apply map_ext_in. intros k' Hk'.
    destruct (String.eqb k' k) eqn:E'; [|reflexivity].
    apply String.eqb_eq in E'. subst. contradiction.
  - f_equal. apply IH; [|exact Hnd'].
    destruct Hin as [->|Hin]; [|exact Hin].
    now rewrite String.eqb_refl in E.
Qed.

Lemma recordsOf_snoc (k : string) (data : list Sample) (r : Sample) :
  valuesOf (recordsOf keyOf k (data ++ [r]))
  = if String.eqb (keyOf r) k
    then (valuesOf (recordsOf keyOf k data) ++ [JS.toNumber (value r)])%list
    else valuesOf (recordsOf keyOf k data).
Proof.
  unfold recordsOf, valuesOf. rewrite List.filter_app. cbn [List.filter].
  destruct (String.eqb (keyOf r) k).
  - now rewrite map_app.
  - now rewrite app_nil_r.
Qed.

Lemma recordsOf_absent (k : string) (data : list Sample) :
  ~ In k (map keyOf data) -> recordsOf keyOf k data = [].
Proof.
  intros Hnin. unfold recordsOf.
  induction data as [|r data IH]; [reflexivity|].
  cbn [List.filter]. destruct (String.eqb (keyOf r) k) eqn:E.
  - apply String.eqb_eq in E. exfalso. apply Hnin. left. exact E.
  - apply IH. intros Hin. apply Hnin. now right.
Qed.

(** The object the loop builds holds the keys in the order of their first
    occurrence, each with the values of its records. *)
Lemma groups_fold_spec (data : list Sample) :
  fold_left
    (fun g r => pushValue (keyOf r) (JS.toNumber (value r)) g) data []
  = groupsSpec keyOf data.
Proof.
  induction data as [|r data IH] using rev_ind; [reflexivity|].
  rewrite fold_left_app. cbn [fold_left]. rewrite IH.
  unfold groupsSpec. rewrite map_app. cbn [map].
  rewrite firstOccurrences_snoc.
  destruct (in_dec string_dec (keyOf r) (map keyOf data)) as [Hin|Hnin].
  - rewrite pushValue_old;
      [|now apply firstOccurrences_In | apply firstOccurrences_NoDup].
    apply map_ext. intros k. rewrite recordsOf_snoc.
    rewrite (String.eqb_sym k). reflexivity.
  - rewrite pushValue_new; [|now rewrite firstOccurrences_In].
    rewrite map_app. cbn [map]. f_equal.
    + apply map_ext_in. intros k Hk. rewrite recordsOf_snoc.
      destruct (String.eqb (keyOf r) k) eqn:E; [|reflexivity].
      apply String.eqb_eq in E. subst. rewrite firstOccurrences_In in Hk.
      contradiction.
    + rewrite recordsOf_snoc, String.eqb_refl, recordsOf_absent by exact Hnin.
      reflexivity.
Qed.

(** The loop does not throw when no key is a name the object inherits. *)
Lemma groupValues_run (data : list Sample) (grouped : Groups) :
  Forall (fun r => inherited (keyOf r) = false) data ->
  groupValues keyOf data grouped
  = Return
      (fold_left
         (fun g r => pushValue (keyOf r) (JS.toNumber (value r)) g)
         data grouped).
Proof.
  intros Hkeys. revert grouped.
  induction Hkeys as [|r data Hr _ IH]; intros grouped; [reflexivity|].
  cbn [groupValues fold_left].
  unfold addToGroup. rewrite Hr, andb_false_r. apply IH.
Qed.

Lemma groupsSpec_keys (data : list Sample) :
  map fst (groupsSpec keyOf data) = firstOccurrences (map keyOf data).
Proof.
  unfold groupsSpec. rewrite map_map. cbn [fst]. apply map_id.
Qed.

Lemma pushValue_total (k : string) (v : JS.number) (g : Groups) :
  totalCount (map (fun p => length (snd p)) (pushValue k v g))
  = S (totalCount (map (fun p => length (snd p)) g)).
Proof.
  induction g as [|[k' vs] g IH]; [reflexivity|].
  cbn [pushValue].
  destruct (String.eqb k' k); cbn [map totalCount fold_right snd].
  - rewrite length_app. cbn [length].
    fold (totalCount (map (fun p => length (snd p)) g)). lia.
  - fold (totalCount (map (fun p => length (snd p)) (pushValue k v g))).
    rewrite IH. fold (totalCount (map (fun p => length (snd p)) g)). lia.
Qed.

Lemma groupsSpec_total (data : list Sample) :
  totalCount (map (fun p => length (snd p)) (groupsSpec keyOf data))
  = length data.
Proof.
  rewrite <- groups_fold_spec.
  induction data as [|r data IH] using rev_ind; [reflexivity|].
  rewrite fold_left_app. cbn [fold_left].
  rewrite pushValue_total, IH, length_app. cbn [length]. lia.
Qed.

End Grouping.

Section Sorting.
Context {A : Type} (after : A -> A -> bool).

Lemma insertSorted_perm (x : A) (l : list A) :
  Permutation (insertSorted after x l) (x :: l).
Proof.
  induction l as [|y l IH]; cbn [insertSorted]; [reflexivity|].
  destruct (after x y); [|reflexivity].
  rewrite IH. apply perm_swap.
Qed.

Lemma sort_perm (l : list A) : Permutation (sort_ after l) l.
Proof.
  induction l as [|x l IH]; [reflexivity|].
  cbn [sort_ foldr]. fold (sort_ after l).
  rewrite insertSorted_perm. now constructor.
Qed.

(** Elements that [compare] does not tell apart keep their order. *)
Lemma sort_equal (l : list A) :
  (forall a b, In a l -> In b l -> after a b = false) -> sort_ after l = l.
Proof.
  induction l as [|x l IH]; intros Heq; [reflexivity|].
  cbn [sort_ foldr]. fold (sort_ after l).
  rewrite IH by (intros a b Ha Hb; apply Heq; now right).
  destruct l as [|y l]; [reflexivity|]. cbn [insertSorted].
  rewrite Heq; [reflexivity | now left | right; now left].
Qed.

(** Where [compare] is the difference of a rational measure, the result
    is in the order of the measure. *)
Lemma sort_sorted (m : A -> Q) (P : A -> Prop) (l : list A) :
  (forall a b, P a -> P b -> after a b = true <-> (m b < m a)%Q) ->
  Forall P l ->
  StronglySorted (fun a b => (m a <= m b)%Q) (sort_ after l).
Proof.
  intros Hafter Hl. induction Hl as [|x l Hx Hl IH]; [constructor|].
  cbn [sort_ foldr]. fold (sort_ after l).
  assert (Forall P (sort_ after l)) as HP.
  { apply List.Forall_forall. intros a Ha. rewrite List.Forall_forall in Hl.
    apply Hl. eapply Permutation_in; [apply sort_perm | exact Ha]. }
  induction IH as [|y s Hs IHs Hy]; cbn [insertSorted].
  - repeat constructor.
  - inversion HP as [|? ? Py HP']; subst.
    destruct (after x y) eqn:E.
    + apply Hafter in E; [|exact Hx | exact Py].
      constructor; [apply IHs; exact HP'|].
      apply List.Forall_forall. intros a Ha.
      apply (Permutation_in _ (insertSorted_perm x s)) in Ha.
      destruct Ha as [<-|Ha]; [lra|].
      rewrite List.Forall_forall in Hy. now apply Hy.
    + assert (m x <= m y)%Q as Hxy.
      { destruct (Qlt_le_dec (m y) (m x)) as [Hlt|Hle]; [|exact Hle].
        apply Hafter in Hlt; [congruence | exact Hx | exact Py]. }
      constructor; [now constructor|].
      constructor; [exact Hxy|].
      rewrite List.Forall_forall in Hy |- *. intros a Ha.
      specialize (Hy a Ha). lra.
Qed.

End Sorting.

Lemma not_inherited (c : ascii) (key : string) :
  forallb (freeOf c) inheritedNames = true -> freeOf c key = false ->
  inherited key = false.
Proof.
  intros Hall Hkey. unfold inherited. apply bool_decide_eq_false.
  intros Hin. apply list_elem_of_In in Hin.
  rewrite forallb_forall in Hall. specialize (Hall key Hin). congruence.
Qed.

Lemma dateKey_not_inherited (E : Engine) (r : Sample) :
  inherited (StorageReports.dateKey r) = false.
Proof.
  apply (not_inherited "-"%char); [reflexivity|].
  unfold StorageReports.dateKey.
  destruct (timestamp r) as [t|]; [|reflexivity].
  destruct (validTime t); [|reflexivity].
  rewrite freeOf_app. apply andb_false_iff. right. reflexivity.
Qed.

Section GroupedByDay.
Context `{Engine}.

Lemma summary_date (groups : Groups) :
  map StorageReports.date (map StorageReports.summary groups)
  = map fst groups.
Proof.
  rewrite map_map. apply map_ext. now intros [k vs].
Qed.

Lemma summary_count (groups : Groups) :
  map StorageReports.count (map StorageReports.summary groups)
  = map (fun p => length (snd p)) groups.
Proof.
  rewrite map_map. apply map_ext. now intros [k vs].
Qed.

(** What [getDataGroupedByDay] returns for the data it reads. *)
Lemma getDataGroupedByDay_run (days : option Z) (w : World) :
  StorageReports.getDataGroupedByDay days w
  = match StorageService.getRecentData (Some (default 7 days)) w with
    | (Return data, w') =>
        (Return
           (sort_ StorageReports.laterDate
              (map StorageReports.summary
                 (groupsSpec StorageReports.dateKey data))),
         w')
    | (Throw e, w') => (Return [], w')
    end.
Proof.
  unfold StorageReports.getDataGroupedByDay, try_catch. rewrite bind_run.
  rewrite getRecentData_run. rewrite bind_run. unfold pure.
  rewrite groupValues_run, groups_fold_spec; [reflexivity|].
  apply List.Forall_forall. intros r _. apply dateKey_not_inherited.
Qed.

(** The summary of a day is what the aggregator of [getStatistics]
    computes for the records of the day. *)
Lemma summary_of_day (data : list Sample) (g : StorageReports.DayGroup) :
  In g (map StorageReports.summary (groupsSpec StorageReports.dateKey data)) ->
  let day := recordsOf StorageReports.dateKey (StorageReports.date g) data in
  day <> []
  /\ StorageReports.count g = length day
  /\ StorageReports.average g = average (computeStatistics day)
  /\ StorageReports.max g = max (computeStatistics day)
  /\ StorageReports.min g = min (computeStatistics day).
Proof.
  intros Hg day. apply in_map_iff in Hg as ([k vs] & <- & Hin).
  unfold groupsSpec in Hin. apply in_map_iff in Hin as (k' & Heq & Hk').
  injection Heq as -> <-. subst day. cbn [StorageReports.summary
    StorageReports.date StorageReports.count StorageReports.average
    StorageReports.max StorageReports.min].
  apply firstOccurrences_In, in_map_iff in Hk' as (r & Hr & Hin).
  assert (In r (recordsOf StorageReports.dateKey k data)) as Hday.
  { unfold recordsOf. apply filter_In. split; [exact Hin|].
    now apply String.eqb_eq. }
  destruct (recordsOf StorageReports.dateKey k data) as [|r0 day] eqn:Eday;
    [destruct Hday|].
  split; [discriminate|].
  split; [unfold valuesOf; now rewrite length_map|].
  unfold computeStatistics. cbn [length Nat.eqb average max min].
  repeat split.
Qed.

End GroupedByDay.

Lemma totalCount_perm (l l' : list nat) :
  Permutation l l' -> totalCount l = totalCount l'.
Proof.
  unfold totalCount.
  induction 1 as [|x l l' _ IH|x y l|l l' l'' _ IH _ IH'];
    cbn [fold_right]; lia.
Qed.

Lemma StronglySorted_weaken {A : Type} (R R' : A -> A -> Prop)
    (P : A -> Prop) (l : list A) :
  (forall a b, P a -> P b -> R a b -> R' a b) ->
  Forall P l -> StronglySorted R l -> StronglySorted R' l.
Proof.
  intros Himp HP Hs. induction Hs as [|a l Hs IH Ha]; [constructor|].
  inversion HP as [|? ? Pa HP']; subst.
  constructor; [now apply IH|].
  rewrite List.Forall_forall in Ha, HP' |- *. intros b Hb.
  apply Himp; auto.
Qed.

(** X15.  [getDataGroupedByDay] never fails and does not change the store.  It
    returns one element for each day that has a record among the data
    [getRecentData] gives, and no other: the dates are pairwise different,
    every element counts at least one record, the counts add up to the
    number of records, and the average, the maximum and the minimum of a
    day are those the aggregator of [getStatistics] computes for the
    records of that day.  Where the engine parses every date key, the
    days are in the order of their dates; where it parses none (the
    comparison is [NaN] throughout), they stay in the order in which
    they first occur in the data. *)
Theorem grouped_days_summarise_the_records (E : Engine) (days : option Z)
    (w : World) :
  let read := StorageService.getRecentData (Some (default 7 days)) w in
  let summaries data :=
    map StorageReports.summary (groupsSpec StorageReports.dateKey data) in
  exists data result,
    fst read = Return data
    /\ StorageReports.getDataGroupedByDay days w = (Return result, snd read)
    /\ disk (snd read) = disk w
    /\ Permutation result (summaries data)
    /\ List.NoDup (map StorageReports.date result)
    /\ (forall r, In r data ->
          exists g, In g result
                    /\ StorageReports.date g = StorageReports.dateKey r)
    /\ (forall g, In g result ->
          let day :=
            recordsOf StorageReports.dateKey (StorageReports.date g) data in
          day <> []
          /\ StorageReports.count g = length day
          /\ StorageReports.average g = average (computeStatistics day)
          /\ StorageReports.max g = max (computeStatistics day)
          /\ StorageReports.min g = min (computeStatistics day))
    /\ totalCount (map StorageReports.count result) = length data
    /\ ((forall g, In g result ->
           exists q, parseDate (StorageReports.date g) = JS.Fin q) ->
        StronglySorted
          (fun a b => JS.le (parseDate (StorageReports.date a))
                            (parseDate (StorageReports.date b)))
          result)
    /\ ((forall g, In g result ->
           parseDate (StorageReports.date g) = JS.NaN) ->
        result = summaries data).
Proof.
  intros read summaries. subst read.
  rewrite getDataGroupedByDay_run, getRecentData_run. cbn [fst snd].
  set (data := match readOr _ _ _ with VArray l => _ | _ => [] end).
  exists data, (sort_ StorageReports.laterDate (summaries data)).
  pose proof (sort_perm StorageReports.laterDate (summaries data)) as Hperm.
  split; [reflexivity|]. split; [reflexivity|]. split; [reflexivity|].
  split; [exact Hperm|]. split.
  { eapply Permutation_NoDup;
      [apply Permutation_map; symmetry; exact Hperm|].
    subst summaries. cbv beta. rewrite summary_date, groupsSpec_keys.
    apply firstOccurrences_NoDup. }
  split.
  { intros r Hr.
    assert (In (StorageReports.dateKey r)
              (map StorageReports.date (summaries data))) as Hk.
    { subst summaries. cbv beta. rewrite summary_date, groupsSpec_keys.
      apply firstOccurrences_In, in_map. exact Hr. }
    apply in_map_iff in Hk as (g & Hg & Hin). exists g.
    split; [|exact Hg]. eapply Permutation_in; [symmetry|]; eassumption. }
  split.
  { intros g Hg. apply summary_of_day.
    eapply Permutation_in; eassumption. }
  split.
  { rewrite <- (groupsSpec_total StorageReports.dateKey data).
    rewrite <- summary_count.
    apply totalCount_perm, Permutation_map. exact Hperm. }
  split.
  - intros Hfin.
    set (P := fun g : StorageReports.DayGroup =>
                exists q, parseDate (StorageReports.date g) = JS.Fin q).
    set (m := fun g : StorageReports.DayGroup =>
                match parseDate (StorageReports.date g) with
                | JS.Fin q => q
                | _ => 0%Q
                end).
    assert (Forall P (summaries data)) as HP.
    { apply List.Forall_forall. intros g Hg. apply Hfin.
      eapply Permutation_in; [symmetry|]; eassumption. }
    apply (StronglySorted_weaken (fun a b => (m a <= m b)%Q) _ P).
    + intros a b [qa Ha] [qb Hb]. unfold m. now rewrite Ha, Hb.
    + apply List.Forall_forall. exact Hfin.
    + apply (sort_sorted _ m P); [|exact HP].
      intros a b [qa Ha] [qb Hb]. unfold StorageReports.laterDate, m.
      rewrite Ha, Hb. unfold JS.sub, JS.neg, JS.ofZ. cbn [JS.add].
      rewrite gtb_Fin. unfold inject_Z. split; intros; lra.
  - intros Hnan. apply sort_equal. intros a b Ha Hb.
    unfold StorageReports.laterDate.
    rewrite (Hnan a); [reflexivity|].
    eapply Permutation_in; [symmetry|]; eassumption.
Qed.

(** The three days of [threeDays], read two days later with the default
    of seven days: the engine of the tests parses the keys, and the days
    come out in the order of the calendar. *)
Example grouped_three_days :
  fst (StorageReports.getDataGroupedByDay (E := TestEngine.engine) None
         threeDaysWorld)
  = Return
      [StorageReports.mkDayGroup "2025-11-1" (JS.ofZ 64) 1
         (JS.ofZ 64) (JS.ofZ 64);
       StorageReports.mkDayGroup "2025-11-2" (JS.ofZ 74) 2
         (JS.ofZ 75) (JS.ofZ 72);
       StorageReports.mkDayGroup "2025-11-3" (JS.ofZ 90) 1
         (JS.ofZ 90) (JS.ofZ 90)].
Proof. vm_compute. reflexivity. Qed.

(** * The JSON export *)

(** X16.  [exportDataAsJSON] never returns [null]: its [catch] is not reached,
    because the four reads it is built from catch their own failures.  It
    makes four storage calls and one reading of the clock, leaves the
    store as it is, and returns the bundle of what the four reads give in
    that order; so a read that the storage rejects, a missing key or a
    text that does not parse shows in the export as an empty array or as
    the default thresholds or settings, not as a failure. *)
Theorem export_is_never_null (R : Runtime) (w : World) :
  let w1 := called w in
  let w2 := called w1 in
  let w3 := called w2 in
  let w4 := called w3 in
  StorageReports.exportDataAsJSON w
  = (Return
       (Some
          (StorageReports.ExportJson
             {| StorageReports.exportDate := toISOString (stampTime w);
                StorageReports.heartRateHistory :=
                  readOr StorageService.STORAGE_KEYS.HEART_RATE_HISTORY
                    (VArray []) w;
                StorageReports.healthRecords :=
                  readOr StorageService.STORAGE_KEYS.HEALTH_RECORDS
                    (VArray []) w1;
                StorageReports.thresholds :=
                  readOr StorageService.STORAGE_KEYS.THRESHOLDS
                    (VThresholds StorageService.defaultThresholds) w2;
                StorageReports.settings :=
                  readOr StorageService.STORAGE_KEYS.USER_SETTINGS
                    (VSettings StorageService.defaultUserSettings) w3 |})),
     tick w4)
  /\ fst (StorageReports.exportDataAsJSON w) <> Return None
  /\ disk (snd (StorageReports.exportDataAsJSON w)) = disk w
  /\ fst (StorageService.getHeartRateHistory w)
     = Return (readOr StorageService.STORAGE_KEYS.HEART_RATE_HISTORY
                 (VArray []) w)
  /\ fst (StorageService.getHealthRecords w1)
     = Return (readOr StorageService.STORAGE_KEYS.HEALTH_RECORDS
                 (VArray []) w1)
  /\ fst (StorageService.getThresholds w2)
     = Return (readOr StorageService.STORAGE_KEYS.THRESHOLDS
                 (VThresholds StorageService.defaultThresholds) w2)
  /\ fst (StorageService.getUserSettings w3)
     = Return (readOr StorageService.STORAGE_KEYS.USER_SETTINGS
                 (VSettings StorageService.defaultUserSettings) w3)
  /\ ((forall n, rejects w n = true) ->
      fst (StorageReports.exportDataAsJSON w)
      = Return
          (Some
             (StorageReports.ExportJson
                {| StorageReports.exportDate := toISOString (stampTime w);
                   StorageReports.heartRateHistory := VArray [];
                   StorageReports.healthRecords := VArray [];
                   StorageReports.thresholds :=
                     VThresholds StorageService.defaultThresholds;
                   StorageReports.settings :=
                     VSettings StorageService.defaultUserSettings |}))).
Proof.
  intros w1 w2 w3 w4.
  assert (StorageReports.exportDataAsJSON w
          = (Return
               (Some
                  (StorageReports.ExportJson
                     {| StorageReports.exportDate := toISOString (stampTime w);
                        StorageReports.heartRateHistory :=
                          readOr StorageService.STORAGE_KEYS.HEART_RATE_HISTORY
                            (VArray []) w;
                        StorageReports.healthRecords :=
                          readOr StorageService.STORAGE_KEYS.HEALTH_RECORDS
                            (VArray []) w1;
                        StorageReports.thresholds :=
                          readOr StorageService.STORAGE_KEYS.THRESHOLDS
                            (VThresholds StorageService.defaultThresholds) w2;
                        StorageReports.settings :=
                          readOr StorageService.STORAGE_KEYS.USER_SETTINGS
                            (VSettings StorageService.defaultUserSettings)
                            w3 |})),
             tick w4)) as Hrun.
  { unfold StorageReports.exportDataAsJSON, try_catch.
    rewrite bind_run, getHeartRateHistory_run.
    rewrite bind_run, getHealthRecords_run.
    rewrite bind_run, getThresholds_run.
    rewrite bind_run, getUserSettings_run.
    reflexivity. }
  split; [exact Hrun|]. rewrite Hrun. cbn [fst snd].
  split; [discriminate|]. split; [reflexivity|].
  rewrite getHeartRateHistory_run, getHealthRecords_run, getThresholds_run,
    getUserSettings_run. cbn [fst].
  repeat (split; [reflexivity|]).
  intros Hrej. unfold readOr. subst w1 w2 w3.
  cbn [rejects called]. now rewrite !Hrej.
Qed.

(** * Reading a number back with [parseInt] *)

Lemma digit_cases (d : N) :
  (d < 10)%N ->
  d = 0%N \/ d = 1%N \/ d = 2%N \/ d = 3%N \/ d = 4%N \/ d = 5%N
  \/ d = 6%N \/ d = 7%N \/ d = 8%N \/ d = 9%N.
Proof. lia. Qed.

Lemma digitValue_char (d : N) :
  (d < 10)%N -> digitValue (pretty_N_char d) = Some (Z.of_N d).
Proof.
  intros Hd. apply digit_cases in Hd.
  repeat (destruct Hd as [->|Hd]; [reflexivity|]). subst. reflexivity.
Qed.

Lemma pretty_N_go_app (x : N) (s t : string) :
  pretty_N_go x s ++ t = pretty_N_go x (s ++ t).
Proof.
  revert s. induction (N.lt_wf_0 x) as [x _ IH]. intros s.
  destruct (N.eq_dec x 0%N) as [->|Hx].
  - now rewrite !pretty_N_go_0.
  - rewrite (pretty_N_go_step x s), (pretty_N_go_step x (s ++ t)) by lia.
    rewrite IH by (apply N.div_lt; lia). reflexivity.
Qed.

Lemma pretty_N_go_head (x : N) (s : string) :
  (0 < x)%N ->
  exists d rest,
    (0 < d < 10)%N /\ pretty_N_go x s = String (pretty_N_char d) rest.
Proof.
  revert s. induction (N.lt_wf_0 x) as [x _ IH]. intros s Hx.
  rewrite pretty_N_go_step by exact Hx.
  destruct (N.eq_dec (x / 10)%N 0%N) as [Hq|Hq].
  - rewrite Hq, pretty_N_go_0. exists (x mod 10)%N, s.
    split; [|reflexivity].
    apply N.div_small_iff in Hq; [|lia].
    rewrite N.mod_small by exact Hq. lia.
  - apply IH; [apply N.div_lt; lia | now apply N.neq_0_lt_0].
Qed.

Lemma digitsPrefix_go (x : N) :
  (0 < x)%N ->
  exists k : Z,
    0 <= k
    /\ forall s acc,
         digitsPrefix 10 (pretty_N_go x s) acc
         = digitsPrefix 10 s (Some (default 0 acc * 10 ^ k + Z.of_N x)).
Proof.
  induction (N.lt_wf_0 x) as [x _ IH]. intros Hx.
  assert (digitValue (pretty_N_char (x mod 10)%N)
          = Some (Z.of_N (x mod 10)%N))
    as Hd by (apply digitValue_char, N.mod_lt; lia).
  assert ((Z.of_N (x mod 10)%N <? 10) = true) as Hlt.
  { apply Z.ltb_lt. pose proof (N.mod_lt x 10%N). lia. }
  destruct (N.eq_dec (x / 10)%N 0%N) as [Hq|Hq].
  - exists 1. split; [lia|]. intros s acc.
    rewrite pretty_N_go_step, Hq, pretty_N_go_0 by exact Hx.
    cbn [digitsPrefix]. rewrite Hd, Hlt.
    apply N.div_small_iff in Hq; [|lia].
    rewrite N.mod_small by exact Hq. do 2 f_equal; lia.
  - destruct (IH (x / 10)%N) as (k & Hk & Hgo);
      [apply N.div_lt; lia | now apply N.neq_0_lt_0|].
    exists (k + 1). split; [lia|]. intros s acc.
    rewrite pretty_N_go_step, Hgo by exact Hx.
    cbn [digitsPrefix]. rewrite Hd, Hlt. cbn [default]. do 2 f_equal.
    rewrite Z.pow_add_r, Z.pow_1_r by lia.
    rewrite N2Z.inj_mod, N2Z.inj_div. change (Z.of_N 10%N) with 10.
    pose proof (Z.div_mod (Z.of_N x) 10 ltac:(lia)) as Hdm.
    set (q := Z.of_N x / 10) in *. set (r := Z.of_N x mod 10) in *.
    rewrite Hdm. unfold id. ring.
Qed.

Lemma parseInt_head (d : N) (rest : string) :
  (0 < d < 10)%N ->
  parseInt (String (pretty_N_char d) rest)
  = digitsPrefix 10 (String (pretty_N_char d) rest) None
  /\ parseInt (String "-" (String (pretty_N_char d) rest))
     = match digitsPrefix 10 (String (pretty_N_char d) rest) None with
       | Some n => Some (- n)
       | None => None
       end.
Proof.
  intros [H0 Hd]. apply digit_cases in Hd.
  destruct Hd as [->|Hd]; [lia|].
  assert (forall o : option Z,
            match o with Some n => Some (1 * n) | None => None end = o)
    as Hone by (intros [n|]; [f_equal; lia | reflexivity]).
  assert (forall o : option Z,
            match o with Some n => Some (-1 * n) | None => None end
            = match o with Some n => Some (- n) | None => None end)
    as Hneg by (intros [n|]; [f_equal; lia | reflexivity]).
  repeat (destruct Hd as [->|Hd];
          [unfold parseInt; cbn -[digitsPrefix Z.mul Z.opp];
           split; [apply Hone | apply Hneg]|]).
  subst. unfold parseInt; cbn -[digitsPrefix Z.mul Z.opp].
  split; [apply Hone | apply Hneg].
Qed.

(** [parseInt] reads back every integer printed in decimal, also when a
    character that is neither a digit nor a letter follows it. *)
Lemma parseInt_pretty_suffix (z : Z) (suffix : string) :
  match suffix with
  | EmptyString => True
  | String c _ => digitValue c = None
  end ->
  parseInt (pretty z ++ suffix) = Some z.
Proof.
  intros Hsuffix.
  assert (forall acc, digitsPrefix 10 suffix acc = acc) as Hstop.
  { intros acc. destruct suffix as [|c rest]; [reflexivity|].
    cbn [digitsPrefix]. now rewrite Hsuffix. }
  assert (forall p : positive,
            exists d rest,
              (0 < d < 10)%N
              /\ pretty p ++ suffix = String (pretty_N_char d) rest
              /\ digitsPrefix 10 (String (pretty_N_char d) rest) None
                 = Some (Z.pos p)) as Hpos.
  { intros p.
    assert (pretty p ++ suffix = pretty_N_go (N.pos p) suffix) as Hp.
    { unfold pretty, pretty_positive, pretty, pretty_N.
      destruct (decide (N.pos p = 0%N)); [discriminate|].
      now rewrite pretty_N_go_app. }
    destruct (pretty_N_go_head (N.pos p) suffix) as (d & rest & Hd & Heq);
      [lia|].
    exists d, rest. split; [exact Hd|]. split; [congruence|].
    rewrite <- Heq.
    destruct (digitsPrefix_go (N.pos p)) as (k & Hk & Hgo); [lia|].
    rewrite Hgo, Hstop. cbn [default]. f_equal; lia. }
  destruct z as [|p|p].
  - change (pretty 0) with "0". destruct suffix as [|c rest]; [reflexivity|].
    change ("0" ++ String c rest) with (String "0" (String c rest)).
    destruct c as [[] [] [] [] [] [] [] []]; vm_compute in Hsuffix;
      try discriminate Hsuffix; reflexivity.
  - destruct (Hpos p) as (d & rest & Hd & Heq & Hval).
    change (pretty (Z.pos p)) with (pretty p).
    now rewrite Heq, (proj1 (parseInt_head d rest Hd)).
  - destruct (Hpos p) as (d & rest & Hd & Heq & Hval).
    change (pretty (Z.neg p)) with ("-" +:+ pretty p).
    change (("-" +:+ pretty p) ++ suffix)
      with (String "-" (pretty p ++ suffix)).
    rewrite Heq, (proj2 (parseInt_head d rest Hd)), Hval. reflexivity.
Qed.


(** * The settings screen *)

Section Settings.
Context {R : Runtime} {P : Platform}.

Lemma onStore_run {St A : Type} (m : Async A) (st : St) (d : Device) :
  onStore m (st, d)
  = (fst (m (storeOf d)),
     (st,
      mkDevice
        (mkApp (snd (m (storeOf d))) (service (application d))
           (random (application d)) (draws (application d)))
        (alerts d) (files d) (writeRejects d) (fileWrites d))).
Proof.
  unfold onStore, onApp, onWorld, storeOf. cbn [fst snd].
  destruct (m (world (application d))) as [o w']. reflexivity.
Qed.

Lemma screen_bind_run {St A B : Type} (m : Screen St A)
    (f : A -> Screen St B) (s : St * Device) :
  (m ≫= f) s
  = match m s with
    | (Return a, s') => f a s'
    | (Throw e, s') => (Throw e, s')
    end.
Proof. reflexivity. Qed.

End Settings.



(** Bounds that are no numbers, out of order or out of range are turned
    down with an error, and the store keeps the thresholds it had. *)
Example thresholds_turned_down :
  let run texts :=
    SettingsHandlers.saveThresholds (texts, deviceOn fullWorld) in
  map text (alerts (snd (snd (run (typed "sixty" "100")))))
  = ["Please enter valid numbers"]
  /\ map text (alerts (snd (snd (run (typed "100" "60")))))
     = ["Minimum heart rate must be less than maximum"]
  /\ map text (alerts (snd (snd (run (typed "30" "100")))))
     = ["Please enter reasonable heart rate range (40-200)"]
  /\ map text (alerts (snd (snd (run (typed "0x3C" "100")))))
     = ["Threshold settings saved"]
  /\ disk (storeOf (snd (snd (run (typed "30" "100"))))) = disk fullWorld.
Proof. repeat split. Qed.



(** X19.  [exportData] shows exactly one alert, never fails and changes neither
    the store nor the state of the screen.  It writes a file only when
    the heart-rate history is a non-empty array and the file system
    accepts the write: the file is named after the reading of the clock
    and holds the text of [convertToCSV] for the whole history, and the
    alert counts its records.  An empty or unreadable history gives the
    notice, a history that is no array and a rejected write give the
    alert of a failed export; none of them leaves a file. *)
Theorem export_writes_the_whole_history (R : Runtime) (P : Platform)
    (st : SettingsHandlers.State) (d : Device) :
  let run := SettingsHandlers.exportData (st, d) in
  let d' := snd (snd run) in
  let w := storeOf d in
  let path :=
    DocumentDirectoryPath ++ "/" ++ "heart_guard_export_"
    ++ pretty (clock w (clockReads w)) ++ ".csv" in
  fst run = Return tt
  /\ fst (snd run) = st
  /\ disk (storeOf d') = disk w
  /\ service (application d') = service (application d)
  /\ match readOr StorageService.STORAGE_KEYS.HEART_RATE_HISTORY
             (VArray []) w with
     | VArray [] =>
         alerts d'
         = (alerts d ++ [mkAlert "Notice" "No data available to export"])%list
         /\ files d' = files d
     | VArray l =>
         if writeRejects d (fileWrites d)
         then alerts d'
              = (alerts d
                 ++ [mkAlert "Export Failed" (errorMessage StorageError)])%list
              /\ files d' = files d
         else alerts d'
              = (alerts d
                 ++ [mkAlert "Export Successful"
                       ("Data saved to:" ++ LF ++ path ++ LF ++ LF
                        ++ "Total records: " ++ pretty (length l))])%list
              /\ files d'
                 = (files d ++ [(path, SettingsScreen.convertToCSV l)])%list
     | _ =>
         alerts d'
         = (alerts d
            ++ [mkAlert "Export Failed" (errorMessage TypeError)])%list
         /\ files d' = files d
     end.
Proof.
  intros run d' w path. subst run d' w path.
  unfold SettingsHandlers.exportData, screen_try_catch.
  rewrite screen_bind_run, onStore_run, getHeartRateHistory_run.
  cbn [fst snd]. unfold storeOf.
  destruct (readOr _ _ (world (application d))) as [[|r l]| |].
  - cbn [Alert_alert fst snd alerts files application world called disk
         service]. repeat split.
  - rewrite screen_bind_run, onStore_run. cbn [new_Date Date_now fst snd].
    rewrite screen_bind_run. unfold RNFS_writeFile. cbn [snd fst].
    cbn [writeRejects fileWrites].
    destruct (writeRejects d (fileWrites d));
      cbn [Alert_alert fst snd alerts files application world called tick disk
           service storeOf clock clockReads];
      repeat split.
  - cbn [screen_throw Alert_alert fst snd alerts files application world
         called disk service]. repeat split.
  - cbn [screen_throw Alert_alert fst snd alerts files application world
         called disk service]. repeat split.
Qed.

Lemma export_writes_the_whole_history_witness :
  let run d :=
    SettingsHandlers.exportData (R := TestRuntime.runtime)
      (P := TestPlatform.platform) (SettingsHandlers.initialState, d) in
  files (snd (snd (run (deviceOn fullWorld))))
  = [("/data/user/0/com.heartguard/files/heart_guard_export_1762052400000.csv",
      "Date,Time,Heart Rate (BPM)" ++ LF ++ "11/2/2025,2:59:55 AM,80")]
  /\ map title (alerts (snd (snd (run (deviceOn fullWorld)))))
     = ["Export Successful"]
  /\ map title (alerts (snd (snd (run (brokenDisk fullWorld)))))
     = ["Export Failed"]
  /\ files (snd (snd (run (brokenDisk fullWorld)))) = []
  /\ map title (alerts (snd (snd (run (deviceOn unreadableWorld)))))
     = ["Notice"].
Proof.
  intros run.
  pose proof (export_writes_the_whole_history TestRuntime.runtime
                TestPlatform.platform SettingsHandlers.initialState
                (deviceOn fullWorld)) as (_ & _ & _ & _ & Hfull).
  pose proof (export_writes_the_whole_history TestRuntime.runtime
                TestPlatform.platform SettingsHandlers.initialState
                (brokenDisk fullWorld)) as (_ & _ & _ & _ & Hbroken).
  pose proof (export_writes_the_whole_history TestRuntime.runtime
                TestPlatform.platform SettingsHandlers.initialState
                (deviceOn unreadableWorld)) as (_ & _ & _ & _ & Hnone).
  cbv zeta in Hfull, Hbroken, Hnone.
  change (readOr StorageService.STORAGE_KEYS.HEART_RATE_HISTORY (VArray [])
            (storeOf (deviceOn fullWorld)))
    with (VArray [heartRateRecord (H := TestRuntime.runtime) (80 # 1)
                    (someDay - 5000) (someDay - 5000)]) in Hfull.
  change (readOr StorageService.STORAGE_KEYS.HEART_RATE_HISTORY (VArray [])
            (storeOf (brokenDisk fullWorld)))
    with (VArray [heartRateRecord (H := TestRuntime.runtime) (80 # 1)
                    (someDay - 5000) (someDay - 5000)]) in Hbroken.
  change (readOr StorageService.STORAGE_KEYS.HEART_RATE_HISTORY (VArray [])
            (storeOf (deviceOn unreadableWorld)))
    with (VArray []) in Hnone.
  cbn [writeRejects deviceOn brokenDisk] in Hfull, Hbroken.
  destruct Hfull as [Hfa Hff]. destruct Hbroken as [Hba Hbf].
  destruct Hnone as [Hna _]. subst run. cbv beta.
  rewrite Hff, Hfa, Hba, Hbf, Hna. repeat split.
Defined.

(** * The home screen *)

Lemma onApp_run {St A : Type} (m : Sim A) (st : St) (d : Device) :
  onApp m (st, d)
  = (fst (m (application d)),
     (st,
      mkDevice (snd (m (application d))) (alerts d) (files d)
        (writeRejects d) (fileWrites d))).
Proof.
  unfold onApp. cbn [fst snd]. destruct (m (application d)). reflexivity.
Qed.

Lemma status_of_whole_rate (st : HomeScreen.State) (hr : Z) :
  HomeScreen.heartRate st = inject_Z hr -> (45 <= hr)%Z ->
  HomeScreen.getHeartRateStatus st
  = (if (hr <? 60)%Z then "Low" else if (100 <? hr)%Z then "High"
     else "Normal")
  /\ HomeScreen.getHeartRateColor st
     = (if (hr <? 60)%Z then "#3498db" else if (100 <? hr)%Z then "#e74c3c"
        else "#2ecc71").
Proof.
  intros Hst Hhr.
  unfold HomeScreen.getHeartRateStatus, HomeScreen.getHeartRateColor.
  rewrite Hst.
  assert (JS.Qis0 (inject_Z hr) = false) as ->.
  { destruct (JS.Qis0 _) eqn:E; [|reflexivity]. apply Qis0_spec in E.
    change 0%Q with (inject_Z 0) in E. rewrite inject_Z_injective in E.
    lia. }
  destruct (hr <? 60)%Z eqn:Elow.
  - assert (JS.Qltb (inject_Z hr) 60 = true) as ->; [|now split].
    apply Qltb_spec. change 60%Q with (inject_Z 60). rewrite <- Zlt_Qlt. lia.
  - assert (JS.Qltb (inject_Z hr) 60 = false) as ->.
    { destruct (JS.Qltb _ _) eqn:E; [|reflexivity]. apply Qltb_spec in E.
      change 60%Q with (inject_Z 60) in E. rewrite <- Zlt_Qlt in E. lia. }
    destruct (100 <? hr)%Z eqn:Ehigh.
    + assert (JS.Qgtb (inject_Z hr) 100 = true) as ->; [|now split].
      apply Qgtb_spec. change 100%Q with (inject_Z 100).
      rewrite <- Zlt_Qlt. lia.
    + assert (JS.Qgtb (inject_Z hr) 100 = false) as ->; [|now split].
      destruct (JS.Qgtb _ _) eqn:E; [|reflexivity]. apply Qgtb_spec in E.
      change 100%Q with (inject_Z 100) in E. rewrite <- Zlt_Qlt in E. lia.
Qed.

Section Home.
Context {R : Runtime} {E : Engine}.

(** One round of [updateHealthData], step by step. *)
Lemma updateHealthData_run (st : HomeScreen.State) (d : Device) :
  unitRandom (application d) ->
  exists (hr bo : Z) (steps calories distance : Q) (a : App),
    (45 <= hr <= 100)%Z /\ (96 <= bo <= 99)%Z /\ (steps <= 30000)%Q
    /\ world a = tick (tick (tick (storeOf d)))
    /\ thresholds (service a) = thresholds (service (application d))
    /\ let check :=
         HealthService.checkHeartRateThreshold
           (thresholds (service (application d))) (JS.ofZ hr) None in
       let alerted := negb (String.eqb (HealthService.status check) "normal") in
       let record :=
         mkSample None (Some (inject_Z hr)) (Some (inject_Z bo)) (Some steps)
           (Some calories) (Some distance) None None in
       HomeScreen.updateHealthData (st, d)
       = (Return tt,
          (HomeScreen.mkState (inject_Z hr) (inject_Z bo) steps calories
             distance (HomeScreen.monitoring st)
             (if alerted then true else HomeScreen.alertVisible st)
             (if alerted then HealthService.message check
              else HomeScreen.alertMessage st),
           mkDevice
             (mkApp
                (snd (StorageService.saveHealthRecord record
                        (snd (StorageService.saveHeartRateRecord
                                (inject_Z hr) (world a)))))
                (service a) (random a) (draws a))
             (alerts d) (files d) (writeRejects d) (fileWrites d))).
Proof.
  intros Hrnd.
  destruct (getCurrentHeartRate_run _ Hrnd) as (hr & Hhr & Hrange & _).
  set (a1 := mkApp _ _ _ _) in Hhr.
  assert (unitRandom a1) as Hrnd1 by exact Hrnd.
  destruct (getBloodOxygen_run _ Hrnd1) as (bo & Hbo & Hbrange).
  set (a2 := mkApp _ _ _ _) in Hbo.
  pose proof (getSteps_run a2) as Hsteps. cbv zeta in Hsteps.
  set (steps := Math_min _ _) in Hsteps.
  set (a3 := mkApp _ _ _ _) in Hsteps.
  pose proof (getCalories_run a3) as Hcal. cbv zeta in Hcal.
  set (calories := Math_round _) in Hcal.
  set (a4 := mkApp _ _ _ _) in Hcal.
  pose proof (getDistance_run a4) as Hdist. cbv zeta in Hdist.
  set (distance := toFixed2 _) in Hdist.
  exists hr, bo, steps, calories, distance,
    (snd (HealthServiceMethods.initializeDailyData a4)).
  split; [exact Hrange|]. split; [exact Hbrange|]. split.
  { subst steps. unfold Math_min. destruct (Qle_bool _ _) eqn:Ele.
    - now apply Qle_bool_iff in Ele.
    - apply Qle_refl. }
  split.
  { rewrite initializeDailyData_run. reflexivity. }
  split.
  { rewrite initializeDailyData_run. cbn [snd service].
    destruct (String.eqb _ _); reflexivity. }
  cbv zeta.
  unfold HomeScreen.updateHealthData, screen_try_catch.
  rewrite screen_bind_run, onApp_run, Hhr. cbn [fst snd].
  rewrite screen_bind_run, onApp_run. cbn [application]. rewrite Hbo.
  cbn [fst snd].
  rewrite screen_bind_run, onApp_run. cbn [application]. rewrite Hsteps.
  cbn [fst snd].
  rewrite screen_bind_run, onApp_run. cbn [application]. rewrite Hcal.
  cbn [fst snd].
  rewrite screen_bind_run, onApp_run. cbn [application]. rewrite Hdist.
  cbn [fst snd].
  rewrite screen_bind_run. cbn [setState fst snd].
  rewrite screen_bind_run, onApp_run. cbn [application getService fst snd].
  assert (thresholds
            (service (snd (HealthServiceMethods.initializeDailyData a4)))
          = thresholds (service (application d))) as ->.
  { rewrite initializeDailyData_run. cbn [snd service].
    destruct (String.eqb _ _); reflexivity. }
  change (JS.Fin (inject_Z hr)) with (JS.ofZ hr).
  set (check := HealthService.checkHeartRateThreshold _ _ _).
  rewrite screen_bind_run.
  destruct (negb (String.eqb (HealthService.status check) "normal"));
    cbn [HomeScreen.showAlert setState mret Screen_ret fst snd
         HomeScreen.heartRate HomeScreen.bloodOxygen HomeScreen.steps
         HomeScreen.calories HomeScreen.distance HomeScreen.monitoring
         HomeScreen.alertVisible HomeScreen.alertMessage];
    rewrite screen_bind_run, onStore_run; cbn [fst snd storeOf application];
    match goal with
    | |- context [fst (StorageService.saveHeartRateRecord ?v ?w)] =>
        destruct (saveHeartRateRecord_total v w) as [ok1 Hok1]; rewrite Hok1
    end;
    rewrite screen_bind_run, onStore_run;
    cbn [fst snd storeOf application world alerts files writeRejects
         fileWrites service random draws];
    match goal with
    | |- context [fst (StorageService.saveHealthRecord ?r ?w)] =>
        destruct (saveHealthRecord_total r w) as [ok2 Hok2]; rewrite Hok2
    end;
    reflexivity.
Qed.

End Home.

(** X20.  One round of the home screen never fails, shows a whole heart rate
    from 45 to 100, a whole blood oxygen from 96 to 99 and at most 30000
    steps, and stores what it shows: the store it leaves is the one the
    two saves leave when they are given the heart rate and the five
    values on the screen, after the three readings of the clock that the
    daily counters take.  The alert of the screen is raised with the
    message of [checkHeartRateThreshold] exactly when its verdict on the
    heart rate shown is not normal, and is left as it was otherwise.
    Under the thresholds the constructor sets the verdict is never high,
    and the badge of the screen ([getHeartRateStatus], written with its
    own bounds 60 and 100) says [Low] or [Normal] exactly when the
    verdict says low or normal.  The round shows no system alert, writes
    no file and keeps the thresholds of the service. *)
Theorem home_screen_stores_what_it_shows (R : Runtime) (E : Engine)
    (st : HomeScreen.State) (d : Device) :
  unitRandom (application d) ->
  let run := HomeScreen.updateHealthData (st, d) in
  let st' := fst (snd run) in
  let d' := snd (snd run) in
  let this := thresholds (service (application d)) in
  let verdict :=
    HealthService.checkHeartRateThreshold this
      (JS.Fin (HomeScreen.heartRate st')) None in
  fst run = Return tt
  /\ (exists hr bo : Z,
        HomeScreen.heartRate st' = inject_Z hr /\ (45 <= hr <= 100)%Z
        /\ HomeScreen.bloodOxygen st' = inject_Z bo /\ (96 <= bo <= 99)%Z)
  /\ (HomeScreen.steps st' <= 30000)%Q
  /\ HomeScreen.monitoring st' = HomeScreen.monitoring st
  /\ (HealthService.status verdict = "normal" ->
      HomeScreen.alertVisible st' = HomeScreen.alertVisible st
      /\ HomeScreen.alertMessage st' = HomeScreen.alertMessage st)
  /\ (HealthService.status verdict <> "normal" ->
      HomeScreen.alertVisible st' = true
      /\ HomeScreen.alertMessage st' = HealthService.message verdict)
  /\ (this = HealthService.initialThresholds ->
      HealthService.status verdict <> "high"
      /\ (HomeScreen.getHeartRateStatus st' = "Low" <->
          HealthService.status verdict = "low")
      /\ (HomeScreen.getHeartRateStatus st' = "Normal" <->
          HealthService.status verdict = "normal"))
  /\ thresholds (service (application d')) = this
  /\ alerts d' = alerts d
  /\ files d' = files d
  /\ storeOf d'
     = snd (StorageService.saveHealthRecord
              (mkSample None (Some (HomeScreen.heartRate st'))
                 (Some (HomeScreen.bloodOxygen st'))
                 (Some (HomeScreen.steps st'))
                 (Some (HomeScreen.calories st'))
                 (Some (HomeScreen.distance st')) None None)
              (snd (StorageService.saveHeartRateRecord
                      (HomeScreen.heartRate st')
                      (tick (tick (tick (storeOf d))))))).
Proof.
  intros Hrnd run st' d' this verdict. subst run st' d' this verdict.
  destruct (updateHealthData_run st d Hrnd)
    as (hr & bo & steps & calories & distance & a & Hhr & Hbo & Hsteps
        & Hworld & Hthresholds & Hrun).
  cbv zeta in Hrun. rewrite Hrun.
  cbn [fst snd HomeScreen.heartRate HomeScreen.bloodOxygen HomeScreen.steps
       HomeScreen.calories HomeScreen.distance HomeScreen.monitoring
       HomeScreen.alertVisible HomeScreen.alertMessage application service
       alerts files storeOf world].
  change (JS.Fin (inject_Z hr)) with (JS.ofZ hr).
  set (check := HealthService.checkHeartRateThreshold _ _ _).
  split; [reflexivity|].
  split; [exists hr, bo; repeat split; lia|].
  split; [exact Hsteps|]. split; [reflexivity|].
  split.
  { intros Hnormal. rewrite Hnormal. now split. }
  split.
  { intros Hnot.
    destruct (String.eqb (HealthService.status check) "normal") eqn:Eq.
    - apply String.eqb_eq in Eq. contradiction.
    - now split. }
  split.
  { intros Hinit. subst check. rewrite Hinit.
    rewrite initial_thresholds_verdict by lia.
    destruct (status_of_whole_rate
                (HomeScreen.mkState (inject_Z hr) (inject_Z bo) steps
                   calories distance (HomeScreen.monitoring st) false "")
                hr eq_refl ltac:(lia)) as [Hstatus _].
    unfold HomeScreen.getHeartRateStatus in Hstatus |- *.
    cbn [HomeScreen.heartRate] in Hstatus |- *. rewrite Hstatus.
    replace (100 <? hr)%Z with false by lia.
    destruct (hr <? 60)%Z; cbn [HealthService.status];
      repeat split; (discriminate || reflexivity || auto). }
  split; [exact Hthresholds|]. split; [reflexivity|].
  split; [reflexivity|]. now rewrite Hworld.
Qed.

Lemma home_screen_stores_what_it_shows_witness :
  let run :=
    HomeScreen.updateHealthData (R := TestRuntime.runtime)
      (E := TestEngine.engine) (HomeScreen.initialState, deviceOn fullWorld) in
  unitRandom (application (deviceOn fullWorld))
  /\ fst run = Return tt
  /\ exists hr bo : Z,
       HomeScreen.heartRate (fst (snd run)) = inject_Z hr
       /\ (45 <= hr <= 100)%Z
       /\ HomeScreen.bloodOxygen (fst (snd run)) = inject_Z bo
       /\ (96 <= bo <= 99)%Z.
Proof.
  intros run.
  assert (unitRandom (application (deviceOn fullWorld))) as Hrnd
    by now apply testRandom_unit.
  split; [exact Hrnd|].
  destruct (home_screen_stores_what_it_shows TestRuntime.runtime
              TestEngine.engine HomeScreen.initialState (deviceOn fullWorld)
              Hrnd) as (Hret & Hshown & _).
  split; [exact Hret | exact Hshown].
Defined.

(** The first round on the test device shows 62 beats, 99 per cent, 14
    steps and one calorie, and appends a record to each stream. *)
Example first_round_of_the_home_screen :
  let run :=
    HomeScreen.updateHealthData (R := TestRuntime.runtime)
      (E := TestEngine.engine) (HomeScreen.initialState, deviceOn fullWorld) in
  fst (snd run)
  = HomeScreen.mkState 62 99 14 1 (1 # 100) false false ""
  /\ (exists old new,
        disk (storeOf (snd (snd run)))
        !! StorageService.STORAGE_KEYS.HEART_RATE_HISTORY
        = Some (Json (VArray [old; new]))
        /\ value new = Some 62%Q)
  /\ (exists old new,
        disk (storeOf (snd (snd run)))
        !! StorageService.STORAGE_KEYS.HEALTH_RECORDS
        = Some (Json (VArray [old; new]))
        /\ heartRate new = Some 62%Q /\ steps new = Some 14%Q).
Proof.
  split; [vm_compute; reflexivity|].
  split; eexists _, _; (split; [vm_compute; reflexivity|]); repeat split.
Qed.

(** * The history screen *)

Lemma calculateStats_run (records : list Sample)
    (st : HistoryScreen.State) (d : Device) :
  HistoryScreen.calculateStats records (st, d)
  = (Return tt,
     (HistoryScreen.mkState (HistoryScreen.period st) (HistoryScreen.data st)
        (HistoryScreen.loading st) (statsOf (computeStatistics records)),
      d)).
Proof.
  unfold HistoryScreen.calculateStats, computeStatistics.
  destruct (length records =? 0)%nat; reflexivity.
Qed.

(** X21.  [loadData] never fails, ends with the loading flag down and leaves
    the period, the store and the alerts as they are.  The statistics it
    sets are those of the aggregator of [getStatistics] applied to the
    data it sets: for a period of [n] days the screen shows the average,
    maximum, minimum and trend that [storageService.getStatistics(n)]
    returns for the same store and clock, although the screen computes
    them with its own copy of the code.  The data are what
    [getTodayData] returns for the period [today] and what
    [getRecentData(n)] returns for a period that [parseInt] reads as
    [n]; a period that is no number gives no data. *)
Theorem history_statistics_agree_with_getStatistics (R : Runtime)
    (st : HistoryScreen.State) (d : Device) :
  let run := HistoryScreen.loadData (st, d) in
  let st' := fst (snd run) in
  let d' := snd (snd run) in
  let w := storeOf d in
  fst run = Return tt
  /\ HistoryScreen.loading st' = false
  /\ HistoryScreen.period st' = HistoryScreen.period st
  /\ HistoryScreen.stats st'
     = statsOf (computeStatistics (HistoryScreen.data st'))
  /\ disk (storeOf d') = disk w
  /\ alerts d' = alerts d
  /\ (HistoryScreen.period st = "today" ->
      fst (StorageService.getTodayData w)
      = Return (HistoryScreen.data st'))
  /\ (HistoryScreen.period st <> "today" ->
      forall days : Z,
        parseInt (HistoryScreen.period st) = Some days ->
        fst (StorageService.getRecentData (Some days) w)
        = Return (HistoryScreen.data st')
        /\ exists s : Statistics,
             fst (StorageService.getStatistics (Some days) w) = Return s
             /\ HistoryScreen.stats st' = statsOf s)
  /\ (HistoryScreen.period st <> "today" ->
      parseInt (HistoryScreen.period st) = None ->
      HistoryScreen.data st' = []).
Proof.
  intros run st' d' w. subst run st' d' w.
  unfold HistoryScreen.loadData.
  rewrite screen_bind_run.
  cbn [HistoryScreen.setLoading setState fst snd].
  rewrite screen_bind_run. unfold screen_try_catch.
  rewrite screen_bind_run. cbn [getState fst snd HistoryScreen.period].
  rewrite screen_bind_run.
  destruct (String.eqb (HistoryScreen.period st) "today") eqn:Eperiod.
  - apply String.eqb_eq in Eperiod.
    rewrite onStore_run, getTodayData_run. cbn [fst snd].
    rewrite screen_bind_run. cbn [HistoryScreen.setData setState fst snd].
    rewrite calculateStats_run.
    cbn [HistoryScreen.setLoading setState fst snd HistoryScreen.period
         HistoryScreen.data HistoryScreen.loading HistoryScreen.stats
         storeOf application world alerts tick called disk].
    do 6 (split; [reflexivity|]). split; [|split].
    + intros _. reflexivity.
    + intros Hne. contradiction.
    + intros Hne. contradiction.
  - apply String.eqb_neq in Eperiod.
    destruct (parseInt (HistoryScreen.period st)) as [days|] eqn:Edays.
    + unfold HistoryScreen.getRecentData.
      rewrite onStore_run, getRecentData_run. cbn [fst snd].
      rewrite screen_bind_run. cbn [HistoryScreen.setData setState fst snd].
      rewrite calculateStats_run.
      cbn [HistoryScreen.setLoading setState fst snd HistoryScreen.period
           HistoryScreen.data HistoryScreen.loading HistoryScreen.stats
           storeOf application world alerts tick called disk].
      do 6 (split; [reflexivity|]). split; [|split].
      * intros Htoday. contradiction.
      * intros _ days' [= <-]. rewrite getRecentData_run, getStatistics_run.
        cbn [fst]. split; [reflexivity|]. eexists. split; reflexivity.
      * intros _ [=].
    + unfold HistoryScreen.getRecentData, try_catch.
      rewrite onStore_run, bind_run, getHeartRateHistory_run, bind_run.
      cbn [Date_now].
      assert (forall l : list Sample,
                List.filter (fun _ => false) l = []) as Hnone
        by (induction l; auto).
      destruct (readOr _ _ _) as [l| |];
        cbn [filter_ throw mret Async_ret fst snd];
        rewrite ?Hnone;
        rewrite screen_bind_run;
        cbn [HistoryScreen.setData setState fst snd];
        rewrite calculateStats_run;
        cbn [HistoryScreen.setLoading setState fst snd HistoryScreen.period
             HistoryScreen.data HistoryScreen.loading HistoryScreen.stats
             storeOf application world alerts tick called disk];
        (do 6 (split; [reflexivity|])); (split; [|split]);
        try (intros Htoday; contradiction);
        try (intros _ days' [=]);
        try (intros _ _; reflexivity).
Qed.

(** ** The chart *)

Lemma list_ind2 {A : Type} (P : list A -> Prop) :
  P [] -> (forall x, P [x]) -> (forall x y l, P l -> P (x :: y :: l)) ->
  forall l, P l.
Proof.
  intros Hnil Hone Hstep l.
  assert (P l /\ forall x, P (x :: l)) as [Hl _]; [|exact Hl].
  induction l as [|a l [IH1 IH2]]; [now split|].
  split; [apply IH2|]. intros x. now apply Hstep.
Qed.

Lemma evenIndices_map {A B : Type} (f : A -> B) (l : list A) :
  HistoryScreen.evenIndices (map f l) = map f (HistoryScreen.evenIndices l).
Proof.
  induction l as [|x|x y l IH] using list_ind2; try reflexivity.
  cbn [map HistoryScreen.evenIndices]. now rewrite IH.
Qed.

Lemma evenIndices_length {A : Type} (l : list A) :
  (2 * length (HistoryScreen.evenIndices l) <= length l + 1)%nat.
Proof.
  induction l as [|x|x y l IH] using list_ind2;
    cbn [HistoryScreen.evenIndices length]; lia.
Qed.

Lemma evenIndices_sublist {A : Type} (l : list A) :
  sublist (HistoryScreen.evenIndices l) l.
Proof.
  induction l as [|x|x y l IH] using list_ind2;
    cbn [HistoryScreen.evenIndices]; [reflexivity..|].
  apply sublist_skip, sublist_cons, IH.
Qed.

Lemma StronglySorted_sublist {A : Type} (R : A -> A -> Prop)
    (l1 l2 : list A) :
  sublist l1 l2 -> StronglySorted R l2 -> StronglySorted R l1.
Proof.
  induction 1 as [|x l1 l2 Hsub IH|x l1 l2 Hsub IH]; intros Hs;
    [constructor|..]; inversion Hs as [|? ? Hs' Hx]; subst; [|now apply IH].
  constructor; [now apply IH|].
  rewrite List.Forall_forall in Hx |- *. intros y Hy. apply Hx.
  apply list_elem_of_In. eapply elem_of_sublist; [|exact Hsub].
  now apply list_elem_of_In.
Qed.

Lemma lastPoints_map {A B : Type} (f : A -> B) (n : nat) (l : list A) :
  HistoryScreen.lastPoints n (map f l) = map f (HistoryScreen.lastPoints n l).
Proof.
  unfold HistoryScreen.lastPoints. rewrite length_map. symmetry.
  apply (fmap_drop f).
Qed.

Lemma lastPoints_length {A : Type} (n : nat) (l : list A) :
  (length (HistoryScreen.lastPoints n l) <= n)%nat.
Proof. unfold HistoryScreen.lastPoints. rewrite length_drop. lia. Qed.

Lemma find_groupsSpec (keyOf : Sample -> string) (data : list Sample)
    (k : string) :
  In k (map keyOf data) ->
  List.find (fun g => String.eqb (fst g) k) (groupsSpec keyOf data)
  = Some (k, valuesOf (recordsOf keyOf k data)).
Proof.
  intros Hk. apply firstOccurrences_In in Hk. unfold groupsSpec.
  induction (firstOccurrences (map keyOf data)) as [|a ks IH];
    [destruct Hk|].
  cbn [map List.find fst]. destruct (String.eqb a k) eqn:E.
  - apply String.eqb_eq in E. now subst.
  - apply IH. destruct Hk as [->|Hk]; [|exact Hk].
    now rewrite String.eqb_refl in E.
Qed.

Section Chart.
Context {E : Engine}.

Lemma chart_keys_not_inherited (r : Sample) :
  inherited (HistoryScreen.timeKey r) = false
  /\ inherited (HistoryScreen.dateKey r) = false.
Proof.
  split.
  - apply (not_inherited ":"%char); [reflexivity|].
    unfold HistoryScreen.timeKey.
    destruct (timestamp r) as [t|]; [|reflexivity].
    destruct (validTime t); [|reflexivity].
    rewrite freeOf_app. apply andb_false_iff. now right.
  - apply (not_inherited "/"%char); [reflexivity|].
    unfold HistoryScreen.dateKey.
    destruct (timestamp r) as [t|]; [|reflexivity].
    destruct (validTime t); [|reflexivity].
    rewrite freeOf_app. apply andb_false_iff. right. reflexivity.
Qed.

(** The result of [prepareChartData], with the object of the loop
    replaced by what it holds. *)
Lemma prepareChartData_run (st : HistoryScreen.State) :
  let data := HistoryScreen.data st in
  let today := String.eqb (HistoryScreen.period st) "today" in
  let keyOf :=
    if today then HistoryScreen.timeKey else HistoryScreen.dateKey in
  let keys := firstOccurrences (map keyOf data) in
  let labels :=
    if today
    then (if (12 <? length keys)%nat
          then HistoryScreen.evenIndices
                 (sort_ HistoryScreen.laterHour keys)
          else sort_ HistoryScreen.laterHour keys)
    else HistoryScreen.lastPoints 10 keys in
  HistoryScreen.prepareChartData st
  = Return
      (if (length data =? 0)%nat
       then HistoryScreen.mkChart ["No Data"] [JS.ofZ 0]
       else HistoryScreen.mkChart labels
              (map (fun k =>
                      roundedAverage (valuesOf (recordsOf keyOf k data)))
                 labels)).
Proof.
  intros data today keyOf keys labels.
  unfold HistoryScreen.prepareChartData. fold data.
  destruct (length data =? 0)%nat; [reflexivity|].
  subst labels keys keyOf today.
  destruct (String.eqb (HistoryScreen.period st) "today").
  - rewrite groupValues_run, groups_fold_spec
      by (apply List.Forall_forall; intros r _;
          apply chart_keys_not_inherited).
    rewrite groupsSpec_keys. f_equal.
    set (keys := firstOccurrences (map HistoryScreen.timeKey data)).
    pose proof (sort_perm HistoryScreen.laterHour keys) as Hperm.
    rewrite !length_map, (Permutation_length Hperm).
    assert (map (fun timeKey =>
                   roundedAverage
                     (default []
                        (snd <$> List.find
                                   (fun g => String.eqb (fst g) timeKey)
                                   (groupsSpec HistoryScreen.timeKey data))))
              (sort_ HistoryScreen.laterHour keys)
            = map (fun k =>
                     roundedAverage
                       (valuesOf (recordsOf HistoryScreen.timeKey k data)))
                (sort_ HistoryScreen.laterHour keys)) as ->.
    { apply map_ext_in. intros k Hk.
      rewrite find_groupsSpec; [reflexivity|].
      apply firstOccurrences_In. eapply Permutation_in; eassumption. }
    destruct (12 <? length keys)%nat; [|reflexivity].
    now rewrite evenIndices_map.
  - rewrite groupValues_run, groups_fold_spec
      by (apply List.Forall_forall; intros r _;
          apply chart_keys_not_inherited).
    rewrite groupsSpec_keys. f_equal. unfold groupsSpec.
    rewrite map_map. cbn [snd]. now rewrite lastPoints_map.
Qed.

End Chart.

Lemma hour_key_parses (h : Z) : parseInt (pretty h ++ ":00") = Some h.
Proof. now apply parseInt_pretty_suffix. Qed.

(** X22.  [prepareChartData] never fails and gives as many points as labels.
    Without data it gives the one label [No Data].  Otherwise the labels
    are keys of records of the data, pairwise different, and the point
    of a label is the rounded average of the records with that key.  For
    a period of days the labels are the last ten days in the order in
    which they first occur.  For the period [today], where the engine
    gives hours from 0 to 23, there are at most 13 labels, and when every
    record has a valid time there are at most 12 and they are in the
    order of the hours. *)
Theorem chart_has_few_points (E : Engine) (st : HistoryScreen.State) :
  let data := HistoryScreen.data st in
  let today := String.eqb (HistoryScreen.period st) "today" in
  let keyOf :=
    if today then HistoryScreen.timeKey else HistoryScreen.dateKey in
  exists chart,
    HistoryScreen.prepareChartData st = Return chart
    /\ length (HistoryScreen.labels chart)
       = length (HistoryScreen.points chart)
    /\ (data = [] -> chart = HistoryScreen.mkChart ["No Data"] [JS.ofZ 0])
    /\ (data <> [] ->
        List.NoDup (HistoryScreen.labels chart)
        /\ (forall label, In label (HistoryScreen.labels chart) ->
              exists r, In r data /\ keyOf r = label)
        /\ HistoryScreen.points chart
           = map (fun k =>
                    roundedAverage (valuesOf (recordsOf keyOf k data)))
               (HistoryScreen.labels chart)
        /\ (today = false ->
            (length (HistoryScreen.labels chart) <= 10)%nat
            /\ HistoryScreen.labels chart
               = HistoryScreen.lastPoints 10
                   (firstOccurrences (map HistoryScreen.dateKey data)))
        /\ (today = true ->
            (forall t, 0 <= getHours t <= 23) ->
            (length (HistoryScreen.labels chart) <= 13)%nat
            /\ (Forall (fun r => exists t, timestamp r = Some t
                                           /\ validTime t = true) data ->
                (length (HistoryScreen.labels chart) <= 12)%nat
                /\ StronglySorted
                     (fun a b => exists x y,
                        parseInt a = Some x /\ parseInt b = Some y /\ x <= y)
                     (HistoryScreen.labels chart)))).
Proof.
  intros data today keyOf.
  pose proof (prepareChartData_run st) as Hrun. cbv zeta in Hrun.
  fold data today keyOf in Hrun.
  set (keys := firstOccurrences (map keyOf data)) in *.
  eexists. split; [exact Hrun|].
  destruct (length data =? 0)%nat eqn:Elen.
  { apply Nat.eqb_eq, length_zero_iff_nil in Elen.
    split; [reflexivity|]. split; [reflexivity|].
    intros Hne. contradiction. }
  cbn [HistoryScreen.labels HistoryScreen.points].
  set (labels := if today then _ else _).
  set (sorted := if today then sort_ HistoryScreen.laterHour keys else keys).
  assert (sublist labels sorted) as Hsub.
  { subst labels sorted. destruct today.
    - destruct (12 <? length keys)%nat;
        [apply evenIndices_sublist | reflexivity].
    - apply sublist_drop. }
  assert (Permutation sorted keys) as Hperm.
  { subst sorted. destruct today; [apply sort_perm | reflexivity]. }
  assert (forall label, In label labels -> In label keys) as Hin.
  { intros label Hl. eapply Permutation_in; [exact Hperm|].
    apply list_elem_of_In. eapply elem_of_sublist; [|exact Hsub].
    now apply list_elem_of_In. }
  split; [now rewrite length_map|].
  split; [intros Hnil; rewrite Hnil in Elen; discriminate|].
  intros _. split.
  { apply NoDup_ListNoDup.
    apply (fun H => sublist_NoDup _ _ H Hsub), NoDup_ListNoDup.
    eapply Permutation_NoDup; [symmetry; exact Hperm|].
    apply firstOccurrences_NoDup. }
  split.
  { intros label Hl. apply Hin, firstOccurrences_In, in_map_iff in Hl.
    destruct Hl as (r & Hr & Hrin). now exists r. }
  split; [reflexivity|]. split.
  { intros Htoday. subst labels keys keyOf. rewrite Htoday.
    split; [apply lastPoints_length | reflexivity]. }
  intros Htoday Hhours. subst labels sorted keys keyOf. rewrite Htoday in *.
  set (keys := firstOccurrences (map HistoryScreen.timeKey data)) in *.
  assert (forall k, In k keys ->
            k = "NaN:00" \/ exists h, 0 <= h <= 23 /\ k = pretty h ++ ":00")
    as Hkeys.
  { intros k Hk. apply firstOccurrences_In, in_map_iff in Hk.
    destruct Hk as (r & <- & _). unfold HistoryScreen.timeKey.
    destruct (timestamp r) as [t|]; [|now left].
    destruct (validTime t); [|now left].
    right. exists (getHours t). split; [apply Hhours | reflexivity]. }
  assert (length keys <= 25)%nat as Hall.
  { change 25%nat with (length ("NaN:00" :: hourLabels)).
    apply NoDup_incl_length; [apply firstOccurrences_NoDup|].
    intros k Hk. destruct (Hkeys k Hk) as [->|(h & Hh & ->)]; [now left|].
    right. unfold hourLabels.
    apply (in_map (fun h => pretty h ++ ":00")), list_elem_of_In,
      elem_of_seqZ. lia. }
  pose proof (Permutation_length Hperm) as Hlen.
  pose proof (evenIndices_length (sort_ HistoryScreen.laterHour keys))
    as Heven.
  split.
  { destruct (12 <? length keys)%nat eqn:E12; [lia|].
    apply Nat.ltb_ge in E12. lia. }
  intros Hvalid.
  assert (forall k, In k keys ->
            exists h, 0 <= h <= 23 /\ k = pretty h ++ ":00") as Hkeys'.
  { intros k Hk. apply firstOccurrences_In, in_map_iff in Hk.
    destruct Hk as (r & <- & Hr). rewrite List.Forall_forall in Hvalid.
    destruct (Hvalid r Hr) as (t & Ht & Hv).
    unfold HistoryScreen.timeKey. rewrite Ht, Hv.
    exists (getHours t). split; [apply Hhours | reflexivity]. }
  assert (length keys <= 24)%nat as Hall'.
  { change 24%nat with (length hourLabels).
    apply NoDup_incl_length; [apply firstOccurrences_NoDup|].
    intros k Hk. destruct (Hkeys' k Hk) as (h & Hh & ->).
    unfold hourLabels.
    apply (in_map (fun h => pretty h ++ ":00")), list_elem_of_In,
      elem_of_seqZ. lia. }
  split.
  { destruct (12 <? length keys)%nat eqn:E12; [lia|].
    apply Nat.ltb_ge in E12. lia. }
  eapply StronglySorted_sublist; [exact Hsub|].
  set (P := fun k : string => exists h : Z, parseInt k = Some h).
  set (m := fun k : string => inject_Z (default 0 (parseInt k))).
  assert (forall k, In k keys -> P k) as HP.
  { intros k Hk. destruct (Hkeys' k Hk) as (h & _ & ->).
    exists h. apply hour_key_parses. }
  apply (StronglySorted_weaken (fun a b => (m a <= m b)%Q) _ P).
  - intros a b [x Hx] [y Hy] Hle. exists x, y. unfold m in Hle.
    rewrite Hx, Hy in Hle. cbn [default] in Hle. unfold id in Hle.
    rewrite <- Zle_Qle in Hle. auto.
  - apply List.Forall_forall. intros k Hk. apply HP.
    eapply Permutation_in; eassumption.
  - apply (sort_sorted _ m P).
    + intros a b [x Hx] [y Hy]. unfold HistoryScreen.laterHour, m.
      rewrite Hx, Hy. cbn [default]. unfold id.
      rewrite <- Zlt_Qlt, Z.gtb_ltb, Z.ltb_lt. lia.
    + apply List.Forall_forall. exact HP.
Qed.

Lemma TestEngine_hours (t : Z) :
  0 <= getHours (Engine := TestEngine.engine) t <= 23.
Proof.
  cbn [getHours TestEngine.engine]. unfold TestRuntime.msPerDay.
  pose proof (Z.mod_pos_bound t 86400000 ltac:(lia)) as Hmod.
  split.
  - apply Z.div_pos; lia.
  - apply Z.lt_succ_r. apply Z.div_lt_upper_bound; lia.
Qed.

Lemma chart_has_few_points_witness :
  let st := historyOf "today" manyHours in
  length manyHours = 21%nat
  /\ exists chart,
       HistoryScreen.prepareChartData (E := TestEngine.engine) st
       = Return chart
       /\ (length (HistoryScreen.labels chart) <= 12)%nat
       /\ StronglySorted
            (fun a b => exists x y,
               parseInt a = Some x /\ parseInt b = Some y /\ x <= y)
            (HistoryScreen.labels chart).
Proof.
  intros st. split; [reflexivity|].
  destruct (chart_has_few_points TestEngine.engine st)
    as (chart & Hrun & _ & _ & Hdata).
  exists chart. split; [exact Hrun|].
  destruct Hdata as (_ & _ & _ & _ & Htoday); [discriminate|].
  apply Htoday; [reflexivity | apply TestEngine_hours|].
  apply Forall_forall. intros r Hr. apply list_elem_of_In in Hr.
  unfold st, historyOf, manyHours in Hr. cbn [HistoryScreen.data] in Hr.
  apply in_map_iff in Hr as (h & <- & Hh).
  eexists. split; [reflexivity|].
  cbn [In] in Hh.
  repeat (destruct Hh as [<-|Hh]; [reflexivity|]). destruct Hh.
Defined.

(** The 21 hours of [manyHours] are drawn as every other hour from 3:00
    to 23:00; three days are drawn in the order in which they occur. *)
Example chart_of_many_hours :
  HistoryScreen.prepareChartData (E := TestEngine.engine)
    (historyOf "today" manyHours)
  = Return
      (HistoryScreen.mkChart
         ["3:00"; "5:00"; "7:00"; "9:00"; "11:00"; "13:00"; "15:00";
          "17:00"; "19:00"; "21:00"; "23:00"]
         (map JS.ofZ [60; 62; 64; 66; 68; 70; 72; 74; 76; 78; 80]))
  /\ HistoryScreen.prepareChartData (E := TestEngine.engine)
       (historyOf "7" threeDays)
     = Return
         (HistoryScreen.mkChart ["11/2"; "11/3"; "11/1"]
            (map JS.ofZ [74; 90; 64])).
Proof. split; vm_compute; reflexivity. Qed.

(** * The heart rate simulated for an activity *)



(** * Thresholds that were changed *)

(** X24.  [updateThresholds] replaces the bounds it is given and keeps
    the others, and changes nothing else of the service or the store;
    [getThresholds] returns the result, and [checkHeartRateThreshold]
    judges by it: a whole heart rate within the new bounds is normal.
    The advice of [getHealthRecommendation] and the badge of the home
    screen do not follow: they keep to 60 and 100, so for a heart rate
    within the new bounds and above 100 the verdict is normal while the
    advice is to rest and the badge says [High], and below 60 the advice
    is to be more active and the badge says [Low]. *)
Theorem updated_thresholds_reach_the_evaluator_only (R : Runtime) (s : App)
    (lo hi hr : Z) (bloodOxygen steps : JS.number)
    (shown : HomeScreen.State) :
  let new :=
    HealthServiceMethods.mkNewThresholds (Some (JS.ofZ lo)) (Some (JS.ofZ hi))
      None in
  let s' := snd (HealthServiceMethods.updateThresholds new s) in
  let this := thresholds (service s') in
  let advice :=
    HealthServiceMethods.getHealthRecommendation (JS.ofZ hr) bloodOxygen
      steps in
  this
  = HealthService.mkThresholds (JS.ofZ lo) (JS.ofZ hi)
      (HealthService.minBloodOxygen (thresholds (service s)))
  /\ fst (HealthServiceMethods.getThresholds s') = Return this
  /\ dailyData (service s') = dailyData (service s)
  /\ world s' = world s
  /\ (lo <= hr <= hi ->
      HomeScreen.heartRate shown = inject_Z hr ->
      HealthService.checkHeartRateThreshold this (JS.ofZ hr) None
      = HealthService.mkVerdict "normal" "Heart rate is normal" "normal"
      /\ (100 < hr ->
          (exists rest,
             advice = "Make sure to rest and avoid overexertion" :: rest)
          /\ HomeScreen.getHeartRateStatus shown = "High")
      /\ (45 <= hr < 60 ->
          (exists rest,
             advice
             = "Consider increasing physical activity to improve cardiovascular fitness"
               :: rest)
          /\ HomeScreen.getHeartRateStatus shown = "Low")).
Proof.
  intros new s' this advice.
  assert (this
          = HealthService.mkThresholds (JS.ofZ lo) (JS.ofZ hi)
              (HealthService.minBloodOxygen (thresholds (service s))))
    as Hthis by reflexivity.
  split; [exact Hthis|]. split; [reflexivity|]. split; [reflexivity|].
  split; [reflexivity|].
  intros Hrange Hshown. rewrite Hthis. subst advice.
  split.
  { unfold HealthService.checkHeartRateThreshold.
    cbn [HealthService.minHeartRate HealthService.maxHeartRate].
    cbv [default from_option id]. unfold JS.ltb. rewrite !gtb_ofZ.
    replace (hr <? lo) with false by lia.
    now replace (hi <? hr) with false by lia. }
  unfold HealthServiceMethods.getHealthRecommendation, JS.ltb.
  rewrite !gtb_ofZ. split.
  - intros Hhigh.
    replace (hr <? 60) with false by lia.
    replace (100 <? hr) with true by lia.
    split.
    + cbn [app]. destruct (JS.gtb (JS.ofZ 95) bloodOxygen),
        (JS.gtb (JS.ofZ 5000) steps), (JS.gtb steps (JS.ofZ 10000));
        eexists; reflexivity.
    + destruct (status_of_whole_rate shown hr Hshown ltac:(lia)) as [-> _].
      replace (hr <? 60) with false by lia.
      now replace (100 <? hr) with true by lia.
  - intros Hlow.
    replace (hr <? 60) with true by lia.
    split.
    + cbn [app]. destruct (JS.gtb (JS.ofZ 95) bloodOxygen),
        (JS.gtb (JS.ofZ 5000) steps), (JS.gtb steps (JS.ofZ 10000));
        eexists; reflexivity.
    + destruct (status_of_whole_rate shown hr Hshown ltac:(lia)) as [-> _].
      now replace (hr <? 60) with true by lia.
Qed.

Lemma updated_thresholds_reach_the_evaluator_only_witness :
  let s' :=
    snd (HealthServiceMethods.updateThresholds
           (HealthServiceMethods.mkNewThresholds (Some (JS.ofZ 50))
              (Some (JS.ofZ 120)) None) testApp) in
  HealthService.status
    (HealthService.checkHeartRateThreshold (H := TestRuntime.runtime)
       (thresholds (service s')) (JS.ofZ 110) None) = "normal"
  /\ HomeScreen.getHeartRateStatus
       (HomeScreen.mkState 110 97 0 0 0 true false "") = "High"
  /\ HealthServiceMethods.getHealthRecommendation (JS.ofZ 110) (JS.ofZ 97)
       (JS.ofZ 6000)
     = ["Make sure to rest and avoid overexertion"].
Proof.
  intros s'.
  destruct (updated_thresholds_reach_the_evaluator_only TestRuntime.runtime
              testApp 50 120 110 (JS.ofZ 97) (JS.ofZ 6000)
              (HomeScreen.mkState 110 97 0 0 0 true false ""))
    as (_ & _ & _ & _ & Hin).
  destruct Hin as (Hverdict & Hhigh & _); [lia | reflexivity|].
  split; [subst s'; now rewrite Hverdict|].
  split; [apply Hhigh; lia | reflexivity].
Defined.
